(** * Domain name toolkit and monitor: expiry checks and alert evaluation

    A shallow embedding of

    - [domain_name_toolkit/tools/check_domain_expiry.py]
    - [domain_name_toolkit/tools/check_ssl_expiry.py]
    - [domain_name_monitor/domain_monitor_app.py]
      ([DomainMonitor.check_domain], [check_all_domains], [get_alerts])
    - the dataclasses of [domain_name_monitor/config_loader.py]

    Python strings are [string], Python integers are [Z], Python dicts
    with a fixed set of keys are records of optional fields (a missing
    key is [None]), and everything the tools do to the outside world
    (WHOIS query, TCP connection, TLS handshake, clock, remote tool
    execution) goes through an environment of oracles that see the
    list of requests issued so far. *)

From Stdlib Require Import String Ascii List ZArith Lia Bool.
From Stdlib Require Import DecimalString.
Import ListNotations.

(** ** Python string operations used by the tools *)

Module PyStr.

Local Open Scope string_scope.

(** [s.startswith(p)] *)
Fixpoint startswith (p s : string) : bool :=
  match p with
  | EmptyString => true
  | String a p' =>
      match s with
      | EmptyString => false
      | String b s' => Ascii.eqb a b && startswith p' s'
      end
  end.

(** The scanning loop of [str.replace old new] for a non-empty [old]:
    left to right, non-overlapping occurrences.  [skip] counts the
    characters of the occurrence just matched that are still to be
    dropped. *)
Fixpoint replace_from (old new : string) (skip : nat) (s : string) : string :=
  match s with
  | EmptyString => EmptyString
  | String c s' =>
      match skip with
      | S k => replace_from old new k s'
      | O =>
          if startswith old s
          then new ++ replace_from old new (String.length old - 1) s'
          else String c (replace_from old new 0 s')
      end
  end.

(** With an empty [old], Python puts [new] before every character and
    at the end. *)
Fixpoint interleave (new s : string) : string :=
  match s with
  | EmptyString => new
  | String c s' => new ++ String c (interleave new s')
  end.

(** [s.replace(old, new)] *)
Definition replace (old new s : string) : string :=
  match old with
  | EmptyString => interleave new s
  | String _ _ => replace_from old new 0 s
  end.

(** [s.split(sep)] for a one-character separator; never the empty list. *)
Fixpoint split (sep : ascii) (s : string) : list string :=
  match s with
  | EmptyString => [EmptyString]
  | String c s' =>
      if Ascii.eqb c sep then EmptyString :: split sep s'
      else match split sep s' with
           | [] => [String c EmptyString]
           | p :: ps => String c p :: ps
           end
  end.

(** Membership of a character in a string. *)
Fixpoint contains_char (c : ascii) (s : string) : bool :=
  match s with
  | EmptyString => false
  | String b s' => Ascii.eqb b c || contains_char c s'
  end.

(** [s.endswith(suf)] *)
Fixpoint endswith (s suf : string) : bool :=
  String.eqb s suf ||
  match s with
  | EmptyString => false
  | String _ s' => endswith s' suf
  end.

End PyStr.

(** ** The domain name normalizer

    Both tools start with the same expression:
[[
    clean_domain = (domain.replace("http://", "")
                          .replace("https://", "")
                          .replace("www.", "")
                          .split("/")[0])
]] *)

Module Normalizer.
Import PyStr.
Local Open Scope string_scope.

Definition slash : ascii := "/"%char.

Definition clean_domain (domain : string) : string :=
  hd EmptyString
     (split slash
        (replace "www." ""
           (replace "https://" ""
              (replace "http://" "" domain)))).

(** A raw string is a variation of host [h] when it is [h] behind an
    optional scheme and an optional [www.], followed by an optional
    path that starts with a slash. *)
Definition is_scheme (s : string) : Prop :=
  s = "" \/ s = "http://" \/ s = "https://".

Definition is_www (s : string) : Prop := s = "" \/ s = "www.".

Definition is_path (s : string) : Prop := s = "" \/ exists p, s = String slash p.

Definition variation_of (h d : string) : Prop :=
  exists sch www path,
    is_scheme sch /\ is_www www /\ is_path path /\ d = sch ++ www ++ h ++ path.

(** What the normalizer needs of a host for the path to be cut where
    it starts: no slash inside, and the host does not end in a scheme
    name with its colon (which would join the path's slashes into a
    scheme). *)
Definition host_like (h : string) : Prop :=
  contains_char slash h = false /\
  endswith h "http:" = false /\ endswith h "https:" = false.

End Normalizer.

(** ** Python values the tools handle *)

Module Py.
Local Open Scope string_scope.
Local Open Scope Z_scope.

(** Exception classes that the [except] clauses tell apart, and the
    ones the tools' own expressions can raise.  All of them derive from
    [Exception].  The hierarchy is open: [Subclass name base] is a class
    declared as [class name(base)], and [OtherException name] is a
    class known by its name only.  Such a class is one of the classes
    the [except] clauses name, or derives from one, when its name is
    that of a standard library class that does; otherwise it derives
    from none of them. *)
Inductive exn_class : Type :=
| SocketGaierror
| SocketTimeout
| SslSSLError
| SslCertVerificationError
| IndexError
| KeyError
| AttributeError
| TypeError
| ValueError
| OtherException (name : string)
| Subclass (name : string) (base : exn_class).

(** The names of [socket.gaierror]. *)
Definition gaierror_names : list string := ["gaierror"; "socket.gaierror"].

(** The names of [socket.timeout], which since Python 3.10 is the
    built-in [TimeoutError] itself. *)
Definition timeout_names : list string :=
  ["timeout"; "socket.timeout"; "TimeoutError"].

(** The names of [ssl.SSLError] and of the classes the [ssl] module
    derives from it. *)
Definition ssl_error_subclasses : list string :=
  ["SSLError"; "ssl.SSLError";
   "SSLZeroReturnError"; "SSLWantReadError"; "SSLWantWriteError";
   "SSLSyscallError"; "SSLEOFError"; "SSLCertVerificationError";
   "CertificateError"].

Definition named_in (names : list string) (name : string) : bool :=
  existsb (String.eqb name) names.

(** [isinstance(e, socket.gaierror)]: true of the class itself and of
    every class below it. *)
Fixpoint is_gaierror (c : exn_class) : bool :=
  match c with
  | SocketGaierror => true
  | OtherException name => named_in gaierror_names name
  | Subclass _ base => is_gaierror base
  | _ => false
  end.

(** [isinstance(e, socket.timeout)] *)
Fixpoint is_timeout (c : exn_class) : bool :=
  match c with
  | SocketTimeout => true
  | OtherException name => named_in timeout_names name
  | Subclass _ base => is_timeout base
  | _ => false
  end.

(** [isinstance(e, ssl.SSLError)] *)
Fixpoint is_sslerror (c : exn_class) : bool :=
  match c with
  | SslSSLError | SslCertVerificationError => true
  | OtherException name => named_in ssl_error_subclasses name
  | Subclass _ base => is_sslerror base
  | _ => false
  end.


Definition SslSSLZeroReturnError : exn_class :=
  Subclass "SSLZeroReturnError" SslSSLError.

(** An exception object: its class and [str(e)]. *)
Record exn : Type := Exn { exn_cls : exn_class; exn_str : string }.

(** A [datetime]: wall-clock microseconds since the epoch, and the UTC
    offset of its [tzinfo] in microseconds ([None] for a naive value). *)
Record datetime : Type := Datetime { dt_wall : Z; dt_tzinfo : option Z }.

(** [d.replace(tzinfo=timezone.utc)] *)
Definition replace_tzinfo_utc (d : datetime) : datetime :=
  {| dt_wall := dt_wall d; dt_tzinfo := Some 0 |}.

(** A normalized [timedelta]: [0 <= seconds < 86400] and
    [0 <= microseconds < 1000000]; only [days] carries the sign. *)
Record timedelta : Type :=
  Timedelta { td_days : Z; td_seconds : Z; td_microseconds : Z }.

Definition normalize_timedelta (us : Z) : timedelta :=
  let s := us / 1000000 in
  {| td_days := s / 86400;
     td_seconds := s mod 86400;
     td_microseconds := us mod 1000000 |}.

(** [a - b] on datetimes: a [TypeError] when exactly one is naive,
    otherwise the difference of the instants. *)
Definition datetime_sub (a b : datetime) : exn + timedelta :=
  match dt_tzinfo a, dt_tzinfo b with
  | Some oa, Some ob =>
      inr (normalize_timedelta ((dt_wall a - oa) - (dt_wall b - ob)))
  | None, None => inr (normalize_timedelta (dt_wall a - dt_wall b))
  | _, _ =>
      inl (Exn TypeError "can't subtract offset-naive and offset-aware datetimes")
  end.

(** The instant on the UTC time line that an aware datetime denotes,
    in microseconds since the epoch. *)
Definition utc_instant (d : datetime) : Z :=
  dt_wall d - match dt_tzinfo d with Some off => off | None => 0 end.

Definition microseconds_per_day : Z := 86400 * 1000000.

(** What [domain_info.expiration_date] can hold. *)
#[warnings="-register-all"]
Inductive pyval : Type :=
| PyNone
| PyDatetime (d : datetime)
| PyStr (s : string)
| PyList (l : list pyval).

(** The object returned by [whois.whois].  [we_registrar] is [None]
    when the object has no [registrar] attribute, and [Some None] when
    the attribute is bound to [None]. *)
Record WhoisEntry : Type := {
  we_expiration_date : pyval;
  we_registrar : option (option string)
}.

(** A certificate name as [getpeercert] gives it. *)
Definition rdns : Type := list (list (string * string)).

(** The dict returned by [ssock.getpeercert()]. *)
Record Cert : Type := {
  cert_notAfter : option string;
  cert_subject : option rdns;
  cert_issuer : option rdns
}.

(** The dict a tool returns; a field is [None] when the key is missing.
    For [cd_registrar], [None] also stands for a key bound to [None]:
    [dict.get] does not tell the two apart. *)
Record check_dict : Type := {
  cd_domain : option string;
  cd_status : option string;
  cd_message : option string;
  cd_expiration_date : option string;
  cd_days_until_expiry : option Z;
  cd_is_expired : option bool;
  cd_expires_soon : option bool;
  cd_registrar : option string;
  cd_subject : option rdns;
  cd_issuer : option rdns
}.

(** [{"domain": d, "status": "error", "message": m}] *)
Definition error_dict (d m : string) : check_dict :=
  {| cd_domain := Some d; cd_status := Some "error"; cd_message := Some m;
     cd_expiration_date := None; cd_days_until_expiry := None;
     cd_is_expired := None; cd_expires_soon := None;
     cd_registrar := None; cd_subject := None; cd_issuer := None |}.

End Py.

(** ** The outside world

    Every call that leaves the process is a [request].  An oracle
    answers a request from the list of requests issued before it, so
    that the same call may fail once and succeed later. *)

Module World.
Import Py.
Local Open Scope string_scope.

Inductive request : Type :=
| WhoisQuery (domain : string)
| CreateDefaultContext
| CreateConnection (host : string) (port : Z) (timeout : Z)
| WrapSocket (server_hostname : string)
| GetPeerCert
| NowUtc
| ToolExecute (tool_name : string) (domain : string) (user_id : string)
| NowLocal.

Definition log : Type := list request.

(** The oracles.  [tools_execute] is [client.tools.execute] followed
    by [.output.value] for a service that runs the two tools: it
    raises or gives a dict as the tools build them, with a day count
    that is an int when present.  Replies of any other form (no
    output, a value that is no dict, a day count bound to [None]) are
    those of [Replies.ExecuteToolResponse]. *)
Record Env : Type := {
  whois_whois : log -> string -> exn + option WhoisEntry;
  ssl_create_default_context : log -> exn + unit;
  socket_create_connection : log -> string -> Z -> Z -> exn + unit;
  context_wrap_socket : log -> string -> exn + unit;
  ssock_getpeercert : log -> exn + Cert;
  datetime_now_utc : log -> Z;
  datetime_strptime : string -> string -> exn + datetime;
  datetime_isoformat : datetime -> string;
  tools_execute : log -> string -> string -> string -> exn + check_dict;
  datetime_now_isoformat : log -> string
}.

(** Computations that issue requests and may raise. *)
Definition M (A : Type) : Type := log -> (exn + A) * log.

Definition ret {A} (a : A) : M A := fun l => (inr a, l).

Definition raise {A} (e : exn) : M A := fun l => (inl e, l).

Definition bind {A B} (m : M A) (k : A -> M B) : M B :=
  fun l =>
    match m l with
    | (inl e, l') => (inl e, l')
    | (inr a, l') => k a l'
    end.

(** [try: body  except Exception as e: handler e] *)
Definition try_except {A} (body : M A) (handler : exn -> M A) : M A :=
  fun l =>
    match body l with
    | (inl e, l') => handler e l'
    | (inr a, l') => (inr a, l')
    end.

(** A pure expression that may raise. *)
Definition lift {A} (r : exn + A) : M A := fun l => (r, l).

(** Issue request [r]; the oracle sees the log before [r] is added. *)
Definition perform {A} (r : request) (answer : log -> exn + A) : M A :=
  fun l => (answer l, (l ++ [r])%list).

End World.

Declare Scope py_scope.
Notation "x <- m ;; k" := (World.bind m (fun x => k))
  (at level 61, m at next level, right associativity) : py_scope.

(** ** The two tools of [domain_name_toolkit] *)

Module Toolkit.
Import Py World.
Local Open Scope string_scope.
Local Open Scope Z_scope.
Local Open Scope py_scope.

Section Tools.
Variable env : Env.

(** [if isinstance(expiration_date, list): expiration_date = expiration_date[0]] *)
Definition first_if_list (expiration_date : pyval) : exn + pyval :=
  match expiration_date with
  | PyList [] => inl (Exn IndexError "list index out of range")
  | PyList (x :: _) => inr x
  | v => inr v
  end.

(** [if expiration_date.tzinfo is None:
       expiration_date = expiration_date.replace(tzinfo=timezone.utc)],
    reached only when [expiration_date] is not [None]. *)
Definition ensure_aware (expiration_date : pyval) : exn + datetime :=
  match expiration_date with
  | PyDatetime d =>
      match dt_tzinfo d with
      | None => inr (replace_tzinfo_utc d)
      | Some _ => inr d
      end
  | PyNone =>
      inl (Exn AttributeError "'NoneType' object has no attribute 'tzinfo'")
  | PyStr _ =>
      inl (Exn AttributeError "'str' object has no attribute 'tzinfo'")
  | PyList _ =>
      inl (Exn AttributeError "'list' object has no attribute 'tzinfo'")
  end.

(** [datetime.now(timezone.utc)] *)
Definition now_utc : M datetime :=
  fun l => (inr {| dt_wall := datetime_now_utc env l; dt_tzinfo := Some 0 |},
            (l ++ [NowUtc])%list).

(** [getattr(domain_info, "registrar", "Unknown")] *)
Definition getattr_registrar (domain_info : WhoisEntry) : option string :=
  match we_registrar domain_info with
  | None => Some "Unknown"
  | Some v => v
  end.

(** The body of the [try] block of [check_domain_expiry]. *)
Definition check_domain_expiry_body (domain : string) : M check_dict :=
  let clean_domain := Normalizer.clean_domain domain in
  domain_info <- perform (WhoisQuery clean_domain)
                         (fun l => whois_whois env l clean_domain) ;;
  match domain_info with
  | None => ret (error_dict clean_domain "Domain not found.")
  | Some domain_info =>
      expiration_date <- lift (first_if_list (we_expiration_date domain_info)) ;;
      match expiration_date with
      | PyNone =>
          ret (error_dict clean_domain "Could not determine expiration date")
      | _ =>
          expiration_date <- lift (ensure_aware expiration_date) ;;
          now <- now_utc ;;
          delta <- lift (datetime_sub expiration_date now) ;;
          let days_until_expiry := td_days delta in
          ret {| cd_domain := Some clean_domain;
                 cd_status := Some "success";
                 cd_message := None;
                 cd_expiration_date := Some (datetime_isoformat env expiration_date);
                 cd_days_until_expiry := Some days_until_expiry;
                 cd_is_expired := Some (days_until_expiry <? 0);
                 cd_expires_soon :=
                   Some ((0 <=? days_until_expiry) && (days_until_expiry <=? 30));
                 cd_registrar := getattr_registrar domain_info;
                 cd_subject := None;
                 cd_issuer := None |}
      end
  end.

Definition check_domain_expiry (domain : string) : M check_dict :=
  try_except (check_domain_expiry_body domain)
    (fun e => ret (error_dict domain ("Error checking domain: " ++ exn_str e))).

(** [cert['notAfter']] *)
Definition cert_getitem_notAfter (cert : Cert) : exn + string :=
  match cert_notAfter cert with
  | Some v => inr v
  | None => inl (Exn KeyError "'notAfter'")
  end.

(** [cert.get(key, [])] *)
Definition get_or_empty (v : option rdns) : rdns :=
  match v with Some x => x | None => [] end.

(** The body of the [try] block of [check_ssl_expiry].  The [port]
    parameter is in scope and never read. *)
Definition check_ssl_expiry_body (domain : string) (port : Z) : M check_dict :=
  let clean_domain := Normalizer.clean_domain domain in
  _ <- perform CreateDefaultContext (ssl_create_default_context env) ;;
  _ <- perform (CreateConnection clean_domain 443 10)
               (fun l => socket_create_connection env l clean_domain 443 10) ;;
  _ <- perform (WrapSocket clean_domain)
               (fun l => context_wrap_socket env l clean_domain) ;;
  cert <- perform GetPeerCert (ssock_getpeercert env) ;;
  expiry_date_str <- lift (cert_getitem_notAfter cert) ;;
  expiry_date <- lift (datetime_strptime env expiry_date_str "%b %d %H:%M:%S %Y %Z") ;;
  let expiry_date := replace_tzinfo_utc expiry_date in
  now <- now_utc ;;
  delta <- lift (datetime_sub expiry_date now) ;;
  let days_until_expiry := td_days delta in
  ret {| cd_domain := Some clean_domain;
         cd_status := Some "success";
         cd_message := None;
         cd_expiration_date := Some (datetime_isoformat env expiry_date);
         cd_days_until_expiry := Some days_until_expiry;
         cd_is_expired := Some (days_until_expiry <? 0);
         cd_expires_soon :=
           Some ((0 <=? days_until_expiry) && (days_until_expiry <=? 30));
         cd_registrar := None;
         cd_subject := Some (get_or_empty (cert_subject cert));
         cd_issuer := Some (get_or_empty (cert_issuer cert)) |}.

(** The [except] clauses of [check_ssl_expiry], tried in source order. *)
Definition ssl_error_message (e : exn) : string :=
  if is_gaierror (exn_cls e) then "Domain not found or not reachable"
  else if is_timeout (exn_cls e) then "Connection timeout"
  else if is_sslerror (exn_cls e) then "SSL error: " ++ exn_str e
  else "Error checking SSL certificate: " ++ exn_str e.

Definition check_ssl_expiry (domain : string) (port : Z) : M check_dict :=
  try_except (check_ssl_expiry_body domain port)
    (fun e => ret (error_dict domain (ssl_error_message e))).

End Tools.

(** The requests [check_ssl_expiry] can issue, in order. *)
Definition ssl_requests (clean_domain : string) : list request :=
  [CreateDefaultContext; CreateConnection clean_domain 443 10;
   WrapSocket clean_domain; GetPeerCert; NowUtc].

(** [p] is an initial segment of [l]. *)
Definition is_prefix_of {A} (p l : list A) : Prop := exists r, l = (p ++ r)%list.

(** *** The expiry invariant as the specification words it *)

(** Whole days from [now] to the instant [expiration], both in
    microseconds on the UTC time line: the floor of the quotient. *)
Definition days_between (expiration now : Z) : Z :=
  (expiration - now) / microseconds_per_day.

(** The instant a WHOIS expiration field stands for: the timestamp
    itself, or the first one of a collection; a timestamp without a
    time zone is read as UTC. *)
Definition expiration_instant (v : pyval) : option Z :=
  match v with
  | PyDatetime d => Some (utc_instant d)
  | PyList (PyDatetime d :: _) => Some (utc_instant d)
  | _ => None
  end.

Definition expiry_fields (expiration now : Z) (r : check_dict) : Prop :=
  let days := days_between expiration now in
  cd_days_until_expiry r = Some days /\
  cd_is_expired r = Some (days <? 0) /\
  cd_expires_soon r = Some ((0 <=? days) && (days <=? 30)).

Inductive tool : Type :=
| Whois
| Tls (port : Z).

Definition run_check (env : Env) (t : tool) (domain : string) : M check_dict :=
  match t with
  | Whois => check_domain_expiry env domain
  | Tls port => check_ssl_expiry env domain port
  end.

(** [reads_expiry env t domain l expiration now]: started on log [l],
    the check obtains the expiration instant [expiration] from its
    data source and then reads [now] from the clock. *)
Inductive reads_expiry (env : Env) (domain : string) (l : log)
    : tool -> Z -> Z -> Prop :=
| reads_whois info expiration :
    let clean := Normalizer.clean_domain domain in
    whois_whois env l clean = inr (Some info) ->
    expiration_instant (we_expiration_date info) = Some expiration ->
    reads_expiry env domain l Whois expiration
      (datetime_now_utc env (l ++ [WhoisQuery clean])%list)
| reads_tls port cert not_after parsed :
    let clean := Normalizer.clean_domain domain in
    let l1 := (l ++ [CreateDefaultContext])%list in
    let l2 := (l1 ++ [CreateConnection clean 443 10])%list in
    let l3 := (l2 ++ [WrapSocket clean])%list in
    let l4 := (l3 ++ [GetPeerCert])%list in
    ssl_create_default_context env l = inr tt ->
    socket_create_connection env l1 clean 443 10 = inr tt ->
    context_wrap_socket env l2 clean = inr tt ->
    ssock_getpeercert env l3 = inr cert ->
    cert_notAfter cert = Some not_after ->
    datetime_strptime env not_after "%b %d %H:%M:%S %Y %Z" = inr parsed ->
    reads_expiry env domain l (Tls port) (dt_wall parsed)
      (datetime_now_utc env l4).

(** *** The failure modes of the TLS check as the specification lists them *)




(** *** The success result of the WHOIS check as the specification words it *)

(** Step 5: a timestamp that lacks a time zone is taken as UTC. *)
Definition assume_utc (d : datetime) : datetime :=
  match dt_tzinfo d with
  | None => {| dt_wall := dt_wall d; dt_tzinfo := Some 0 |}
  | Some _ => d
  end.

(** Steps 6 and 7 for the expiration timestamp [d] and the clock
    reading [now]: the date in ISO 8601, the whole days left, the two
    flags and the registrar, ["Unknown"] when the response has none. *)
Definition whois_success_dict (env : Env) (clean : string) (info : WhoisEntry)
    (d : datetime) (now : Z) : check_dict :=
  let days := days_between (utc_instant d) now in
  {| cd_domain := Some clean;
     cd_status := Some "success";
     cd_message := None;
     cd_expiration_date := Some (datetime_isoformat env (assume_utc d));
     cd_days_until_expiry := Some days;
     cd_is_expired := Some (days <? 0);
     cd_expires_soon := Some ((0 <=? days) && (days <=? 30));
     cd_registrar := match we_registrar info with
                     | None => Some "Unknown"
                     | Some registrar => registrar
                     end;
     cd_subject := None;
     cd_issuer := None |}.

(** A WHOIS response with another expiration field. *)
Definition with_expiration_date (v : pyval) (info : WhoisEntry) : WhoisEntry :=
  {| we_expiration_date := v; we_registrar := we_registrar info |}.

End Toolkit.

(** ** The monitor: [DomainMonitor] of [domain_monitor_app.py] *)

Module Monitor.
Import Py World.
Local Open Scope string_scope.
Local Open Scope Z_scope.
Local Open Scope py_scope.

(** [config_loader.DomainConfig] *)
Record DomainConfig : Type := {
  dc_name : string;
  dc_description : string;
  dc_alert_threshold_days : option Z
}.

(** [config_loader.MonitoringConfig] *)
Record MonitoringConfig : Type := {
  mc_alert_threshold_days : Z;
  mc_save_results : bool;
  mc_results_filename : string;
  mc_user_id : string
}.

(** [config_loader.DomainMonitorConfig], without the notification and
    advanced sections, which the functions below do not read. *)
Record DomainMonitorConfig : Type := {
  monitoring : MonitoringConfig;
  domains : list DomainConfig
}.

(** One entry of [self.results]; every entry has a ["domain"] key. *)
Record result : Type := {
  r_domain : string;
  r_error : option string;
  r_domain_check : option check_dict;
  r_ssl_check : option check_dict;
  r_checked_at : option string
}.

(** An alert dict.  [a_registrar] is [None] when the dict has no
    ["registrar"] key (certificate alerts). *)
Record alert : Type := {
  a_domain : string;
  a_type : string;
  a_days_until_expiry : option Z;
  a_expiration_date : option string;
  a_registrar : option (option string);
  a_threshold : Z
}.

(** The state of a [DomainMonitor] object. *)
Record DomainMonitor : Type := {
  config : DomainMonitorConfig;
  self_domains : list string;
  results : list result
}.

(** [__init__]: [self.domains = [domain.name for domain in self.config.domains]] *)
Definition init (cfg : DomainMonitorConfig) : DomainMonitor :=
  {| config := cfg; self_domains := map dc_name (domains cfg); results := [] |}.

Section Checks.
Variable env : Env.

Definition execute (tool_name domain user_id : string) : M check_dict :=
  perform (ToolExecute tool_name domain user_id)
          (fun l => tools_execute env l tool_name domain user_id).

(** [datetime.now().isoformat()] *)
Definition now_isoformat : M string :=
  fun l => (inr (datetime_now_isoformat env l), (l ++ [NowLocal])%list).

Definition check_domain (self : DomainMonitor) (domain : string) : M result :=
  let user_id := mc_user_id (monitoring (config self)) in
  domain_result <- execute "domain_name_toolkit.check_domain_expiry" domain user_id ;;
  ssl_result <- execute "domain_name_toolkit.check_ssl_expiry" domain user_id ;;
  checked_at <- now_isoformat ;;
  ret {| r_domain := domain;
         r_error := None;
         r_domain_check := Some domain_result;
         r_ssl_check := Some ssl_result;
         r_checked_at := Some checked_at |}.

(** The [for] loop of [check_all_domains]; [acc] is [self.results]. *)
Fixpoint check_all_domains_loop (self : DomainMonitor) (todo : list string)
    (acc : list result) : M (list result) :=
  match todo with
  | [] => ret acc
  | domain :: rest =>
      acc' <- try_except
                (result <- check_domain self domain ;;
                 ret (acc ++ [result])%list)
                (fun e =>
                   checked_at <- now_isoformat ;;
                   ret (acc ++ [{| r_domain := domain;
                                   r_error := Some (exn_str e);
                                   r_domain_check := None;
                                   r_ssl_check := None;
                                   r_checked_at := Some checked_at |}])%list) ;;
      check_all_domains_loop self rest acc'
  end.

(** [check_all_domains]: the new object state and the returned list. *)
Definition check_all_domains (self : DomainMonitor)
    : M (DomainMonitor * list result) :=
  rs <- check_all_domains_loop self (self_domains self) [] ;;
  ret ({| config := config self; self_domains := self_domains self;
          results := rs |}, rs).


(** What the loop of [check_all_domains] leaves behind, entry by
    entry: the full entry of a domain whose check returned, or the
    error entry of a domain whose check raised, each followed by the
    entries of the remaining domains. *)
Inductive checked (self : DomainMonitor)
    : list string -> log -> list result -> log -> Prop :=
| checked_nil l : checked self [] l [] l
| checked_ok domain rest l r l1 rs l2 :
    check_domain self domain l = (inr r, l1) ->
    checked self rest l1 rs l2 ->
    checked self (domain :: rest) l (r :: rs) l2
| checked_error domain rest l e l1 rs l2 :
    check_domain self domain l = (inl e, l1) ->
    checked self rest (l1 ++ [NowLocal])%list rs l2 ->
    checked self (domain :: rest) l
      ({| r_domain := domain;
          r_error := Some (exn_str e);
          r_domain_check := None;
          r_ssl_check := None;
          r_checked_at := Some (datetime_now_isoformat env l1) |} :: rs) l2.

End Checks.

(** [self.results = rs] *)
Definition with_results (self : DomainMonitor) (rs : list result) : DomainMonitor :=
  {| config := config self; self_domains := self_domains self; results := rs |}.

(** [next((d for d in self.config.domains if d.name == domain_name), None)] *)
Definition find_domain_config (cfg : DomainMonitorConfig) (domain_name : string)
    : option DomainConfig :=
  find (fun d => String.eqb (dc_name d) domain_name) (domains cfg).

(** Truth value of an [Optional[int]]: [None] and [0] are false. *)
Definition truthy (v : option Z) : bool :=
  match v with
  | None => false
  | Some n => negb (n =? 0)
  end.

(** [domain_config.alert_threshold_days
       if domain_config and domain_config.alert_threshold_days
       else self.config.monitoring.alert_threshold_days] *)
Definition effective_threshold (cfg : DomainMonitorConfig) (domain_name : string) : Z :=
  match find_domain_config cfg domain_name with
  | Some domain_config =>
      if truthy (dc_alert_threshold_days domain_config)
      then match dc_alert_threshold_days domain_config with
           | Some n => n
           | None => mc_alert_threshold_days (monitoring cfg)
           end
      else mc_alert_threshold_days (monitoring cfg)
  | None => mc_alert_threshold_days (monitoring cfg)
  end.

(** [check.get("status") == "success"] *)
Definition status_is_success (check : check_dict) : bool :=
  match cd_status check with
  | Some s => String.eqb s "success"
  | None => false
  end.

(** [check.get("days_until_expiry", 999)] *)
Definition get_days_or_999 (check : check_dict) : Z :=
  match cd_days_until_expiry check with
  | Some d => d
  | None => 999
  end.

(** The condition of both [if] statements in the loop of [get_alerts]. *)
Definition needs_alert (check : check_dict) (threshold : Z) : bool :=
  status_is_success check && (get_days_or_999 check <=? threshold).

Definition domain_alert (domain_name : string) (domain_check : check_dict)
    (threshold : Z) : alert :=
  {| a_domain := domain_name;
     a_type := "domain_registration";
     a_days_until_expiry := cd_days_until_expiry domain_check;
     a_expiration_date := cd_expiration_date domain_check;
     a_registrar := Some (cd_registrar domain_check);
     a_threshold := threshold |}.

Definition ssl_alert (domain_name : string) (ssl_check : check_dict)
    (threshold : Z) : alert :=
  {| a_domain := domain_name;
     a_type := "ssl_certificate";
     a_days_until_expiry := cd_days_until_expiry ssl_check;
     a_expiration_date := cd_expiration_date ssl_check;
     a_registrar := None;
     a_threshold := threshold |}.

(** [result[key]] for the two sub-check keys. *)
Definition getitem (key : string) (v : option check_dict) : exn + check_dict :=
  match v with
  | Some c => inr c
  | None => inl (Exn KeyError ("'" ++ key ++ "'"))
  end.

(** The [for] loop of [get_alerts]; [alerts] is the list built so far. *)
Fixpoint get_alerts_loop (cfg : DomainMonitorConfig) (rs : list result)
    (alerts : list alert) : exn + list alert :=
  match rs with
  | [] => inr alerts
  | result :: rest =>
      match r_error result with
      | Some _ => get_alerts_loop cfg rest alerts
      | None =>
          let domain_name := r_domain result in
          match getitem "domain_check" (r_domain_check result) with
          | inl e => inl e
          | inr domain_check =>
              match getitem "ssl_check" (r_ssl_check result) with
              | inl e => inl e
              | inr ssl_check =>
                  let threshold := effective_threshold cfg domain_name in
                  let alerts :=
                    if needs_alert domain_check threshold
                    then (alerts ++ [domain_alert domain_name domain_check threshold])%list
                    else alerts in
                  let alerts :=
                    if needs_alert ssl_check threshold
                    then (alerts ++ [ssl_alert domain_name ssl_check threshold])%list
                    else alerts in
                  get_alerts_loop cfg rest alerts
              end
          end
      end
  end.

Definition get_alerts (self : DomainMonitor) : exn + list alert :=
  get_alerts_loop (config self) (results self) [].

(** *** The alert evaluator as the specification words it

    For each result with no error field, the registration alert when
    its condition holds, then the certificate alert when its condition
    holds; the results are taken in order. *)

Definition alerts_of_result (cfg : DomainMonitorConfig) (r : result) : list alert :=
  match r_error r, r_domain_check r, r_ssl_check r with
  | None, Some domain_check, Some ssl_check =>
      let threshold := effective_threshold cfg (r_domain r) in
      ((if needs_alert domain_check threshold
        then [domain_alert (r_domain r) domain_check threshold] else [])
       ++
       (if needs_alert ssl_check threshold
        then [ssl_alert (r_domain r) ssl_check threshold] else []))%list
  | _, _, _ => []
  end.

Definition evaluate (cfg : DomainMonitorConfig) (rs : list result) : list alert :=
  flat_map (alerts_of_result cfg) rs.

(** A result is well shaped when it is an error entry or carries both
    sub-checks, as every entry built by [check_all_domains] does. *)
Definition well_shaped (r : result) : bool :=
  match r_error r, r_domain_check r, r_ssl_check r with
  | Some _, _, _ => true
  | None, Some _, Some _ => true
  | _, _, _ => false
  end.

End Monitor.

(** ** A concrete environment on which the definitions run *)

Module Sample.
Import Py World.
Local Open Scope string_scope.
Local Open Scope Z_scope.

Definition second : Z := 1000000.

(** 2026-11-04 00:00:00 UTC and one microsecond. *)
Definition now : Z := 1793750400 * second + 1.

(** 2026-11-24 00:00:00, without a time zone. *)
Definition registration_end : datetime :=
  {| dt_wall := 1795478400 * second; dt_tzinfo := None |}.

(** 2030-01-01 00:00:00, as parsed from the certificate. *)
Definition certificate_end : datetime :=
  {| dt_wall := 1893456000 * second; dt_tzinfo := None |}.

Definition whois_entry : WhoisEntry :=
  {| we_expiration_date :=
       PyList [PyDatetime registration_end; PyDatetime certificate_end];
     we_registrar := Some (Some "Example Registrar") |}.

Definition cert : Cert :=
  {| cert_notAfter := Some "Jan  1 00:00:00 2030 GMT";
     cert_subject := Some [[("commonName", "example.com")]];
     cert_issuer := None |}.

Definition is_tool_execute (r : request) : bool :=
  match r with ToolExecute _ _ _ => true | _ => false end.

Definition success_dict (domain : string) (days : Z) (registrar : option string)
    : check_dict :=
  {| cd_domain := Some domain; cd_status := Some "success"; cd_message := None;
     cd_expiration_date := Some "2026-11-24T00:00:00+00:00";
     cd_days_until_expiry := Some days;
     cd_is_expired := Some (days <? 0);
     cd_expires_soon := Some ((0 <=? days) && (days <=? 30));
     cd_registrar := registrar; cd_subject := None; cd_issuer := None |}.

(** The WHOIS query and the connection answer as given; the remote
    tool service fails on its first call and answers afterwards. *)
Definition env (whois_answer : exn + option WhoisEntry)
    (connect_answer : exn + unit) : Env :=
  {| whois_whois := fun _ _ => whois_answer;
     ssl_create_default_context := fun _ => inr tt;
     socket_create_connection := fun _ _ _ _ => connect_answer;
     context_wrap_socket := fun _ _ => inr tt;
     ssock_getpeercert := fun _ => inr cert;
     datetime_now_utc := fun _ => now;
     datetime_strptime := fun s _ =>
       if String.eqb s "Jan  1 00:00:00 2030 GMT" then inr certificate_end
       else inl (Exn ValueError "time data does not match format");
     datetime_isoformat := fun d =>
       if dt_wall d =? dt_wall registration_end
       then "2026-11-24T00:00:00+00:00" else "2030-01-01T00:00:00+00:00";
     tools_execute := fun l _ domain _ =>
       if existsb is_tool_execute l then inr (success_dict domain 19 None)
       else inl (Exn (OtherException "ConnectionError") "service unavailable");
     datetime_now_isoformat := fun _ => "2026-11-04T00:00:00.000001" |}.

Definition env_ok : Env := env (inr (Some whois_entry)) (inr tt).

(** What [check_domain_expiry] returns in [env_ok]. *)
Definition whois_result : check_dict :=
  success_dict "example.com" 19 (Some "Example Registrar").

End Sample.

Module SampleMonitor.
Import Py World Monitor.
Local Open Scope string_scope.
Local Open Scope Z_scope.

(** The configuration and results of
    [test_get_alerts_with_custom_threshold]. *)
Definition custom_config : DomainMonitorConfig :=
  {| monitoring := {| mc_alert_threshold_days := 30; mc_save_results := true;
                      mc_results_filename := "domain_check_results.json";
                      mc_user_id := "kig@kig.re" |};
     domains := [{| dc_name := "custom-domain.com"; dc_description := "";
                    dc_alert_threshold_days := Some 60 |}] |}.

Definition custom_domain_check : check_dict :=
  {| cd_domain := None; cd_status := Some "success"; cd_message := None;
     cd_expiration_date := Some "2025-10-15T00:00:00+00:00";
     cd_days_until_expiry := Some 45;
     cd_is_expired := None; cd_expires_soon := None;
     cd_registrar := Some "Test Registrar";
     cd_subject := None; cd_issuer := None |}.

Definition custom_ssl_check : check_dict :=
  {| cd_domain := None; cd_status := Some "success"; cd_message := None;
     cd_expiration_date := None; cd_days_until_expiry := Some 100;
     cd_is_expired := None; cd_expires_soon := None; cd_registrar := None;
     cd_subject := None; cd_issuer := None |}.

Definition custom_monitor : DomainMonitor :=
  with_results (init custom_config)
    [{| r_domain := "custom-domain.com"; r_error := None;
        r_domain_check := Some custom_domain_check;
        r_ssl_check := Some custom_ssl_check;
        r_checked_at := None |}].

(** A per-domain threshold of zero under a global threshold of 30. *)
Definition zero_config : DomainMonitorConfig :=
  {| monitoring := monitoring custom_config;
     domains := [{| dc_name := "zero.example"; dc_description := "";
                    dc_alert_threshold_days := Some 0 |}] |}.

(** A global threshold of 1000 and a successful sub-check that carries
    no day count. *)
Definition wide_config : DomainMonitorConfig :=
  {| monitoring := {| mc_alert_threshold_days := 1000; mc_save_results := true;
                      mc_results_filename := "domain_check_results.json";
                      mc_user_id := "kig@kig.re" |};
     domains := [] |}.

Definition bare_success : check_dict :=
  {| cd_domain := None; cd_status := Some "success"; cd_message := None;
     cd_expiration_date := None; cd_days_until_expiry := None;
     cd_is_expired := None; cd_expires_soon := None; cd_registrar := None;
     cd_subject := None; cd_issuer := None |}.

Definition wide_monitor : DomainMonitor :=
  with_results (init wide_config)
    [{| r_domain := "bare.example"; r_error := None;
        r_domain_check := Some bare_success;
        r_ssl_check := Some (error_dict "bare.example" "Connection timeout");
        r_checked_at := None |}].

(** Two configured domains, for the batch check. *)
Definition two_config : DomainMonitorConfig :=
  {| monitoring := monitoring custom_config;
     domains := [{| dc_name := "first.example"; dc_description := "";
                    dc_alert_threshold_days := None |};
                 {| dc_name := "second.example"; dc_description := "";
                    dc_alert_threshold_days := Some 15 |}] |}.

End SampleMonitor.

(** ** More Python string operations, for the notification texts *)

Module PyText.
Local Open Scope string_scope.

(** [s * n] *)
Fixpoint repeat_string (s : string) (n : nat) : string :=
  match n with
  | O => EmptyString
  | S n' => s ++ repeat_string s n'
  end.

Definition newline : string := String "010"%char EmptyString.

(** [sep.join(parts)] *)
Fixpoint join (sep : string) (parts : list string) : string :=
  match parts with
  | [] => EmptyString
  | [p] => p
  | p :: rest => p ++ sep ++ join sep rest
  end.

(** [str(n)] for an integer. *)
Definition str_of_int (n : Z) : string :=
  DecimalString.NilZero.string_of_int (Z.to_int n).

(** [f"{v}"] for an integer that may be [None]. *)
Definition format_opt_int (v : option Z) : string :=
  match v with
  | Some n => str_of_int n
  | None => "None"
  end.

(** [f"{v}"] for a string that may be [None]. *)
Definition format_opt_str (v : option string) : string :=
  match v with
  | Some s => s
  | None => "None"
  end.

Definition is_lower (c : ascii) : bool :=
  (Ascii.leb "a" c && Ascii.leb c "z")%bool.

Definition is_upper (c : ascii) : bool :=
  (Ascii.leb "A" c && Ascii.leb c "Z")%bool.

Definition to_upper (c : ascii) : ascii :=
  if is_lower c then ascii_of_nat (nat_of_ascii c - 32) else c.

Definition to_lower (c : ascii) : ascii :=
  if is_upper c then ascii_of_nat (nat_of_ascii c + 32) else c.

(** [s.title()] on ASCII text: a cased character is upper case when
    the character before it is not cased, lower case otherwise.  Bytes
    above 127 count as uncased here. *)
Fixpoint title_from (previous_is_cased : bool) (s : string) : string :=
  match s with
  | EmptyString => EmptyString
  | String c s' =>
      if is_lower c then
        String (if previous_is_cased then c else to_upper c) (title_from true s')
      else if is_upper c then
        String (if previous_is_cased then to_lower c else c) (title_from true s')
      else String c (title_from false s')
  end.

Definition title (s : string) : string := title_from false s.

End PyText.

(** ** Notifications and authorization: the rest of [DomainMonitor]

    The calls to the tool service made here are requests of their own
    kind, answered by oracles that see the requests issued before. *)

Module Service.
Import Py.
Local Open Scope string_scope.

(** [client.tools.authorize] returns an object with [status] and [url]. *)
Record auth_response : Type := {
  ar_status : string;
  ar_url : string
}.

Inductive request : Type :=
| Authorize (tool_name user_id : string)
| WaitForCompletion (response : auth_response)
| GmailSendEmail (to subject body user_id : string)
| SlackSendMessage (channel text user_id : string).

Definition log : Type := list request.

Record Env : Type := {
  tools_authorize : log -> string -> string -> exn + auth_response;
  auth_wait_for_completion : log -> auth_response -> exn + unit;
  tools_execute_send : log -> request -> exn + unit;
  (** [template.format(count=n)] *)
  str_format_count : string -> nat -> exn + string
}.

Definition M (A : Type) : Type := log -> (exn + A) * log.

Definition ret {A} (a : A) : M A := fun l => (inr a, l).

Definition bind {A B} (m : M A) (k : A -> M B) : M B :=
  fun l =>
    match m l with
    | (inl e, l') => (inl e, l')
    | (inr a, l') => k a l'
    end.

Definition try_except {A} (body : M A) (handler : exn -> M A) : M A :=
  fun l =>
    match body l with
    | (inl e, l') => handler e l'
    | (inr a, l') => (inr a, l')
    end.

Definition lift {A} (r : exn + A) : M A := fun l => (r, l).

Definition perform {A} (r : request) (answer : log -> exn + A) : M A :=
  fun l => (answer l, (l ++ [r])%list).

End Service.

Declare Scope service_scope.
Notation "x <- m ;; k" := (Service.bind m (fun x => k))
  (at level 61, m at next level, right associativity) : service_scope.

Module Notify.
Import Py Service Monitor PyText.
Local Open Scope string_scope.
Local Open Scope list_scope.
Local Open Scope Z_scope.
Local Open Scope service_scope.

(** [config_loader.EmailRecipient] *)
Record EmailRecipient : Type := {
  er_email : string;
  er_name : string
}.

(** [config_loader.EmailConfig] *)
Record EmailConfig : Type := {
  ec_enabled : bool;
  ec_recipients : list EmailRecipient;
  ec_subject_template : string;
  ec_include_detailed_info : bool
}.

(** [config_loader.SlackConfig]; [sc_urgency_emojis] is the dict, as
    its list of items. *)
Record SlackConfig : Type := {
  sc_enabled : bool;
  sc_channel : string;
  sc_message_template : string;
  sc_urgency_emojis : list (string * string)
}.

(** [config_loader.NotificationConfig], the value of
    [self.config.notifications]. *)
Record NotificationConfig : Type := {
  email : EmailConfig;
  slack : SlackConfig
}.

(** [d.get(key, default)] on a dict of strings. *)
Definition dict_get (d : list (string * string)) (key default : string) : string :=
  match find (fun kv => String.eqb (fst kv) key) d with
  | Some kv => snd kv
  | None => default
  end.

(** [alert["type"].replace("_", " ").title()] *)
Definition alert_type_title (a : alert) : string :=
  title (PyStr.replace "_" " " (a_type a)).

(** [alert.get('registrar', 'Unknown')], formatted. *)
Definition format_registrar (a : alert) : string :=
  match a_registrar a with
  | None => "Unknown"
  | Some v => format_opt_str v
  end.

(** The lines appended to [body_lines] for one alert. *)
Definition email_alert_lines (a : alert) : list string :=
  [ "🔴 " ++ a_domain a;
    "   Type: " ++ alert_type_title a;
    "   Days until expiry: " ++ format_opt_int (a_days_until_expiry a);
    "   Expiration date: " ++ format_opt_str (a_expiration_date a) ]%string
  ++ (if String.eqb (a_type a) "domain_registration"
      then ["   Registrar: " ++ format_registrar a]%string else [])
  ++ [ "" ].

Definition email_body_lines (alerts : list alert) : list string :=
  [ "Domain Expiration Alert";
    repeat_string "=" 50;
    "";
    "The following domains are expiring within their alert thresholds:";
    "" ]
  ++ flat_map email_alert_lines alerts
  ++ [ "Please take action to renew these domains/certificates.";
       "";
       "This is an automated alert from Domain Monitor." ].

Definition email_body (alerts : list alert) : string :=
  join newline (email_body_lines alerts).

(** The marker of one Slack line: [days <= 7], [days <= 30], else. *)
Definition urgency_emoji (emojis : list (string * string)) (days : Z) : string :=
  if days <=? 7 then dict_get emojis "critical" "🔴"
  else if days <=? 30 then dict_get emojis "warning" "🟡"
  else dict_get emojis "info" "ℹ️".

(** One pass of the loop of [send_slack_alert]: comparing a day count
    that is [None] with 7 raises. *)
Definition slack_line (emojis : list (string * string)) (a : alert) : exn + string :=
  match a_days_until_expiry a with
  | None =>
      inl (Exn TypeError
             "'<=' not supported between instances of 'NoneType' and 'int'")
  | Some days =>
      inr (urgency_emoji emojis days ++ " *" ++ a_domain a ++ "* ("
           ++ alert_type_title a ++ ") - " ++ str_of_int days ++ " days left")%string
  end.

Fixpoint slack_lines (emojis : list (string * string)) (alerts : list alert)
    : exn + list string :=
  match alerts with
  | [] => inr []
  | a :: rest =>
      match slack_line emojis a with
      | inl e => inl e
      | inr line =>
          match slack_lines emojis rest with
          | inl e => inl e
          | inr lines => inr (line :: lines)
          end
      end
  end.

Section Sending.
Variable env : Env.
Variable self : DomainMonitor.
Variable notifications : NotificationConfig.

Definition user_id : string := mc_user_id (monitoring (config self)).

(** The loop over the recipients: a failed send is printed and the
    loop goes on. *)
Fixpoint send_to_recipients (subject body : string)
    (recipients : list EmailRecipient) : M unit :=
  match recipients with
  | [] => ret tt
  | recipient :: rest =>
      _ <- try_except
             (perform (GmailSendEmail (er_email recipient) subject body user_id)
                (fun l => tools_execute_send env l
                            (GmailSendEmail (er_email recipient) subject body user_id)))
             (fun _ => ret tt) ;;
      send_to_recipients subject body rest
  end.

Definition send_email_alert (alerts : list alert) : M unit :=
  match alerts with
  | [] => ret tt
  | _ :: _ =>
      if negb (ec_enabled (email notifications)) then ret tt
      else
        subject <- lift (str_format_count env
                           (ec_subject_template (email notifications))
                           (length alerts)) ;;
        let body := email_body alerts in
        send_to_recipients subject body (ec_recipients (email notifications))
  end.

Definition send_slack_alert (alerts : list alert) : M unit :=
  match alerts with
  | [] => ret tt
  | _ :: _ =>
      if negb (sc_enabled (slack notifications)) then ret tt
      else
        header <- lift (str_format_count env
                          (sc_message_template (slack notifications))
                          (length alerts)) ;;
        lines <- lift (slack_lines (sc_urgency_emojis (slack notifications)) alerts) ;;
        let message := join newline ((header ++ ":")%string :: lines) in
        try_except
          (perform (SlackSendMessage (sc_channel (slack notifications)) message user_id)
             (fun l => tools_execute_send env l
                         (SlackSendMessage (sc_channel (slack notifications))
                            message user_id)))
          (fun _ => ret tt)
  end.




End Sending.


(** [alert["type"] == "domain_registration"] *)
Definition is_registration (a : alert) : bool :=
  String.eqb (a_type a) "domain_registration".

End Notify.

(** ** Loading and saving the configuration: [config_loader.py]

    Of the YAML document, the sections [monitoring] and [domains] are
    modelled, with the types the dataclasses give their values; a
    field is [None] when the key is missing. *)

Module ConfigIO.
Import Py Monitor.
Local Open Scope string_scope.
Local Open Scope Z_scope.

Record yaml_monitoring : Type := {
  ym_alert_threshold_days : option Z;
  ym_save_results : option bool;
  ym_results_filename : option string;
  ym_user_id : option string
}.

(** One item of [domains]; for [yd_alert_threshold_days], [None] also
    stands for a key bound to null, which [dict.get] reads alike. *)
Record yaml_domain : Type := {
  yd_name : option string;
  yd_description : option string;
  yd_alert_threshold_days : option Z
}.

Record yaml_data : Type := {
  y_monitoring : option yaml_monitoring;
  y_domains : option (list yaml_domain)
}.

Definition get_or {A} (v : option A) (default : A) : A :=
  match v with Some x => x | None => default end.

(** [data.get("monitoring", {})] *)
Definition empty_monitoring : yaml_monitoring :=
  {| ym_alert_threshold_days := None; ym_save_results := None;
     ym_results_filename := None; ym_user_id := None |}.

Definition parse_monitoring (monitoring_data : yaml_monitoring) : MonitoringConfig :=
  {| mc_alert_threshold_days := get_or (ym_alert_threshold_days monitoring_data) 30;
     mc_save_results := get_or (ym_save_results monitoring_data) true;
     mc_results_filename :=
       get_or (ym_results_filename monitoring_data) "domain_check_results.json";
     mc_user_id := get_or (ym_user_id monitoring_data) "kig@kig.re" |}.

(** The loop over [data.get("domains", [])]: [domain_data["name"]]
    raises when the key is missing. *)
Fixpoint parse_domains (items : list yaml_domain) : exn + list DomainConfig :=
  match items with
  | [] => inr []
  | domain_data :: rest =>
      match yd_name domain_data with
      | None => inl (Exn KeyError "'name'")
      | Some name =>
          match parse_domains rest with
          | inl e => inl e
          | inr ds =>
              inr ({| dc_name := name;
                      dc_description := get_or (yd_description domain_data) "";
                      dc_alert_threshold_days := yd_alert_threshold_days domain_data |}
                   :: ds)
          end
      end
  end.

(** [_load_yaml_config] after the file has been read, up to the end
    of the domains loop: the monitoring section and the domains, which
    are what [DomainMonitorConfig] keeps here.  The source goes on to
    parse the notification and advanced sections of the document
    (where a recipient without an ["email"] key raises [KeyError]);
    [yaml_data] stands for a document in which these sections parse. *)
Definition load_yaml_data (data : yaml_data) : exn + DomainMonitorConfig :=
  let monitoring := parse_monitoring (get_or (y_monitoring data) empty_monitoring) in
  match parse_domains (get_or (y_domains data) []) with
  | inl e => inl e
  | inr ds => inr {| monitoring := monitoring; domains := ds |}
  end.

(** The item [save_config] writes for one domain: the threshold key
    only [if domain.alert_threshold_days]. *)
Definition dump_domain (domain : DomainConfig) : yaml_domain :=
  {| yd_name := Some (dc_name domain);
     yd_description := Some (dc_description domain);
     yd_alert_threshold_days :=
       if truthy (dc_alert_threshold_days domain)
       then dc_alert_threshold_days domain else None |}.

(** The dictionary [save_config] hands to [yaml.dump]. *)
Definition dump_config (config : DomainMonitorConfig) : yaml_data :=
  {| y_monitoring :=
       Some {| ym_alert_threshold_days :=
                 Some (mc_alert_threshold_days (monitoring config));
               ym_save_results := Some (mc_save_results (monitoring config));
               ym_results_filename := Some (mc_results_filename (monitoring config));
               ym_user_id := Some (mc_user_id (monitoring config)) |};
     y_domains := Some (map dump_domain (domains config)) |}.

(** A configuration with its per-domain thresholds of zero taken out. *)
Definition without_zero_override (domain : DomainConfig) : DomainConfig :=
  {| dc_name := dc_name domain;
     dc_description := dc_description domain;
     dc_alert_threshold_days :=
       match dc_alert_threshold_days domain with
       | Some 0 => None
       | v => v
       end |}.

Definition without_zero_overrides (config : DomainMonitorConfig) : DomainMonitorConfig :=
  {| monitoring := monitoring config;
     domains := map without_zero_override (domains config) |}.

(** [MonitoringConfig()] *)
Definition default_monitoring : MonitoringConfig := parse_monitoring empty_monitoring.

(** [_load_default_config] *)
Definition default_config : DomainMonitorConfig :=
  {| monitoring := default_monitoring;
     domains :=
       [ {| dc_name := "google.com"; dc_description := "Google's main domain";
            dc_alert_threshold_days := None |};
         {| dc_name := "github.com"; dc_description := "GitHub platform";
            dc_alert_threshold_days := None |};
         {| dc_name := "example.com"; dc_description := "Example domain";
            dc_alert_threshold_days := None |} ] |}.

(** [_load_python_config], with the constants of [domain_config.py]. *)
Definition DOMAINS_TO_MONITOR : list string :=
  ["google.com"; "github.com"; "stackoverflow.com"; "example.com"].

Definition python_config : DomainMonitorConfig :=
  {| monitoring :=
       {| mc_alert_threshold_days := 30;
          mc_save_results := true;
          mc_results_filename := "domain_check_results.json";
          mc_user_id := "kig@kig.re" |};
     domains :=
       map (fun domain => {| dc_name := domain; dc_description := "";
                             dc_alert_threshold_days := None |})
           DOMAINS_TO_MONITOR |}.

(** What [load_config] sees of the machine: which paths exist, what
    [yaml.safe_load] gives for a file ([None] for an empty document),
    and the exception, if any, of importing [domain_config]. *)
Record Files : Type := {
  path_exists : string -> bool;
  safe_load : string -> exn + option yaml_data;
  import_error : option exn
}.

Definition DEFAULT_CONFIG_FILES : list string :=
  ["domain_monitor_config.yaml"; "config.yaml"; "domain_config.yaml"].

(** [_load_yaml_config(config_file)]: [data.get] on [None] raises. *)
Definition load_yaml_config (fs : Files) (config_file : string)
    : exn + DomainMonitorConfig :=
  match safe_load fs config_file with
  | inl e => inl e
  | inr None =>
      inl (Exn AttributeError "'NoneType' object has no attribute 'get'")
  | inr (Some data) => load_yaml_data data
  end.

(** The [for yaml_file in config_files] loop: the first file that
    exists and loads is returned; a file that fails is passed over. *)
Fixpoint first_loadable (fs : Files) (config_files : list string)
    : option DomainMonitorConfig :=
  match config_files with
  | [] => None
  | yaml_file :: rest =>
      if path_exists fs yaml_file then
        match load_yaml_config fs yaml_file with
        | inr config => Some config
        | inl _ => first_loadable fs rest
        end
      else first_loadable fs rest
  end.

(** [isinstance(e, ImportError)] *)
Fixpoint is_import_error (c : exn_class) : bool :=
  match c with
  | OtherException name =>
      String.eqb name "ImportError" || String.eqb name "ModuleNotFoundError"
  | Subclass _ base => is_import_error base
  | _ => false
  end.

(** [if config_file:] is false for [None] and for the empty string. *)
Definition config_files_of (config_file : option string) : list string :=
  match config_file with
  | Some (String c s) => [String c s]
  | _ => DEFAULT_CONFIG_FILES
  end.

Definition load_config (fs : Files) (config_file : option string)
    : exn + DomainMonitorConfig :=
  match first_loadable fs (config_files_of config_file) with
  | Some config => inr config
  | None =>
      match import_error fs with
      | None => inr python_config
      | Some e =>
          if is_import_error (exn_cls e) then inr default_config else inl e
      end
  end.

End ConfigIO.

(** ** The stand-alone check of [test_simple_monitoring.py] *)

Module Simple.
Import Py World Toolkit Monitor.
Local Open Scope string_scope.
Local Open Scope list_scope.
Local Open Scope Z_scope.
Local Open Scope py_scope.

Definition ALERT_THRESHOLD_DAYS : Z := 30.

(** The alert dicts of the script: [domain], [type] and [days]. *)
Record simple_alert : Type := {
  sa_domain : string;
  sa_type : string;
  sa_days : option Z
}.

Section Script.
Variable env : Env.

(** The loop of [simple_domain_check] up to the summary; [results] and
    [alerts] are the two lists it appends to. *)
Fixpoint simple_loop (todo : list string) (results : list result)
    (alerts : list simple_alert) : M (list result * list simple_alert) :=
  match todo with
  | [] => ret (results, alerts)
  | domain :: rest =>
      domain_result <- check_domain_expiry env domain ;;
      ssl_result <- check_ssl_expiry env domain 443 ;;
      checked_at <- now_isoformat env ;;
      let result := {| r_domain := domain; r_error := None;
                       r_domain_check := Some domain_result;
                       r_ssl_check := Some ssl_result;
                       r_checked_at := Some checked_at |} in
      let results := results ++ [result] in
      let alerts :=
        if needs_alert domain_result ALERT_THRESHOLD_DAYS
        then alerts ++ [{| sa_domain := domain; sa_type := "domain_registration";
                           sa_days := cd_days_until_expiry domain_result |}]
        else alerts in
      let alerts :=
        if needs_alert ssl_result ALERT_THRESHOLD_DAYS
        then alerts ++ [{| sa_domain := domain; sa_type := "ssl_certificate";
                           sa_days := cd_days_until_expiry ssl_result |}]
        else alerts in
      simple_loop rest results alerts
  end.

Definition simple_domain_check (test_domains : list string)
    : M (list result * list simple_alert) :=
  simple_loop test_domains [] [].

End Script.

(** An alert of the monitor, cut down to the keys of the script. *)
Definition simplify (a : alert) : simple_alert :=
  {| sa_domain := a_domain a; sa_type := a_type a;
     sa_days := a_days_until_expiry a |}.

(** A monitor configuration with the script's threshold and no
    per-domain settings. *)
Definition script_config : DomainMonitorConfig :=
  {| monitoring := {| mc_alert_threshold_days := ALERT_THRESHOLD_DAYS;
                      mc_save_results := true;
                      mc_results_filename := "simple_test_results.json";
                      mc_user_id := "" |};
     domains := [] |}.

End Simple.

(** ** Vocabulary for the further properties *)

Module Shapes.
Import Py.
Local Open Scope string_scope.
Local Open Scope Z_scope.

(** The keys of a returned dict, by status. *)
Definition error_shaped (r : check_dict) : Prop :=
  cd_status r = Some "error" /\
  (exists m, cd_message r = Some m) /\
  cd_days_until_expiry r = None /\ cd_expiration_date r = None /\
  cd_is_expired r = None /\ cd_expires_soon r = None.

Definition success_shaped (r : check_dict) : Prop :=
  cd_status r = Some "success" /\ cd_message r = None /\
  exists d, cd_days_until_expiry r = Some d /\
            (exists e, cd_expiration_date r = Some e) /\
            cd_is_expired r = Some (d <? 0) /\
            cd_expires_soon r = Some ((0 <=? d) && (d <=? 30)).

(** [p in s] *)
Fixpoint contains (p s : string) : bool :=
  PyStr.startswith p s ||
  match s with
  | EmptyString => false
  | String _ s' => contains p s'
  end.

End Shapes.

Module MoreSamples.
Import Py World.
Local Open Scope string_scope.
Local Open Scope Z_scope.

(** A certificate dict without [notAfter], as [getpeercert] gives it
    for a certificate that was not validated. *)
Definition bare_cert : Cert :=
  {| cert_notAfter := None; cert_subject := None; cert_issuer := None |}.

Definition env_bare_cert : Env :=
  {| whois_whois := whois_whois Sample.env_ok;
     ssl_create_default_context := ssl_create_default_context Sample.env_ok;
     socket_create_connection := socket_create_connection Sample.env_ok;
     context_wrap_socket := context_wrap_socket Sample.env_ok;
     ssock_getpeercert := fun _ => inr bare_cert;
     datetime_now_utc := datetime_now_utc Sample.env_ok;
     datetime_strptime := datetime_strptime Sample.env_ok;
     datetime_isoformat := datetime_isoformat Sample.env_ok;
     tools_execute := tools_execute Sample.env_ok;
     datetime_now_isoformat := datetime_now_isoformat Sample.env_ok |}.




End MoreSamples.

Module MonitorShapes.
Import Py World Monitor.
Local Open Scope string_scope.
Local Open Scope Z_scope.

(** An entry as [check_all_domains] builds it: a time stamp, and
    either the error text alone or the two sub-checks alone. *)
Definition entry_shaped (r : result) : bool :=
  match r_checked_at r, r_error r, r_domain_check r, r_ssl_check r with
  | Some _, Some _, None, None => true
  | Some _, None, Some _, Some _ => true
  | _, _, _, _ => false
  end.

Definition is_execute (r : request) : bool :=
  match r with ToolExecute _ _ _ => true | _ => false end.

Definition is_now_local (r : request) : bool :=
  match r with NowLocal => true | _ => false end.

(** [self.config = cfg] *)
Definition with_config (self : DomainMonitor) (cfg : DomainMonitorConfig)
    : DomainMonitor :=
  {| config := cfg; self_domains := self_domains self; results := results self |}.

(** [config.monitoring.alert_threshold_days = g] *)
Definition with_global_threshold (cfg : DomainMonitorConfig) (g : Z)
    : DomainMonitorConfig :=
  {| monitoring :=
       {| mc_alert_threshold_days := g;
          mc_save_results := mc_save_results (monitoring cfg);
          mc_results_filename := mc_results_filename (monitoring cfg);
          mc_user_id := mc_user_id (monitoring cfg) |};
     domains := domains cfg |}.

Definition has_no_error (r : result) : bool :=
  match r_error r with None => true | Some _ => false end.

(** Two alerts that differ at most in the threshold they carry, the
    second one's being no smaller. *)
Definition same_alert (a a' : alert) : Prop :=
  a_domain a' = a_domain a /\ a_type a' = a_type a /\
  a_days_until_expiry a' = a_days_until_expiry a /\
  a_expiration_date a' = a_expiration_date a /\
  a_registrar a' = a_registrar a /\
  a_threshold a <= a_threshold a'.

End MonitorShapes.

Module MoreMonitors.
Import Py World Monitor.
Local Open Scope string_scope.
Local Open Scope Z_scope.

(** An entry with its registration check and no certificate check. *)
Definition half_entry : result :=
  {| r_domain := "half.example"; r_error := None;
     r_domain_check := Some SampleMonitor.custom_domain_check;
     r_ssl_check := None; r_checked_at := None |}.

Definition broken_monitor : DomainMonitor :=
  with_results SampleMonitor.custom_monitor
    (results SampleMonitor.custom_monitor ++ [half_entry]).

End MoreMonitors.

(** ** Concrete services, files and results for the further properties *)

Module NotifySamples.
Import Py Service Monitor Notify PyText.
Local Open Scope string_scope.
Local Open Scope Z_scope.

Definition notifications : NotificationConfig :=
  {| email :=
       {| ec_enabled := true;
          ec_recipients := [ {| er_email := "admin@test.com"; er_name := "Admin" |};
                             {| er_email := "down@test.com"; er_name := "" |};
                             {| er_email := "alerts@test.com"; er_name := "Alerts" |} ];
          ec_subject_template := "Alert: {count} domains";
          ec_include_detailed_info := true |};
     slack :=
       {| sc_enabled := true;
          sc_channel := "#alerts";
          sc_message_template := "Domain Alert - {count} domain(s) expiring soon";
          sc_urgency_emojis := [("critical", "(!)"); ("warning", "(w)")] |} |}.

(** A service that wants [Gmail.SendEmail] authorized by hand, cannot
    deliver to one address and refuses Slack messages; templates hold
    the one field [{count}]. *)
Definition env : Env :=
  {| tools_authorize := fun _ tool_name _ =>
       inr {| ar_status := if String.eqb tool_name "Gmail.SendEmail"
                           then "pending" else "completed";
              ar_url := "https://auth.example/" ++ tool_name |};
     auth_wait_for_completion := fun _ _ => inr tt;
     tools_execute_send := fun _ r =>
       match r with
       | GmailSendEmail to _ _ _ =>
           if String.eqb to "down@test.com"
           then inl (Exn (OtherException "APIError") "mailbox unavailable")
           else inr tt
       | _ => inl (Exn (OtherException "PermissionDeniedError") "not authorized")
       end;
     str_format_count := fun template n =>
       inr (PyStr.replace "{count}" (str_of_int (Z.of_nat n)) template) |}.

(** The alert of [SampleMonitor.custom_monitor]. *)
Definition custom_alert : alert :=
  domain_alert "custom-domain.com" SampleMonitor.custom_domain_check 60.

(** The alert of [SampleMonitor.wide_monitor]: it has no day count. *)
Definition bare_alert : alert :=
  domain_alert "bare.example" SampleMonitor.bare_success 1000.

End NotifySamples.

Module ConfigSamples.
Import Py Monitor ConfigIO.
Local Open Scope string_scope.
Local Open Scope Z_scope.

Definition document : yaml_data :=
  {| y_monitoring := None;
     y_domains :=
       Some [ {| yd_name := Some "example.org"; yd_description := None;
                 yd_alert_threshold_days := Some 15 |} ] |}.

Definition loaded : DomainMonitorConfig :=
  {| monitoring := default_monitoring;
     domains := [ {| dc_name := "example.org"; dc_description := "";
                     dc_alert_threshold_days := Some 15 |} ] |}.

(** Only [config.yaml] is there; [domain_config] cannot be imported. *)
Definition files : Files :=
  {| path_exists := fun f => String.eqb f "config.yaml";
     safe_load := fun f =>
       if String.eqb f "config.yaml" then inr (Some document)
       else inl (Exn (OtherException "FileNotFoundError") "No such file or directory");
     import_error :=
       Some (Exn (OtherException "ModuleNotFoundError")
               "No module named 'domain_config'") |}.

(** No YAML file at all; [domain_config] cannot be imported. *)
Definition empty_files : Files :=
  {| path_exists := fun _ => false;
     safe_load := fun _ =>
       inl (Exn (OtherException "FileNotFoundError") "No such file or directory");
     import_error := import_error files |}.

(** No YAML file, and a [domain_config.py] that does not compile. *)
Definition broken_files : Files :=
  {| path_exists := fun _ => false;
     safe_load := fun _ =>
       inl (Exn (OtherException "FileNotFoundError") "No such file or directory");
     import_error := Some (Exn (OtherException "SyntaxError") "invalid syntax") |}.

End ConfigSamples.

Module ToolMonitors.
Import Py World Monitor.
Local Open Scope string_scope.
Local Open Scope Z_scope.

(** Results as the two tools return them. *)
Definition tool_monitor : DomainMonitor :=
  with_results (init SampleMonitor.two_config)
    [{| r_domain := "second.example"; r_error := None;
        r_domain_check := Some (Sample.success_dict "second.example" 10 None);
        r_ssl_check := Some (error_dict "second.example" "Connection timeout");
        r_checked_at := Some "2026-11-04T00:00:00.000001" |}].

End ToolMonitors.

(** ** Tool replies as the client delivers them

    [check_domain] stores [response.output.value] as it comes: a value
    decoded from JSON, which need not be the dict a tool builds.  The
    definitions of this module follow the same source functions as
    those of [Monitor], over such values. *)

Module Replies.
Import Py World.
Local Open Scope string_scope.
Local Open Scope Z_scope.
Local Open Scope py_scope.

(** A Python float: [m * 2 ** e], an infinity or a NaN. *)
Inductive pyfloat : Type :=
| Finite (m e : Z)
| Infinity (negative : bool)
| NaN.

(** A value decoded from JSON.  [JObject] lists the items of a dict,
    whose keys differ from one another. *)
#[warnings="-register-all"]
Inductive json : Type :=
| JNull
| JBool (b : bool)
| JInt (n : Z)
| JFloat (f : pyfloat)
| JString (s : string)
| JArray (elements : list json)
| JObject (items : list (string * json)).

(** [type(v).__name__] *)
Definition type_name (v : json) : string :=
  match v with
  | JNull => "NoneType"
  | JBool _ => "bool"
  | JInt _ => "int"
  | JFloat _ => "float"
  | JString _ => "str"
  | JArray _ => "list"
  | JObject _ => "dict"
  end.

(** [response.output], and the response of [client.tools.execute]:
    [output] is [None] or an object with a [value] attribute. *)
Record Output : Type := { value : json }.

Record ExecuteToolResponse : Type := { output : option Output }.

(** [response.output.value] *)
Definition output_value (response : ExecuteToolResponse) : exn + json :=
  match output response with
  | Some out => inr (value out)
  | None => inl (Exn AttributeError "'NoneType' object has no attribute 'value'")
  end.

(** One entry of [self.results]. *)
Record result : Type := {
  r_domain : string;
  r_error : option string;
  r_domain_check : option json;
  r_ssl_check : option json;
  r_checked_at : option string
}.

(** An alert dict; [a_registrar] is [None] when the dict has no
    ["registrar"] key. *)
Record alert : Type := {
  a_domain : string;
  a_type : string;
  a_days_until_expiry : json;
  a_expiration_date : json;
  a_registrar : option json;
  a_threshold : Z
}.

Record DomainMonitor : Type := {
  config : Monitor.DomainMonitorConfig;
  self_domains : list string;
  results : list result
}.

Definition init (cfg : Monitor.DomainMonitorConfig) : DomainMonitor :=
  {| config := cfg;
     self_domains := map Monitor.dc_name (Monitor.domains cfg);
     results := [] |}.

(** [self.results = rs] *)
Definition with_results (self : DomainMonitor) (rs : list result) : DomainMonitor :=
  {| config := config self; self_domains := self_domains self; results := rs |}.

Section Checks.
Variable env : Env.
Variable client_tools_execute :
  log -> string -> string -> string -> exn + ExecuteToolResponse.

Definition execute (tool_name domain user_id : string) : M ExecuteToolResponse :=
  perform (ToolExecute tool_name domain user_id)
          (fun l => client_tools_execute l tool_name domain user_id).

(** The dict display is evaluated after both calls, item by item. *)
Definition check_domain (self : DomainMonitor) (domain : string) : M result :=
  let user_id := Monitor.mc_user_id (Monitor.monitoring (config self)) in
  domain_result <- execute "domain_name_toolkit.check_domain_expiry" domain user_id ;;
  ssl_result <- execute "domain_name_toolkit.check_ssl_expiry" domain user_id ;;
  domain_check <- lift (output_value domain_result) ;;
  ssl_check <- lift (output_value ssl_result) ;;
  checked_at <- Monitor.now_isoformat env ;;
  ret {| r_domain := domain;
         r_error := None;
         r_domain_check := Some domain_check;
         r_ssl_check := Some ssl_check;
         r_checked_at := Some checked_at |}.

Fixpoint check_all_domains_loop (self : DomainMonitor) (todo : list string)
    (acc : list result) : M (list result) :=
  match todo with
  | [] => ret acc
  | domain :: rest =>
      acc' <- try_except
                (result <- check_domain self domain ;;
                 ret (acc ++ [result])%list)
                (fun e =>
                   checked_at <- Monitor.now_isoformat env ;;
                   ret (acc ++ [{| r_domain := domain;
                                   r_error := Some (exn_str e);
                                   r_domain_check := None;
                                   r_ssl_check := None;
                                   r_checked_at := Some checked_at |}])%list) ;;
      check_all_domains_loop self rest acc'
  end.

Definition check_all_domains (self : DomainMonitor)
    : M (DomainMonitor * list result) :=
  rs <- check_all_domains_loop self (self_domains self) [] ;;
  ret (with_results self rs, rs).

End Checks.

(** Evaluation of an expression that may raise, then the rest. *)
Definition and_then {A B : Type} (r : exn + A) (k : A -> exn + B) : exn + B :=
  match r with
  | inl e => inl e
  | inr a => k a
  end.

Local Notation "x <-- r ;; k" := (and_then r (fun x => k))
  (at level 61, r at next level, right associativity).

Definition lookup (key : string) (items : list (string * json)) : option json :=
  match find (fun item => String.eqb (fst item) key) items with
  | Some item => Some (snd item)
  | None => None
  end.

(** [v.get(key, default)]: only a dict has the method. *)
Definition get (v : json) (key : string) (default : json) : exn + json :=
  match v with
  | JObject items =>
      inr (match lookup key items with Some x => x | None => default end)
  | _ => inl (Exn AttributeError
                ("'" ++ type_name v ++ "' object has no attribute 'get'"))
  end.

(** [v == s] for a string [s] *)
Definition eq_str (v : json) (s : string) : bool :=
  match v with
  | JString t => String.eqb t s
  | _ => false
  end.

(** [f <= t] for a float and an int, which Python compares exactly. *)
Definition float_le_int (f : pyfloat) (t : Z) : bool :=
  match f with
  | Finite m e => if 0 <=? e then m * 2 ^ e <=? t else m <=? t * 2 ^ (- e)
  | Infinity negative => negative
  | NaN => false
  end.

(** [v <= t] for an int [t] *)
Definition le_int (v : json) (t : Z) : exn + bool :=
  match v with
  | JInt n => inr (n <=? t)
  | JBool b => inr ((if b then 1 else 0) <=? t)
  | JFloat f => inr (float_le_int f t)
  | _ => inl (Exn TypeError
                ("'<=' not supported between instances of '" ++ type_name v
                 ++ "' and 'int'"))
  end.

(** [check.get("status") == "success" and
     check.get("days_until_expiry", 999) <= threshold] *)
Definition needs_alert (check : json) (threshold : Z) : exn + bool :=
  status <-- get check "status" JNull ;;
  if eq_str status "success"
  then days <-- get check "days_until_expiry" (JInt 999) ;; le_int days threshold
  else inr false.

Definition domain_alert (domain_name : string) (domain_check : json)
    (threshold : Z) : exn + alert :=
  days_until_expiry <-- get domain_check "days_until_expiry" JNull ;;
  expiration_date <-- get domain_check "expiration_date" JNull ;;
  registrar <-- get domain_check "registrar" JNull ;;
  inr {| a_domain := domain_name;
         a_type := "domain_registration";
         a_days_until_expiry := days_until_expiry;
         a_expiration_date := expiration_date;
         a_registrar := Some registrar;
         a_threshold := threshold |}.

Definition ssl_alert (domain_name : string) (ssl_check : json)
    (threshold : Z) : exn + alert :=
  days_until_expiry <-- get ssl_check "days_until_expiry" JNull ;;
  expiration_date <-- get ssl_check "expiration_date" JNull ;;
  inr {| a_domain := domain_name;
         a_type := "ssl_certificate";
         a_days_until_expiry := days_until_expiry;
         a_expiration_date := expiration_date;
         a_registrar := None;
         a_threshold := threshold |}.

(** [result[key]] for the two sub-check keys. *)
Definition getitem (key : string) (v : option json) : exn + json :=
  match v with
  | Some c => inr c
  | None => inl (Exn KeyError ("'" ++ key ++ "'"))
  end.

(** The [for] loop of [get_alerts]; [alerts] is the list built so far. *)
Fixpoint get_alerts_loop (cfg : Monitor.DomainMonitorConfig) (rs : list result)
    (alerts : list alert) : exn + list alert :=
  match rs with
  | [] => inr alerts
  | result :: rest =>
      match r_error result with
      | Some _ => get_alerts_loop cfg rest alerts
      | None =>
          let domain_name := r_domain result in
          domain_check <-- getitem "domain_check" (r_domain_check result) ;;
          ssl_check <-- getitem "ssl_check" (r_ssl_check result) ;;
          let threshold := Monitor.effective_threshold cfg domain_name in
          expiring <-- needs_alert domain_check threshold ;;
          alerts <-- (if expiring
                      then a <-- domain_alert domain_name domain_check threshold ;;
                           inr (alerts ++ [a])%list
                      else inr alerts) ;;
          expiring <-- needs_alert ssl_check threshold ;;
          alerts <-- (if expiring
                      then a <-- ssl_alert domain_name ssl_check threshold ;;
                           inr (alerts ++ [a])%list
                      else inr alerts) ;;
          get_alerts_loop cfg rest alerts
      end
  end.

Definition get_alerts (self : DomainMonitor) : exn + list alert :=
  get_alerts_loop (config self) (results self) [].

(** An entry as [check_all_domains] builds it: a time stamp, and
    either the error text alone or the two sub-checks alone. *)
Definition entry_shaped (r : result) : bool :=
  match r_checked_at r, r_error r, r_domain_check r, r_ssl_check r with
  | Some _, Some _, None, None => true
  | Some _, None, Some _, Some _ => true
  | _, _, _, _ => false
  end.

Definition is_number (v : json) : bool :=
  match v with
  | JInt _ | JBool _ | JFloat _ => true
  | _ => false
  end.

(** A sub-check that the alert conditions can be evaluated on: a dict
    whose day count, when its status is ["success"], is a number or is
    missing. *)
Definition comparable (check : json) : bool :=
  match check with
  | JObject items =>
      if eq_str (match lookup "status" items with Some x => x | None => JNull end)
                "success"
      then match lookup "days_until_expiry" items with
           | Some days => is_number days
           | None => true
           end
      else true
  | _ => false
  end.

Definition evaluable (r : result) : bool :=
  match r_error r, r_domain_check r, r_ssl_check r with
  | Some _, _, _ => true
  | None, Some domain_check, Some ssl_check =>
      comparable domain_check && comparable ssl_check
  | None, _, _ => false
  end.

(** *** The dict a tool returns, as the client decodes it *)

Definition field {A : Type} (key : string) (enc : A -> json) (v : option A)
    : list (string * json) :=
  match v with
  | Some x => [(key, enc x)]
  | None => []
  end.

(** Tuples arrive as lists. *)
Definition encode_rdns (name : rdns) : json :=
  JArray (map (fun rdn =>
                 JArray (map (fun kv => JArray [JString (fst kv); JString (snd kv)])
                           rdn))
            name).

Definition encode (c : check_dict) : json :=
  JObject (field "domain" JString (cd_domain c)
           ++ field "status" JString (cd_status c)
           ++ field "message" JString (cd_message c)
           ++ field "expiration_date" JString (cd_expiration_date c)
           ++ field "days_until_expiry" JInt (cd_days_until_expiry c)
           ++ field "is_expired" JBool (cd_is_expired c)
           ++ field "expires_soon" JBool (cd_expires_soon c)
           ++ field "registrar" JString (cd_registrar c)
           ++ field "subject" encode_rdns (cd_subject c)
           ++ field "issuer" encode_rdns (cd_issuer c))%list.

(** [None] as a JSON value. *)
Definition or_null {A : Type} (enc : A -> json) (v : option A) : json :=
  match v with
  | Some x => enc x
  | None => JNull
  end.

Definition encode_result (r : Monitor.result) : result :=
  {| r_domain := Monitor.r_domain r;
     r_error := Monitor.r_error r;
     r_domain_check := option_map encode (Monitor.r_domain_check r);
     r_ssl_check := option_map encode (Monitor.r_ssl_check r);
     r_checked_at := Monitor.r_checked_at r |}.

Definition encode_alert (a : Monitor.alert) : alert :=
  {| a_domain := Monitor.a_domain a;
     a_type := Monitor.a_type a;
     a_days_until_expiry := or_null JInt (Monitor.a_days_until_expiry a);
     a_expiration_date := or_null JString (Monitor.a_expiration_date a);
     a_registrar := option_map (or_null JString) (Monitor.a_registrar a);
     a_threshold := Monitor.a_threshold a |}.

Definition encode_monitor (self : Monitor.DomainMonitor) : DomainMonitor :=
  {| config := Monitor.config self;
     self_domains := Monitor.self_domains self;
     results := map encode_result (Monitor.results self) |}.

(** A service that answers with the dicts of [tools_execute]. *)
Definition typed_service (env : Env)
    : log -> string -> string -> string -> exn + ExecuteToolResponse :=
  fun l tool_name domain user_id =>
    match tools_execute env l tool_name domain user_id with
    | inl e => inl e
    | inr c => inr {| output := Some {| value := encode c |} |}
    end.

End Replies.

(** Replies that are no dicts. *)
Module ReplySamples.
Import Py World Replies.
Local Open Scope string_scope.
Local Open Scope Z_scope.

(** A service whose replies carry no value for the first domain, no
    output for the second, and a day count of [null] for any other. *)
Definition service : log -> string -> string -> string -> exn + ExecuteToolResponse :=
  fun _ _ domain _ =>
    if String.eqb domain "first.example"
    then inr {| output := Some {| value := JNull |} |}
    else if String.eqb domain "second.example"
    then inr {| output := None |}
    else inr {| output :=
                  Some {| value := JObject [("status", JString "success");
                                            ("days_until_expiry", JNull)] |} |}.

Definition one_config (name : string) : Monitor.DomainMonitorConfig :=
  {| Monitor.monitoring := Monitor.monitoring SampleMonitor.custom_config;
     Monitor.domains := [{| Monitor.dc_name := name; Monitor.dc_description := "";
                            Monitor.dc_alert_threshold_days := None |}] |}.

(** The entry of a domain whose reply has no output. *)
Definition no_output_entry : result :=
  {| r_domain := "second.example";
     r_error := Some "'NoneType' object has no attribute 'value'";
     r_domain_check := None; r_ssl_check := None;
     r_checked_at := Some "2026-11-04T00:00:00.000001" |}.

End ReplySamples.

(** * Properties *)

(** ** Strings *)

Module PyStrFacts.
Import PyStr.
Local Open Scope string_scope.

Lemma append_empty_r (s : string) : s ++ "" = s.
Proof. induction s as [|c s IH]; simpl; [reflexivity | now rewrite IH]. Qed.

Lemma append_assoc (a b c : string) : (a ++ b) ++ c = a ++ b ++ c.
Proof. induction a as [|x a IH]; simpl; [reflexivity | now rewrite IH]. Qed.

Lemma length_append (a b : string) :
  String.length (a ++ b) = String.length a + String.length b.
Proof. induction a as [|x a IH]; simpl; [reflexivity | now rewrite IH]. Qed.

Lemma startswith_append (p s : string) : startswith p (p ++ s) = true.
Proof.
  induction p as [|a p IH]; simpl; [reflexivity|].
  now rewrite Ascii.eqb_refl, IH.
Qed.

Lemma startswith_length (p s : string) :
  startswith p s = true -> String.length p <= String.length s.
Proof.
  revert s; induction p as [|a p IH]; intros [|b s]; simpl; try lia; try discriminate.
  intros H. apply andb_prop in H as [_ H]. apply IH in H. lia.
Qed.

(** Dropping the rest of a matched occurrence. *)
Lemma replace_from_skip (old new t s : string) :
  replace_from old new (String.length t) (t ++ s) = replace_from old new 0 s.
Proof. induction t as [|c t IH]; simpl; [reflexivity | exact IH]. Qed.

(** An occurrence at the very start is removed and the scan resumes
    right after it. *)
Lemma replace_from_occurrence (a : ascii) (old s : string) :
  replace_from (String a old) "" 0 (String a old ++ s)
  = replace_from (String a old) "" 0 s.
Proof.
  cbn [append replace_from].
  change (String a (old ++ s)) with (String a old ++ s).
  rewrite startswith_append.
  replace (String.length (String a old) - 1) with (String.length old)
    by (cbn [String.length]; lia).
  cbn [append]. apply replace_from_skip.
Qed.

(** Where no occurrence starts in [h], the scan copies [h]. *)
Lemma replace_from_no_occurrence (old new h r : string) :
  (forall a t, h = a ++ t -> t <> "" -> startswith old (t ++ r) = false) ->
  replace_from old new 0 (h ++ r) = h ++ replace_from old new 0 r.
Proof.
  induction h as [|c h IH]; intros H; [reflexivity|].
  cbn [append replace_from].
  change (String c (h ++ r)) with (String c h ++ r).
  rewrite (H "" (String c h) eq_refl) by discriminate.
  f_equal. apply IH. intros a t -> Ht.
  apply (H (String c a) t); [reflexivity | exact Ht].
Qed.

(** A character that does not occur in [old] cannot take part in a
    match. *)
Lemma startswith_cut (sep : ascii) (old x r : string) :
  contains_char sep old = false ->
  startswith old (x ++ String sep r) = startswith old x.
Proof.
  revert x; induction old as [|a old IH]; intros x Hc; [reflexivity|].
  cbn [contains_char] in Hc. apply orb_false_elim in Hc as [Ha Hc].
  destruct x as [|b x]; cbn [append startswith].
  - now rewrite Ha.
  - now rewrite IH.
Qed.

(** So the scan of [h ++ sep ++ r] is the scan of [h], then [sep], then
    the scan of [r]. *)
Lemma replace_from_cut (sep : ascii) (a : ascii) (old new h r : string) (k : nat) :
  contains_char sep (String a old) = false ->
  k <= String.length h ->
  replace_from (String a old) new k (h ++ String sep r)
  = replace_from (String a old) new k h
    ++ String sep (replace_from (String a old) new 0 r).
Proof.
  intros Hc. revert k.
  induction h as [|c h IH]; intros k Hk.
  - cbn [String.length] in Hk. assert (k = 0) as -> by lia.
    cbn [append replace_from].
    change (String sep r) with ("" ++ String sep r) at 1.
    rewrite (startswith_cut sep _ "" r Hc). reflexivity.
  - cbn [String.length] in Hk. destruct k as [|k].
    + cbn [append replace_from].
      change (String c (h ++ String sep r)) with (String c h ++ String sep r).
      rewrite (startswith_cut sep _ (String c h) r Hc).
      destruct (startswith (String a old) (String c h)) eqn:Hm.
      * apply startswith_length in Hm. cbn [String.length] in Hm.
        rewrite IH by (cbn [String.length]; lia).
        now rewrite append_assoc.
      * rewrite IH by lia. reflexivity.
    + cbn [append replace_from]. apply IH. lia.
Qed.

(** Removing occurrences introduces no character. *)
Lemma contains_char_replace_from (c : ascii) (old s : string) (k : nat) :
  contains_char c s = false ->
  contains_char c (replace_from old "" k s) = false.
Proof.
  revert k; induction s as [|b s IH]; intros k H; [reflexivity|].
  cbn [contains_char] in H. apply orb_false_elim in H as [Hb Hs].
  cbn [replace_from]. destruct k as [|k]; [|now apply IH].
  destruct (startswith old (String b s)); cbn [append contains_char].
  - now apply IH.
  - rewrite Hb. now apply IH.
Qed.

Lemma split_not_nil (sep : ascii) (s : string) : split sep s <> [].
Proof.
  induction s as [|c s IH]; cbn [split]; [discriminate|].
  destruct (Ascii.eqb c sep); [discriminate|].
  destruct (split sep s); [contradiction | discriminate].
Qed.

(** The first piece of a split is what stands before the first
    separator. *)
Lemma split_hd_cut (sep : ascii) (x r : string) :
  contains_char sep x = false ->
  hd "" (split sep (x ++ String sep r)) = x.
Proof.
  induction x as [|b x IH]; intros H.
  - cbn [append split]. now rewrite Ascii.eqb_refl.
  - cbn [contains_char] in H. apply orb_false_elim in H as [Hb Hx].
    cbn [append split]. rewrite Hb.
    specialize (IH Hx).
    destruct (split sep (x ++ String sep r)) as [|p ps] eqn:E.
    + now apply split_not_nil in E.
    + cbn [hd] in *. now rewrite IH.
Qed.

Lemma split_hd_whole (sep : ascii) (x : string) :
  contains_char sep x = false ->
  hd "" (split sep x) = x.
Proof.
  induction x as [|b x IH]; intros H; [reflexivity|].
  cbn [contains_char] in H. apply orb_false_elim in H as [Hb Hx].
  cbn [split]. rewrite Hb. specialize (IH Hx).
  destruct (split sep x) as [|p ps] eqn:E.
  - now apply split_not_nil in E.
  - cbn [hd] in *. now rewrite IH.
Qed.

(** The first piece of a split never holds the separator. *)
Lemma split_hd_no_sep (sep : ascii) (s : string) :
  contains_char sep (hd "" (split sep s)) = false.
Proof.
  induction s as [|c s IH]; [reflexivity|].
  cbn [split]. destruct (Ascii.eqb c sep) eqn:E; [reflexivity|].
  destruct (split sep s) as [|p ps]; cbn [hd contains_char] in *.
  - now rewrite E.
  - now rewrite E, IH.
Qed.

Lemma contains_char_suffix (c : ascii) (a t : string) :
  contains_char c (a ++ t) = false -> contains_char c t = false.
Proof.
  induction a as [|b a IH]; cbn [append contains_char]; [trivial|].
  intros H. apply orb_false_elim in H as [_ H]. now apply IH.
Qed.

End PyStrFacts.

(** ** The normalizer *)

Module NormalizerFacts.
Import PyStr PyStrFacts Normalizer.
Local Open Scope string_scope.

Lemma endswith_append (a suf : string) : endswith (a ++ suf) suf = true.
Proof.
  induction a as [|c a IH]; cbn [append].
  - destruct suf; cbn [endswith]; now rewrite String.eqb_refl.
  - cbn [endswith]. rewrite IH. apply orb_true_r.
Qed.

(** One step of matching a scheme against a tail of the host: either
    the tail is over, or its next character is compared. *)
Ltac scheme_step t Hr :=
  let c := fresh "c" in
  let E := fresh "E" in
  destruct t as [|c t];
  [ destruct Hr as [-> | [? ->]]; reflexivity
  | cbn [append startswith];
    match goal with
    | |- (Ascii.eqb ?x c && _)%bool = false =>
        destruct (Ascii.eqb_spec x c) as [E|E]; [subst c | reflexivity]
    end; cbn [andb] ].

(** No occurrence of [http://] starts inside a host that is followed
    by nothing or by a path. *)
Lemma no_http_in_host (h r : string) :
  host_like h -> is_path r ->
  forall a t, h = a ++ t -> t <> "" -> startswith "http://" (t ++ r) = false.
Proof.
  intros (Hs & Hh & _) Hr a t -> Ht.
  apply contains_char_suffix in Hs.
  destruct t as [|c t]; [contradiction|].
  cbn [append startswith].
  destruct (Ascii.eqb_spec "h" c) as [E|E]; [subst c | reflexivity]; cbn [andb].
  do 4 scheme_step t Hr.
  destruct t as [|c t].
  - now rewrite endswith_append in Hh.
  - cbn [append startswith].
    destruct (Ascii.eqb_spec "/" c) as [E|E]; [subst c | reflexivity].
    discriminate Hs.
Qed.

Lemma no_https_in_host (h r : string) :
  host_like h -> is_path r ->
  forall a t, h = a ++ t -> t <> "" -> startswith "https://" (t ++ r) = false.
Proof.
  intros (Hs & _ & Hh) Hr a t -> Ht.
  apply contains_char_suffix in Hs.
  destruct t as [|c t]; [contradiction|].
  cbn [append startswith].
  destruct (Ascii.eqb_spec "h" c) as [E|E]; [subst c | reflexivity]; cbn [andb].
  do 5 scheme_step t Hr.
  destruct t as [|c t].
  - now rewrite endswith_append in Hh.
  - cbn [append startswith].
    destruct (Ascii.eqb_spec "/" c) as [E|E]; [subst c | reflexivity].
    discriminate Hs.
Qed.

Lemma is_path_replace_from (a : ascii) (old : string) (r : string) :
  Ascii.eqb a slash = false ->
  is_path r -> is_path (replace_from (String a old) "" 0 r).
Proof.
  intros Ha [-> | [p ->]]; [now left | right].
  cbn [replace_from startswith]. rewrite Ha. cbn [andb].
  eexists; reflexivity.
Qed.

(** Scanning a host and what follows it for one of the schemes leaves
    the host as it is. *)
Lemma scan_http (h r : string) :
  host_like h -> is_path r ->
  exists r', is_path r' /\
    replace_from "http://" "" 0 (h ++ r) = h ++ r'.
Proof.
  intros Hh Hr. exists (replace_from "http://" "" 0 r). split.
  - now apply is_path_replace_from.
  - apply replace_from_no_occurrence, no_http_in_host; assumption.
Qed.

Lemma scan_https (h r : string) :
  host_like h -> is_path r ->
  exists r', is_path r' /\
    replace_from "https://" "" 0 (h ++ r) = h ++ r'.
Proof.
  intros Hh Hr. exists (replace_from "https://" "" 0 r). split.
  - now apply is_path_replace_from.
  - apply replace_from_no_occurrence, no_https_in_host; assumption.
Qed.

Lemma scan_www (h r : string) :
  is_path r ->
  exists r', is_path r' /\
    replace_from "www." "" 0 (h ++ r) = replace_from "www." "" 0 h ++ r'.
Proof.
  intros [-> | [p ->]].
  - exists "". split; [now left|]. now rewrite !append_empty_r.
  - exists (String slash (replace_from "www." "" 0 p)). split.
    + right. eexists; reflexivity.
    + apply replace_from_cut; [reflexivity | lia].
Qed.

Lemma cut_path (x r : string) :
  contains_char slash x = false -> is_path r ->
  hd "" (split slash (x ++ r)) = x.
Proof.
  intros Hx [-> | [p ->]].
  - rewrite append_empty_r. now apply split_hd_whole.
  - now apply split_hd_cut.
Qed.

(** The host part of the normal form: the host with its [www.]
    occurrences removed. *)
Lemma clean_domain_core (h r : string) :
  host_like h -> is_path r ->
  hd "" (split slash
      (replace_from "www." "" 0
         (replace_from "https://" "" 0
            (replace_from "http://" "" 0 (h ++ r)))))
  = replace_from "www." "" 0 h.
Proof.
  intros Hh Hr.
  destruct (scan_http h r Hh Hr) as (r1 & Hr1 & ->).
  destruct (scan_https h r1 Hh Hr1) as (r2 & Hr2 & ->).
  destruct (scan_www h r2 Hr2) as (r3 & Hr3 & ->).
  apply cut_path; [|assumption].
  apply contains_char_replace_from, Hh.
Qed.

(** The output of the normalizer never holds a slash. *)
Lemma clean_domain_no_slash (d : string) :
  contains_char slash (clean_domain d) = false.
Proof. apply split_hd_no_sep. Qed.

Example clean_example :
  clean_domain "https://www.example.com/x" = "example.com".
Proof. reflexivity. Qed.

(** Every occurrence of [www.] goes, not only a leading one. *)
Example clean_inner_www :
  clean_domain "awww.b.com" = "ab.com".
Proof. reflexivity. Qed.

(** C6. For a host (no slash inside, not ending in [http:] or
    [https:]), all the strings obtained by putting an optional scheme
    and an optional [www.] in front of it and an optional path behind
    it are normalized to one and the same string, the host with its
    [www.] removed; the normal form holds no slash. *)
Theorem clean_domain_variations (h d d' : string) :
  host_like h -> variation_of h d -> variation_of h d' ->
  clean_domain d = clean_domain d' /\
  clean_domain d = replace "www." "" h /\
  contains_char slash (clean_domain d) = false.
Proof.
  intros Hh Hd Hd'.
  assert (forall x, variation_of h x -> clean_domain x = replace "www." "" h) as V.
  { intros x (sch & www & path & Hsch & Hwww & Hpath & ->).
    unfold clean_domain, replace.
    destruct Hsch as [-> | [-> | ->]]; destruct Hwww as [-> | ->];
      simpl; apply clean_domain_core; assumption. }
  rewrite (V d Hd), (V d' Hd'). repeat split.
  rewrite <- (V d Hd). apply clean_domain_no_slash.
Qed.

Lemma clean_domain_variations_witness :
  clean_domain "https://www.example.com/x" = clean_domain "example.com" /\
  clean_domain "https://www.example.com/x" = replace "www." "" "example.com" /\
  contains_char slash (clean_domain "https://www.example.com/x") = false.
Proof.
  apply (clean_domain_variations "example.com").
  - repeat split.
  - exists "https://", "www.", "/x". repeat split.
    + right; right; reflexivity.
    + right; reflexivity.
    + right; exists "x"; reflexivity.
  - exists "", "", "". repeat split; left; reflexivity.
Defined.

End NormalizerFacts.

(** ** The tools *)

Module ToolkitFacts.
Import Py World Toolkit Normalizer.
Local Open Scope string_scope.
Local Open Scope Z_scope.

(** [timedelta.days] is the floor of the duration in days. *)
Lemma td_days_normalize (us : Z) :
  td_days (normalize_timedelta us) = us / microseconds_per_day.
Proof.
  unfold normalize_timedelta, microseconds_per_day; cbn [td_days].
  rewrite Z.div_div by lia. reflexivity.
Qed.

Lemma td_days_floor (us : Z) :
  let d := td_days (normalize_timedelta us) in
  d * microseconds_per_day <= us < (d + 1) * microseconds_per_day.
Proof.
  cbv zeta. rewrite td_days_normalize.
  unfold microseconds_per_day.
  pose proof (Z.div_mod us (86400 * 1000000) ltac:(lia)).
  pose proof (Z.mod_pos_bound us (86400 * 1000000) ltac:(lia)).
  lia.
Qed.

(** Unfolding one run of a tool. *)
Ltac unfold_run :=
  cbv beta delta
    [run_check check_domain_expiry check_domain_expiry_body
     check_ssl_expiry check_ssl_expiry_body
     try_except bind perform lift ret raise now_utc] iota zeta.

Ltac unfold_run_in H :=
  cbv beta delta
    [run_check check_domain_expiry check_domain_expiry_body
     check_ssl_expiry check_ssl_expiry_body
     try_except bind perform lift ret raise now_utc] iota zeta in H.

(** Case analysis on the innermost scrutinee first. *)
Ltac split_run H :=
  repeat match type of H with
         | context [match ?x with _ => _ end] =>
             lazymatch x with
             | context [match _ with _ => _ end] => fail
             | _ => let E := fresh "E" in destruct x eqn:E
             end
         end.

Section WithEnv.
Variable env : Env.

(** Both tools always return a dict: every exception is caught. *)
Lemma check_domain_expiry_returns (domain : string) (l : log) :
  exists r l', check_domain_expiry env domain l = (inr r, l').
Proof.
  unfold check_domain_expiry, try_except.
  destruct (check_domain_expiry_body env domain l) as [[e|r] l'];
    eexists; eexists; reflexivity.
Qed.

Lemma check_ssl_expiry_returns (domain : string) (port : Z) (l : log) :
  exists r l', check_ssl_expiry env domain port l = (inr r, l').
Proof.
  unfold check_ssl_expiry, try_except.
  destruct (check_ssl_expiry_body env domain port l) as [[e|r] l'];
    eexists; eexists; reflexivity.
Qed.

Lemma first_if_list_instant (v x : pyval) (d : datetime) :
  first_if_list v = inr x -> x = PyDatetime d ->
  expiration_instant v = Some (utc_instant d).
Proof.
  intros H ->. destruct v as [| |s|[|y ys]]; cbn in H; inversion H; subst; reflexivity.
Qed.

Lemma ensure_aware_instant (v : pyval) (d : datetime) :
  ensure_aware v = inr d ->
  exists d0 off, v = PyDatetime d0 /\ dt_tzinfo d = Some off /\
                 utc_instant d = utc_instant d0.
Proof.
  destruct v as [|d0|s|ys]; cbn; try discriminate.
  destruct (dt_tzinfo d0) as [off|] eqn:E; intros H; inversion H; subst; clear H.
  - exists d, off. auto.
  - exists d0, 0. unfold utc_instant; cbn. rewrite E. repeat split.
Qed.

Lemma datetime_sub_days (a : datetime) (off now : Z) (t : timedelta) :
  dt_tzinfo a = Some off ->
  datetime_sub a {| dt_wall := now; dt_tzinfo := Some 0 |} = inr t ->
  td_days t = days_between (utc_instant a) now.
Proof.
  unfold datetime_sub, utc_instant, days_between. cbn. intros -> H.
  inversion H; subst; clear H. rewrite td_days_normalize. f_equal. lia.
Qed.

Lemma whois_success (domain : string) (l l' : log) (r : check_dict) :
  check_domain_expiry env domain l = (inr r, l') ->
  cd_status r = Some "success" ->
  exists expiration now,
    reads_expiry env domain l Whois expiration now /\
    expiry_fields expiration now r.
Proof.
  intros H Hs. unfold_run_in H.
  split_run H; inversion H; subst; clear H; try discriminate Hs.
  all: match goal with
       | Hf : first_if_list _ = inr ?x, Ha : ensure_aware ?x = inr ?d,
         Hd : datetime_sub ?d _ = inr _, Hw : whois_whois _ _ _ = _ |- _ =>
           destruct (ensure_aware_instant _ _ Ha) as (? & ? & Hx & Hoff & Hi);
           pose proof (first_if_list_instant _ _ _ Hf Hx) as Hv;
           pose proof (datetime_sub_days _ _ _ _ Hoff Hd) as Hdays;
           rewrite Hi in Hdays;
           eexists; eexists; split;
           [ eapply reads_whois; [exact Hw | exact Hv]
           | unfold expiry_fields; cbn; rewrite Hdays; auto ]
       end.
Qed.

Lemma cert_getitem_notAfter_inr (c : Cert) (v : string) :
  cert_getitem_notAfter c = inr v -> cert_notAfter c = Some v.
Proof.
  unfold cert_getitem_notAfter. destruct (cert_notAfter c); congruence.
Qed.

Lemma tls_success (domain : string) (port : Z) (l l' : log) (r : check_dict) :
  check_ssl_expiry env domain port l = (inr r, l') ->
  cd_status r = Some "success" ->
  exists expiration now,
    reads_expiry env domain l (Tls port) expiration now /\
    expiry_fields expiration now r.
Proof.
  intros H Hs. unfold_run_in H.
  split_run H; inversion H; subst; clear H; try discriminate Hs.
  repeat match goal with u : unit |- _ => destruct u end.
  match goal with
  | Hn : cert_getitem_notAfter _ = inr _, Hd : datetime_sub ?a _ = inr _ |- _ =>
      apply cert_getitem_notAfter_inr in Hn;
      pose proof (datetime_sub_days a 0 _ _ eq_refl Hd) as Hdays
  end.
  eexists; eexists; split.
  - eapply reads_tls; eassumption.
  - unfold expiry_fields; cbn. rewrite Hdays.
    unfold utc_instant; cbn. rewrite Z.sub_0_r. auto.
Qed.

(** C1. A check that returns [status = "success"] has read an
    expiration instant and then the clock, and its fields are the floor
    of the days between the two, whether that is negative, and whether
    it lies in the fixed window from 0 to 30. *)
Theorem success_fields (t : tool) (domain : string) (l l' : log) (r : check_dict) :
  run_check env t domain l = (inr r, l') ->
  cd_status r = Some "success" ->
  exists expiration now,
    reads_expiry env domain l t expiration now /\
    cd_days_until_expiry r = Some (days_between expiration now) /\
    (exists d, cd_days_until_expiry r = Some d /\
       d * microseconds_per_day <= expiration - now < (d + 1) * microseconds_per_day /\
       cd_is_expired r = Some (d <? 0) /\
       cd_expires_soon r = Some ((0 <=? d) && (d <=? 30))).
Proof.
  intros H Hs.
  assert (exists expiration now,
             reads_expiry env domain l t expiration now /\
             expiry_fields expiration now r) as (e & n & Hr & Hd & Hx & Hsoon).
  { destruct t; [eapply whois_success | eapply tls_success]; eassumption. }
  exists e, n. split; [exact Hr|]. split; [exact Hd|].
  exists (days_between e n). repeat split; try assumption.
  - unfold days_between, microseconds_per_day.
    pose proof (Z.div_mod (e - n) (86400 * 1000000) ltac:(lia)).
    pose proof (Z.mod_pos_bound (e - n) (86400 * 1000000) ltac:(lia)). lia.
  - unfold days_between, microseconds_per_day.
    pose proof (Z.div_mod (e - n) (86400 * 1000000) ltac:(lia)).
    pose proof (Z.mod_pos_bound (e - n) (86400 * 1000000) ltac:(lia)). lia.
Qed.

(** *** Error handling of the WHOIS check *)

Lemma ensure_aware_datetime (d : datetime) :
  ensure_aware (PyDatetime d) = inr (assume_utc d).
Proof. unfold ensure_aware, assume_utc. destruct (dt_tzinfo d); reflexivity. Qed.

Lemma datetime_sub_assume_utc (d : datetime) (now : Z) :
  datetime_sub (assume_utc d) {| dt_wall := now; dt_tzinfo := Some 0 |}
  = inr (normalize_timedelta (utc_instant d - now)).
Proof.
  unfold datetime_sub, assume_utc, utc_instant.
  destruct (dt_tzinfo d) as [off|] eqn:E; cbn; rewrite ?E; do 2 f_equal; lia.
Qed.

(** The run of the WHOIS check on a response whose expiration field,
    after a list has been replaced by its first element, is the
    timestamp [d]. *)
Lemma whois_run_timestamp (domain : string) (l : log) (info : WhoisEntry)
    (d : datetime) :
  let clean := clean_domain domain in
  let l1 := (l ++ [WhoisQuery clean])%list in
  whois_whois env l clean = inr (Some info) ->
  first_if_list (we_expiration_date info) = inr (PyDatetime d) ->
  check_domain_expiry env domain l
  = (inr (whois_success_dict env clean info d (datetime_now_utc env l1)),
     (l1 ++ [NowUtc])%list).
Proof.
  cbv zeta. intros H Hf. unfold_run. rewrite H, Hf.
  rewrite ensure_aware_datetime, datetime_sub_assume_utc.
  unfold whois_success_dict, getattr_registrar, days_between.
  now rewrite td_days_normalize.
Qed.

(** C4. The error rules of the WHOIS check.  A raising query gives
    the message with the cause; an absent response gives "Domain not
    found."; of a collection of timestamps the first element is the
    one used: the result is the success result of that timestamp, the
    same as for the timestamp alone and whatever follows it in the
    collection, and a collection that starts with an absent timestamp
    is answered like an absent timestamp; an absent timestamp gives
    "Could not determine expiration date". *)
Theorem whois_error_handling (domain : string) (l : log) :
  let clean := clean_domain domain in
  let l1 := (l ++ [WhoisQuery clean])%list in
  (forall e, whois_whois env l clean = inl e ->
     check_domain_expiry env domain l
     = (inr (error_dict domain ("Error checking domain: " ++ exn_str e)), l1)) /\
  (whois_whois env l clean = inr None ->
     check_domain_expiry env domain l
     = (inr (error_dict clean "Domain not found."), l1)) /\
  (forall info d rest,
     whois_whois env l clean = inr (Some info) ->
     we_expiration_date info = PyList (PyDatetime d :: rest) \/
     we_expiration_date info = PyDatetime d ->
     check_domain_expiry env domain l
     = (inr (whois_success_dict env clean info d (datetime_now_utc env l1)),
        (l1 ++ [NowUtc])%list)) /\
  (forall info rest,
     whois_whois env l clean = inr (Some info) ->
     we_expiration_date info = PyNone \/
     we_expiration_date info = PyList (PyNone :: rest) ->
     check_domain_expiry env domain l
     = (inr (error_dict clean "Could not determine expiration date"), l1)).
Proof.
  cbv zeta. split; [|split; [|split]].
  - intros e H. unfold_run. now rewrite H.
  - intros H. unfold_run. now rewrite H.
  - intros info d rest H Hx. apply whois_run_timestamp; [exact H|].
    destruct Hx as [-> | ->]; reflexivity.
  - intros info rest H Hx. unfold_run. rewrite H.
    destruct Hx as [-> | ->]; reflexivity.
Qed.

(** An empty collection has no first element: indexing raises and the
    catch-all clause answers. *)
Lemma whois_empty_collection (domain : string) (l : log) (info : WhoisEntry) :
  whois_whois env l (clean_domain domain) = inr (Some info) ->
  we_expiration_date info = PyList [] ->
  check_domain_expiry env domain l
  = (inr (error_dict domain "Error checking domain: list index out of range"),
     (l ++ [WhoisQuery (clean_domain domain)])%list).
Proof. intros H Hx. unfold_run. rewrite H, Hx. reflexivity. Qed.

(** *** Error handling of the TLS check *)




(** The requests of one run of the TLS check: an initial segment of
    the fixed sequence, so nothing is attempted twice. *)
Lemma ssl_body_requests (domain : string) (port : Z) (l l' : log)
    (res : exn + check_dict) :
  check_ssl_expiry_body env domain port l = (res, l') ->
  exists p, l' = (l ++ p)%list /\ is_prefix_of p (ssl_requests (clean_domain domain)).
Proof.
  intros H. unfold_run_in H. unfold ssl_requests, is_prefix_of.
  split_run H; inversion H; subst; clear H;
    repeat rewrite <- app_assoc; cbn [app];
    (eexists; split; [reflexivity | eexists; cbn [app]; reflexivity]).
Qed.

Lemma ssl_requests_same (domain : string) (port : Z) (l : log) :
  snd (check_ssl_expiry env domain port l)
  = snd (check_ssl_expiry_body env domain port l).
Proof.
  unfold check_ssl_expiry, try_except.
  destruct (check_ssl_expiry_body env domain port l) as [[e|r] l']; reflexivity.
Qed.

(** A failing connection attempt is the exception of the body. *)
Lemma connection_failure (domain : string) (port : Z) (l : log) (e : exn) :
  let clean := clean_domain domain in
  ssl_create_default_context env l = inr tt ->
  socket_create_connection env (l ++ [CreateDefaultContext])%list clean 443 10
  = inl e ->
  check_ssl_expiry_body env domain port l
  = (inl e, (l ++ [CreateDefaultContext; CreateConnection clean 443 10])%list).
Proof.
  cbv zeta. intros H1 H2. unfold_run. rewrite H1, H2.
  now rewrite <- app_assoc.
Qed.

(** A failing handshake likewise. *)
Lemma handshake_failure (domain : string) (port : Z) (l : log) (e : exn) :
  let clean := clean_domain domain in
  let l1 := (l ++ [CreateDefaultContext])%list in
  let l2 := (l1 ++ [CreateConnection clean 443 10])%list in
  ssl_create_default_context env l = inr tt ->
  socket_create_connection env l1 clean 443 10 = inr tt ->
  context_wrap_socket env l2 clean = inl e ->
  check_ssl_expiry_body env domain port l
  = (inl e, (l2 ++ [WrapSocket clean])%list).
Proof.
  cbv zeta. intros H1 H2 H3. unfold_run. now rewrite H1, H2, H3.
Qed.


(** *** The port parameter *)

(** C9. The TLS check gives the same answer and issues the same
    requests whatever the port argument, and the only connection it
    opens is to port 443 of the normalized host. *)
Theorem port_ignored (domain : string) (port port' : Z) (l : log) :
  check_ssl_expiry env domain port l = check_ssl_expiry env domain port' l /\
  (forall host p t,
     In (CreateConnection host p t) (snd (check_ssl_expiry env domain port l)) ->
     In (CreateConnection host p t) l \/
     (host = clean_domain domain /\ p = 443 /\ t = 10)).
Proof.
  split; [reflexivity|].
  intros host p t Hin. rewrite ssl_requests_same in Hin.
  destruct (check_ssl_expiry_body env domain port l) as [res l'] eqn:E.
  destruct (ssl_body_requests _ _ _ _ _ E) as (q & -> & (rest & Hq)).
  cbn [snd] in Hin. apply in_app_or in Hin as [Hin | Hin]; [now left | right].
  assert (In (CreateConnection host p t) (ssl_requests (clean_domain domain))) as Hs.
  { rewrite Hq. apply in_or_app. now left. }
  unfold ssl_requests in Hs. cbn [In] in Hs.
  destruct Hs as [Hs | [Hs | [Hs | [Hs | [Hs | []]]]]]; try discriminate Hs.
  inversion Hs. auto.
Qed.

End WithEnv.

Lemma success_fields_witness :
  exists expiration now,
    reads_expiry Sample.env_ok "https://www.example.com/x" [] Whois expiration now /\
    cd_days_until_expiry Sample.whois_result
      = Some (days_between expiration now) /\
    (exists d, cd_days_until_expiry Sample.whois_result = Some d /\
       d * microseconds_per_day <= expiration - now < (d + 1) * microseconds_per_day /\
       cd_is_expired Sample.whois_result = Some (d <? 0) /\
       cd_expires_soon Sample.whois_result
         = Some ((0 <=? d) && (d <=? 30))).
Proof.
  apply (success_fields Sample.env_ok Whois "https://www.example.com/x" []
           [WhoisQuery "example.com"; NowUtc]).
  - vm_compute. reflexivity.
  - reflexivity.
Defined.

Lemma whois_error_handling_witness :
  check_domain_expiry
    (Sample.env (inl (Exn (OtherException "PywhoisError") "No match")) (inr tt))
    "http://example.com" []
  = (inr (error_dict "http://example.com" "Error checking domain: No match"),
     [WhoisQuery "example.com"]) /\
  check_domain_expiry (Sample.env (inr None) (inr tt)) "http://example.com" []
  = (inr (error_dict "example.com" "Domain not found."),
     [WhoisQuery "example.com"]) /\
  check_domain_expiry Sample.env_ok "http://example.com" []
  = (inr Sample.whois_result, [WhoisQuery "example.com"; NowUtc]) /\
  check_domain_expiry
    (Sample.env (inr (Some (with_expiration_date PyNone Sample.whois_entry))) (inr tt))
    "http://example.com" []
  = (inr (error_dict "example.com" "Could not determine expiration date"),
     [WhoisQuery "example.com"]).
Proof.
  split; [|split; [|split]].
  - pose proof (whois_error_handling
                  (Sample.env (inl (Exn (OtherException "PywhoisError") "No match"))
                     (inr tt))
                  "http://example.com" []) as W.
    cbv zeta in W. destruct W as (W & _). exact (W _ eq_refl).
  - pose proof (whois_error_handling (Sample.env (inr None) (inr tt))
                  "http://example.com" []) as W.
    cbv zeta in W. destruct W as (_ & W & _). exact (W eq_refl).
  - pose proof (whois_error_handling Sample.env_ok "http://example.com" []) as W.
    cbv zeta in W. destruct W as (_ & _ & W & _).
    exact (W Sample.whois_entry Sample.registration_end
             [PyDatetime Sample.certificate_end] eq_refl (or_introl eq_refl)).
  - pose proof (whois_error_handling
                  (Sample.env
                     (inr (Some (with_expiration_date PyNone Sample.whois_entry)))
                     (inr tt))
                  "http://example.com" []) as W.
    cbv zeta in W. destruct W as (_ & _ & _ & W).
    exact (W _ [] eq_refl (or_introl eq_refl)).
Defined.


(** C10. Which string the [domain] field of a returned dict holds, by
    branch.  Both checks always return a dict.  In the TLS check the
    dict is either an error built by an [except] clause, with the raw
    input, or the success dict, with the normalized host.  In the WHOIS
    check it is either the error of the catch-all clause, with the raw
    input, or a dict returned inside the [try] block, which carries the
    normalized host and is the "Domain not found." error, the "Could
    not determine expiration date" error or a success.  The two strings
    can differ, in each check. *)
Theorem domain_field_by_branch :
  (forall env domain port l,
     exists r l',
       check_ssl_expiry env domain port l = (inr r, l') /\
       ((exists e,
           check_ssl_expiry_body env domain port l = (inl e, l') /\
           r = error_dict domain (ssl_error_message e)) \/
        (check_ssl_expiry_body env domain port l = (inr r, l') /\
         cd_status r = Some "success" /\
         cd_domain r = Some (clean_domain domain))) /\
       (cd_status r = Some "error" -> cd_domain r = Some domain) /\
       (cd_status r = Some "success" ->
        cd_domain r = Some (clean_domain domain))) /\
  (forall env domain l,
     exists r l',
       check_domain_expiry env domain l = (inr r, l') /\
       ((exists e,
           check_domain_expiry_body env domain l = (inl e, l') /\
           r = error_dict domain ("Error checking domain: " ++ exn_str e)) \/
        (check_domain_expiry_body env domain l = (inr r, l') /\
         cd_domain r = Some (clean_domain domain) /\
         (r = error_dict (clean_domain domain) "Domain not found." \/
          r = error_dict (clean_domain domain)
                "Could not determine expiration date" \/
          cd_status r = Some "success"))) /\
       (cd_message r = Some "Domain not found." ->
        cd_domain r = Some (clean_domain domain)) /\
       (cd_message r = Some "Could not determine expiration date" ->
        cd_domain r = Some (clean_domain domain)) /\
       (cd_status r = Some "success" ->
        cd_domain r = Some (clean_domain domain))) /\
  (exists env env' domain port l r r' l1 l1',
     check_ssl_expiry env domain port l = (inr r, l1) /\
     check_ssl_expiry env' domain port l = (inr r', l1') /\
     cd_status r = Some "error" /\ cd_status r' = Some "success" /\
     cd_domain r = Some domain /\ cd_domain r' = Some (clean_domain domain) /\
     cd_domain r <> cd_domain r') /\
  (exists env env' domain l r r' l1 l1',
     check_domain_expiry env domain l = (inr r, l1) /\
     check_domain_expiry env' domain l = (inr r', l1') /\
     cd_status r = Some "error" /\ cd_status r' = Some "error" /\
     cd_domain r = Some domain /\ cd_domain r' = Some (clean_domain domain) /\
     cd_domain r <> cd_domain r').
Proof.
  split; [|split; [|split]].
  - intros env domain port l.
    destruct (check_ssl_expiry_returns env domain port l) as (r & l' & H).
    exists r, l'. split; [exact H|].
    unfold check_ssl_expiry, try_except in H.
    destruct (check_ssl_expiry_body env domain port l) as [[e|r0] l0] eqn:B;
      inversion H; subst; clear H.
    + split; [left; exists e; split; reflexivity|].
      cbn. split; intros Hs; try discriminate Hs; reflexivity.
    + assert (cd_status r = Some "success" /\
              cd_domain r = Some (clean_domain domain)) as [Hs Hd].
      { unfold_run_in B.
        split_run B; inversion B; subst; clear B; cbn; split; reflexivity. }
      split; [right; repeat split; assumption|].
      split; intros Hx; [rewrite Hs in Hx; discriminate Hx | exact Hd].
  - intros env domain l.
    destruct (check_domain_expiry_returns env domain l) as (r & l' & H).
    exists r, l'. split; [exact H|].
    unfold check_domain_expiry, try_except in H.
    destruct (check_domain_expiry_body env domain l) as [[e|r0] l0] eqn:B;
      inversion H; subst; clear H.
    + split; [left; exists e; split; reflexivity|].
      cbn. split; [|split]; intros Hm; discriminate Hm.
    + assert (cd_domain r = Some (clean_domain domain) /\
              (r = error_dict (clean_domain domain) "Domain not found." \/
               r = error_dict (clean_domain domain)
                     "Could not determine expiration date" \/
               cd_status r = Some "success")) as [Hd Hk].
      { unfold_run_in B.
        split_run B; inversion B; subst; clear B; cbn;
          (split; [reflexivity|]);
          first [ left; reflexivity
                | right; left; reflexivity
                | right; right; reflexivity ]. }
      split; [right; repeat split; assumption|].
      split; [|split]; intros _; exact Hd.
  - exists (Sample.env (inr None) (inl (Exn SocketTimeout "timed out"))),
      Sample.env_ok, "https://www.example.com/x", 443, [].
    do 4 eexists.
    split; [reflexivity|]. split; [reflexivity|].
    split; [reflexivity|]. split; [reflexivity|].
    split; [reflexivity|]. split; [reflexivity|].
    cbn. discriminate.
  - exists (Sample.env (inl (Exn (OtherException "PywhoisError") "No match"))
              (inr tt)),
      (Sample.env (inr None) (inr tt)), "https://www.example.com/x", [].
    do 4 eexists.
    split; [reflexivity|]. split; [reflexivity|].
    split; [reflexivity|]. split; [reflexivity|].
    split; [reflexivity|]. split; [reflexivity|].
    cbn. discriminate.
Qed.

End ToolkitFacts.

(** ** The monitor *)

Module MonitorFacts.
Import Py World Monitor.
Local Open Scope string_scope.
Local Open Scope list_scope.
Local Open Scope Z_scope.

(** *** The loop of [get_alerts] against the evaluator of the
    specification *)

Lemma get_alerts_loop_step (cfg : DomainMonitorConfig) (r : result)
    (rs : list result) (acc : list alert) :
  well_shaped r = true ->
  get_alerts_loop cfg (r :: rs) acc
  = get_alerts_loop cfg rs (acc ++ alerts_of_result cfg r).
Proof.
  unfold well_shaped, alerts_of_result. cbn [get_alerts_loop].
  destruct (r_error r) as [e|].
  - intros _. now rewrite app_nil_r.
  - destruct (r_domain_check r) as [dc|]; [|discriminate].
    destruct (r_ssl_check r) as [sc|]; [|discriminate].
    intros _. cbn [getitem].
    destruct (needs_alert dc _), (needs_alert sc _);
      cbn [app]; rewrite <- ?app_assoc, ?app_nil_r; reflexivity.
Qed.

Lemma get_alerts_loop_raises (cfg : DomainMonitorConfig) (r : result)
    (rs : list result) (acc : list alert) :
  well_shaped r = false ->
  exists e, get_alerts_loop cfg (r :: rs) acc = inl e.
Proof.
  unfold well_shaped. cbn [get_alerts_loop].
  destruct (r_error r) as [e|]; [discriminate|].
  destruct (r_domain_check r) as [dc|]; cbn [getitem].
  - destruct (r_ssl_check r) as [sc|]; [discriminate|].
    intros _. eexists; reflexivity.
  - intros _. eexists; reflexivity.
Qed.

Lemma get_alerts_loop_total (cfg : DomainMonitorConfig) (rs : list result)
    (acc : list alert) :
  forallb well_shaped rs = true ->
  get_alerts_loop cfg rs acc = inr (acc ++ evaluate cfg rs).
Proof.
  revert acc; induction rs as [|r rs IH]; intros acc H.
  - cbn. now rewrite app_nil_r.
  - cbn [forallb] in H. apply andb_prop in H as [Hr Hrs].
    rewrite get_alerts_loop_step by exact Hr.
    rewrite IH by exact Hrs. cbn [evaluate flat_map].
    now rewrite app_assoc.
Qed.

Lemma get_alerts_loop_inr (cfg : DomainMonitorConfig) (rs : list result)
    (acc out : list alert) :
  get_alerts_loop cfg rs acc = inr out ->
  forallb well_shaped rs = true /\ out = acc ++ evaluate cfg rs.
Proof.
  revert acc; induction rs as [|r rs IH]; intros acc H.
  - cbn in *. inversion H. now rewrite app_nil_r.
  - destruct (well_shaped r) eqn:Hr.
    + rewrite get_alerts_loop_step in H by exact Hr.
      apply IH in H as [Hrs ->]. cbn [forallb evaluate flat_map].
      rewrite Hr, Hrs. now rewrite app_assoc.
    + destruct (get_alerts_loop_raises cfg r rs acc Hr) as [e He].
      congruence.
Qed.

(** An entry with a top-level error key can be taken out of the list
    without changing what the loop does. *)
Lemma get_alerts_loop_skip_error (cfg : DomainMonitorConfig)
    (rs1 rs2 : list result) (r : result) (acc : list alert) :
  r_error r <> None ->
  get_alerts_loop cfg (rs1 ++ r :: rs2) acc = get_alerts_loop cfg (rs1 ++ rs2) acc.
Proof.
  intros Hr. revert acc; induction rs1 as [|x rs1 IH]; intros acc.
  - cbn [app get_alerts_loop]. destruct (r_error r); [reflexivity | contradiction].
  - cbn [app get_alerts_loop].
    destruct (r_error x); [apply IH|].
    destruct (getitem "domain_check" (r_domain_check x)); [reflexivity|].
    destruct (getitem "ssl_check" (r_ssl_check x)); [reflexivity|].
    apply IH.
Qed.

(** Where an alert of one result comes from. *)
Lemma alerts_of_result_source (cfg : DomainMonitorConfig) (r : result) (a : alert) :
  In a (alerts_of_result cfg r) ->
  r_error r = None /\
  a_domain a = r_domain r /\
  a_threshold a = effective_threshold cfg (r_domain r) /\
  exists check,
    ((a_type a = "domain_registration" /\ r_domain_check r = Some check) \/
     (a_type a = "ssl_certificate" /\ r_ssl_check r = Some check)) /\
    cd_status check = Some "success" /\
    a_days_until_expiry a = cd_days_until_expiry check /\
    a_expiration_date a = cd_expiration_date check /\
    get_days_or_999 check <= a_threshold a.
Proof.
  unfold alerts_of_result.
  destruct (r_error r) as [e|]; [intros []|].
  destruct (r_domain_check r) as [dc|]; [|intros []].
  destruct (r_ssl_check r) as [sc|]; [|intros []].
  cbv zeta. intros Hin. apply in_app_or in Hin.
  assert (forall c thr, needs_alert c thr = true ->
            cd_status c = Some "success" /\ get_days_or_999 c <= thr) as Hneed.
  { intros c thr H. unfold needs_alert, status_is_success in H.
    apply andb_prop in H as [Hs Hd]. apply Z.leb_le in Hd. split; [|exact Hd].
    destruct (cd_status c) as [s|]; [|discriminate].
    apply String.eqb_eq in Hs. now subst. }
  destruct Hin as [Hin | Hin].
  - destruct (needs_alert dc _) eqn:N; [|destruct Hin].
    destruct Hin as [<- | []]. apply Hneed in N as [Hs Hd].
    repeat split; cbn. exists dc. repeat split; auto.
  - destruct (needs_alert sc _) eqn:N; [|destruct Hin].
    destruct Hin as [<- | []]. apply Hneed in N as [Hs Hd].
    repeat split; cbn. exists sc. repeat split; auto.
Qed.

Lemma get_alerts_inr (self : DomainMonitor) (alerts : list alert) :
  get_alerts self = inr alerts ->
  forallb well_shaped (results self) = true /\
  alerts = evaluate (config self) (results self).
Proof.
  unfold get_alerts. intros H. apply get_alerts_loop_inr in H as [Hw ->].
  split; [exact Hw | reflexivity].
Qed.

Lemma in_evaluate (cfg : DomainMonitorConfig) (rs : list result) (a : alert) :
  In a (evaluate cfg rs) <-> exists r, In r rs /\ In a (alerts_of_result cfg r).
Proof. unfold evaluate. apply in_flat_map. Qed.

(** *** Soundness of the alerts *)

(** C2, as amended.  Every alert of [get_alerts] comes from a
    sub-check of an entry without error key; the sub-check has status
    ["success"] and its day count, read as 999 when it has none, is at
    most the threshold in the alert, which is the effective threshold
    of the entry's domain.  Taking an entry with an error key out of
    the results leaves the alerts as they are. *)
Theorem get_alerts_sound (self : DomainMonitor) (alerts : list alert) :
  get_alerts self = inr alerts ->
  (forall a, In a alerts ->
     exists r check,
       In r (results self) /\ r_error r = None /\
       a_domain a = r_domain r /\
       a_threshold a = effective_threshold (config self) (r_domain r) /\
       ((a_type a = "domain_registration" /\ r_domain_check r = Some check) \/
        (a_type a = "ssl_certificate" /\ r_ssl_check r = Some check)) /\
       cd_status check = Some "success" /\
       a_days_until_expiry a = cd_days_until_expiry check /\
       match cd_days_until_expiry check with
       | Some d => d <= a_threshold a
       | None => 999 <= a_threshold a
       end) /\
  (forall rs1 r rs2,
     results self = rs1 ++ r :: rs2 -> r_error r <> None ->
     get_alerts (with_results self (rs1 ++ rs2)) = inr alerts).
Proof.
  intros H. split.
  - apply get_alerts_inr in H as [_ ->]. intros a Ha.
    apply in_evaluate in Ha as (r & Hr & Ha).
    apply alerts_of_result_source in Ha
      as (He & Hd & Ht & check & Hc & Hs & Hdays & _ & Hle).
    exists r, check. repeat split; try assumption.
    unfold get_days_or_999 in Hle. destruct (cd_days_until_expiry check); exact Hle.
  - intros rs1 r rs2 Hrs Hr. unfold get_alerts in *. cbn [with_results results config].
    rewrite Hrs in H. now rewrite get_alerts_loop_skip_error in H.
Qed.

Lemma get_alerts_sound_witness :
  exists r check,
    In r (results SampleMonitor.custom_monitor) /\ r_error r = None /\
    r_domain_check r = Some check /\
    cd_status check = Some "success" /\
    cd_days_until_expiry check = Some 45 /\ 45 <= 60.
Proof.
  destruct (get_alerts_sound SampleMonitor.custom_monitor
              [domain_alert "custom-domain.com" SampleMonitor.custom_domain_check 60]
              eq_refl) as [H _].
  destruct (H _ (or_introl eq_refl))
    as (r & check & Hr & He & _ & _ & Hc & Hs & Hd & Hle).
  exists r, check.
  destruct Hc as [[_ Hc] | [Ht _]]; [|discriminate Ht].
  cbn in Hd. rewrite <- Hd in Hle. cbn in Hle.
  repeat split; auto.
Defined.

(** The sentence as first written does not hold: with a threshold of
    1000, a successful sub-check without a day count is alerted. *)
Lemma alert_without_day_count :
  ~ (forall (self : DomainMonitor) (alerts : list alert) (a : alert),
       get_alerts self = inr alerts -> In a alerts ->
       exists r check d,
         In r (results self) /\
         (r_domain_check r = Some check \/ r_ssl_check r = Some check) /\
         cd_status check = Some "success" /\
         cd_days_until_expiry check = Some d /\ d <= a_threshold a).
Proof.
  intros H.
  destruct (H SampleMonitor.wide_monitor
              [domain_alert "bare.example" SampleMonitor.bare_success 1000]
              _ eq_refl (or_introl eq_refl))
    as (r & check & d & Hr & Hc & Hs & Hd & _).
  destruct Hr as [<- | []]. cbn in Hc.
  destruct Hc as [Hc | Hc]; inversion Hc; subst check; discriminate.
Qed.

(** *** The effective threshold *)

(** The sentence as first written does not hold: a per-domain
    threshold of zero is present and not null, and the global one is
    used. *)
Lemma zero_override_ignored :
  ~ (forall (cfg : DomainMonitorConfig) (name : string) (dc : DomainConfig) (n : Z),
       find_domain_config cfg name = Some dc ->
       dc_alert_threshold_days dc = Some n ->
       effective_threshold cfg name = n).
Proof.
  intros H.
  specialize (H SampleMonitor.zero_config "zero.example" _ 0 eq_refl eq_refl).
  discriminate H.
Qed.

(** C3, as amended.  For a domain with a matching [DomainConfig] (the
    first one of that name), the effective threshold is the per-domain
    value when that is present, not null and not zero, and the global
    threshold otherwise; it is the threshold carried by every alert of
    the domain, and the override of the test suite yields its one
    alert. *)
Theorem effective_threshold_override
    (cfg : DomainMonitorConfig) (name : string) (dc : DomainConfig) :
  find_domain_config cfg name = Some dc ->
  (forall n, dc_alert_threshold_days dc = Some n -> n <> 0 ->
             effective_threshold cfg name = n) /\
  (dc_alert_threshold_days dc = Some 0 ->
     effective_threshold cfg name = mc_alert_threshold_days (monitoring cfg)) /\
  (dc_alert_threshold_days dc = None ->
     effective_threshold cfg name = mc_alert_threshold_days (monitoring cfg)) /\
  (forall self alerts a,
     config self = cfg -> get_alerts self = inr alerts -> In a alerts ->
     a_domain a = name -> a_threshold a = effective_threshold cfg name) /\
  get_alerts SampleMonitor.custom_monitor
  = inr [domain_alert "custom-domain.com" SampleMonitor.custom_domain_check 60].
Proof.
  intros Hf. unfold effective_threshold. rewrite Hf.
  split; [|split; [|split; [|split]]].
  - intros n Hn Hz. rewrite Hn. cbn [truthy].
    destruct (Z.eqb_spec n 0); [contradiction | reflexivity].
  - intros Hn. now rewrite Hn.
  - intros Hn. now rewrite Hn.
  - intros self alerts a <- H Ha Hd.
    apply get_alerts_inr in H as [_ ->].
    apply in_evaluate in Ha as (r & _ & Ha).
    apply alerts_of_result_source in Ha as (_ & Hdom & Ht & _).
    rewrite Ht, <- Hdom, Hd. unfold effective_threshold. now rewrite Hf.
  - reflexivity.
Qed.

Lemma effective_threshold_override_witness :
  effective_threshold SampleMonitor.custom_config "custom-domain.com" = 60.
Proof.
  destruct (effective_threshold_override SampleMonitor.custom_config
              "custom-domain.com" _ eq_refl) as [H _].
  apply H; [reflexivity | lia].
Defined.

(** *** Order of the alerts *)

(** C7.  [get_alerts] returns the alerts of the entries in the order
    of the entries, and for one entry the registration alert, if any,
    then the certificate alert, if any; it returns whenever every
    entry without error key carries both sub-checks. *)
Theorem get_alerts_order (self : DomainMonitor) :
  (forallb well_shaped (results self) = true ->
   get_alerts self = inr (flat_map (alerts_of_result (config self)) (results self))) /\
  (forall alerts, get_alerts self = inr alerts ->
     alerts = flat_map (alerts_of_result (config self)) (results self)) /\
  (forall r, exists registration certificate,
     alerts_of_result (config self) r = registration ++ certificate /\
     (registration = [] \/
      exists a, registration = [a] /\ a_type a = "domain_registration") /\
     (certificate = [] \/
      exists a, certificate = [a] /\ a_type a = "ssl_certificate")).
Proof.
  split; [|split].
  - intros H. unfold get_alerts. now rewrite get_alerts_loop_total.
  - intros alerts H. now apply get_alerts_inr in H as [_ ->].
  - intros r. unfold alerts_of_result.
    destruct (r_error r), (r_domain_check r) as [dc|], (r_ssl_check r) as [sc|];
      try (exists [], []; repeat split; now left).
    cbv zeta. eexists; eexists; split; [reflexivity|]. split.
    + destruct (needs_alert dc _); [right | now left].
      eexists; split; reflexivity.
    + destruct (needs_alert sc _); [right | now left].
      eexists; split; reflexivity.
Qed.

(** *** The batch check *)

Section Batch.
Variable env : Env.

Ltac unfold_check :=
  cbv beta delta [check_domain execute now_isoformat
                  try_except bind perform lift ret raise] iota zeta.

Lemma check_domain_entry (self : DomainMonitor) (domain : string)
    (l l1 : log) (r : result) :
  check_domain env self domain l = (inr r, l1) ->
  r_domain r = domain /\ r_error r = None /\ well_shaped r = true.
Proof.
  unfold_check.
  destruct (tools_execute env l _ domain _) as [e|c1]; [discriminate|].
  destruct (tools_execute env _ _ domain _) as [e|c2]; [discriminate|].
  intros H. inversion H; subst. repeat split.
Qed.

(** The loop never raises: it appends one entry per domain to what it
    was given. *)
Lemma check_all_domains_loop_spec (self : DomainMonitor) (todo : list string) :
  forall (acc : list result) (l : log),
  exists rs l',
    check_all_domains_loop env self todo acc l = (inr (acc ++ rs), l') /\
    checked env self todo l rs l'.
Proof.
  induction todo as [|domain rest IH]; intros acc l.
  - exists [], l. cbn. rewrite app_nil_r. split; [reflexivity | constructor].
  - cbn [check_all_domains_loop]. unfold bind at 1. unfold try_except.
    unfold bind at 1.
    destruct (check_domain env self domain l) as [[e|r] l1] eqn:E.
    + unfold bind, now_isoformat, ret.
      destruct (IH (acc ++ [{| r_domain := domain;
                              r_error := Some (exn_str e);
                              r_domain_check := None;
                              r_ssl_check := None;
                              r_checked_at := Some (datetime_now_isoformat env l1) |}])
                   (l1 ++ [NowLocal])) as (rs & l' & Hrun & Hch).
      rewrite Hrun. rewrite <- app_assoc. cbn [app].
      eexists; eexists; split; [reflexivity|].
      eapply checked_error; eassumption.
    + unfold ret.
      destruct (IH (acc ++ [r]) l1) as (rs & l' & Hrun & Hch).
      rewrite Hrun. rewrite <- app_assoc. cbn [app].
      eexists; eexists; split; [reflexivity|].
      eapply checked_ok; eassumption.
Qed.

Lemma checked_domains (self : DomainMonitor) (todo : list string)
    (l l' : log) (rs : list result) :
  checked env self todo l rs l' ->
  map r_domain rs = todo /\ forallb well_shaped rs = true.
Proof.
  induction 1 as [l | domain rest l r l1 rs l2 Hc _ [IHd IHw]
                    | domain rest l e l1 rs l2 Hc _ [IHd IHw]].
  - split; reflexivity.
  - apply check_domain_entry in Hc as (Hd & _ & Hw).
    cbn [map forallb]. now rewrite Hd, Hw, IHd, IHw.
  - cbn [map forallb r_domain]. now rewrite IHd, IHw.
Qed.

(** C8.  [check_all_domains] returns, and stores in the object, one
    entry per configured domain, in order: the full entry where the
    check of the domain returned, the error entry with the text of the
    exception where it raised; either way the remaining domains are
    checked. *)
Theorem check_all_domains_entries (self : DomainMonitor) (l : log) :
  exists rs l',
    check_all_domains env self l = (inr (with_results self rs, rs), l') /\
    map r_domain rs = self_domains self /\
    length rs = length (self_domains self) /\
    checked env self (self_domains self) l rs l' /\
    (forall cfg, self = init cfg -> map r_domain rs = map dc_name (domains cfg)).
Proof.
  destruct (check_all_domains_loop_spec self (self_domains self) [] l)
    as (rs & l' & Hrun & Hch).
  exists rs, l'. cbn [app] in Hrun.
  pose proof (checked_domains _ _ _ _ _ Hch) as [Hd _].
  split; [|split; [|split; [|split]]].
  - unfold check_all_domains, bind. rewrite Hrun. reflexivity.
  - exact Hd.
  - rewrite <- Hd. now rewrite length_map.
  - exact Hch.
  - intros cfg ->. exact Hd.
Qed.

End Batch.

(** Two domains, the service failing on its first call: the first
    entry is the error entry, the second is complete. *)
Example check_all_domains_two :
  fst (check_all_domains Sample.env_ok (init SampleMonitor.two_config) [])
  = inr (with_results (init SampleMonitor.two_config)
           [ {| r_domain := "first.example";
                r_error := Some "service unavailable";
                r_domain_check := None; r_ssl_check := None;
                r_checked_at := Some "2026-11-04T00:00:00.000001" |};
             {| r_domain := "second.example";
                r_error := None;
                r_domain_check := Some (Sample.success_dict "second.example" 19 None);
                r_ssl_check := Some (Sample.success_dict "second.example" 19 None);
                r_checked_at := Some "2026-11-04T00:00:00.000001" |} ],
         [ {| r_domain := "first.example";
                r_error := Some "service unavailable";
                r_domain_check := None; r_ssl_check := None;
                r_checked_at := Some "2026-11-04T00:00:00.000001" |};
             {| r_domain := "second.example";
                r_error := None;
                r_domain_check := Some (Sample.success_dict "second.example" 19 None);
                r_ssl_check := Some (Sample.success_dict "second.example" 19 None);
                r_checked_at := Some "2026-11-04T00:00:00.000001" |} ]).
Proof. vm_compute. reflexivity. Qed.

End MonitorFacts.

(** ** Further properties of the tools *)

Module ToolkitMore.
Import Py World Toolkit Normalizer ToolkitFacts Shapes.
Local Open Scope string_scope.
Local Open Scope Z_scope.

Section WithEnv.
Variable env : Env.

Lemma error_dict_shaped (d m : string) : error_shaped (error_dict d m).
Proof. unfold error_shaped; cbn. repeat split. now exists m. Qed.

Lemma run_check_shape (t : tool) (domain : string) (l l' : log) (r : check_dict) :
  run_check env t domain l = (inr r, l') ->
  (exists d, cd_domain r = Some d) /\ (error_shaped r \/ success_shaped r).
Proof.
  intros H. destruct t as [|port]; cbn [run_check] in H; unfold_run_in H;
    split_run H; inversion H; subst; clear H;
    (split; [eexists; reflexivity|]);
    try (left; apply error_dict_shaped);
    right; unfold success_shaped; cbn; repeat split;
    eexists; repeat split; eexists; reflexivity.
Qed.

Lemma run_check_returns (t : tool) (domain : string) (l : log) :
  exists r l', run_check env t domain l = (inr r, l').
Proof.
  destruct t; [apply check_domain_expiry_returns | apply check_ssl_expiry_returns].
Qed.

(** X1. Both tools always return, never raise, and what they return
    is an error dict with a message and no expiry keys, or a success
    dict with all four expiry keys and no message; the domain key is
    always there. *)
Theorem check_result_shape (t : tool) (domain : string) (l : log) :
  exists r l',
    run_check env t domain l = (inr r, l') /\
    (exists d, cd_domain r = Some d) /\
    (error_shaped r \/ success_shaped r).
Proof.
  destruct (run_check_returns t domain l) as (r & l' & H).
  exists r, l'. split; [exact H|]. eapply run_check_shape; eassumption.
Qed.

(** X2. In a success dict the two flags are never both set, and when
    neither is set more than 30 days are left. *)
Theorem flags_exclusive (t : tool) (domain : string) (l l' : log) (r : check_dict) :
  run_check env t domain l = (inr r, l') ->
  cd_status r = Some "success" ->
  (cd_is_expired r = Some true -> cd_expires_soon r = Some false) /\
  (cd_expires_soon r = Some true -> cd_is_expired r = Some false) /\
  (cd_is_expired r = Some false -> cd_expires_soon r = Some false ->
   exists d, cd_days_until_expiry r = Some d /\ 30 < d).
Proof.
  intros H Hs. apply run_check_shape in H as [_ [He | Hok]].
  - destruct He as (He & _). congruence.
  - destruct Hok as (_ & _ & d & Hd & _ & Hx & Hsoon).
    rewrite Hx, Hsoon. repeat split.
    + intros E. inversion E as [E']. f_equal.
      apply Z.ltb_lt in E'. destruct (Z.leb_spec 0 d); [lia | reflexivity].
    + intros E. inversion E as [E']. f_equal.
      apply andb_prop in E' as [E1 _]. apply Z.leb_le in E1.
      apply Z.ltb_ge. exact E1.
    + intros E1 E2. inversion E1 as [E1']. inversion E2 as [E2'].
      exists d. split; [exact Hd|].
      apply Z.ltb_ge in E1'. apply andb_false_iff in E2' as [E|E].
      * apply Z.leb_gt in E. lia.
      * apply Z.leb_gt in E. exact E.
Qed.

(** X3. One run of the WHOIS check sends exactly one WHOIS query, for
    the normalized name, and reads the clock at most once, after the
    query; a success has read it. *)
Theorem whois_requests (domain : string) (l l' : log) (r : check_dict) :
  check_domain_expiry env domain l = (inr r, l') ->
  let query := WhoisQuery (clean_domain domain) in
  (l' = (l ++ [query])%list \/ l' = (l ++ [query; NowUtc])%list) /\
  (cd_status r = Some "success" -> l' = (l ++ [query; NowUtc])%list).
Proof.
  intros H. cbv zeta. unfold_run_in H.
  split_run H; inversion H; subst; clear H; cbn;
    rewrite <- ?app_assoc; cbn [app];
    (split; [auto | intros Hs; try discriminate Hs; reflexivity]).
Qed.

(** X4. When the connection cannot be opened the TLS check answers at
    once: no handshake is attempted and the clock is not read. *)
Theorem tls_connection_failure (domain : string) (port : Z) (l : log) (e : exn) :
  ssl_create_default_context env l = inr tt ->
  socket_create_connection env (l ++ [CreateDefaultContext])%list
    (clean_domain domain) 443 10 = inl e ->
  check_ssl_expiry env domain port l
  = (inr (error_dict domain (ssl_error_message e)),
     (l ++ [CreateDefaultContext; CreateConnection (clean_domain domain) 443 10])%list).
Proof.
  intros H1 H2. unfold check_ssl_expiry, try_except.
  rewrite (connection_failure env domain port l e H1 H2). reflexivity.
Qed.

(** X5. A certificate dict without [notAfter] is answered by the last
    [except] clause with the text of the [KeyError]; the clock is not
    read. *)
Theorem tls_missing_not_after (domain : string) (port : Z) (l : log) (cert : Cert) :
  let clean := clean_domain domain in
  let l1 := (l ++ [CreateDefaultContext])%list in
  let l2 := (l1 ++ [CreateConnection clean 443 10])%list in
  let l3 := (l2 ++ [WrapSocket clean])%list in
  ssl_create_default_context env l = inr tt ->
  socket_create_connection env l1 clean 443 10 = inr tt ->
  context_wrap_socket env l2 clean = inr tt ->
  ssock_getpeercert env l3 = inr cert ->
  cert_notAfter cert = None ->
  check_ssl_expiry env domain port l
  = (inr (error_dict domain "Error checking SSL certificate: 'notAfter'"),
     (l3 ++ [GetPeerCert])%list).
Proof.
  cbv zeta. intros H1 H2 H3 H4 H5. unfold_run.
  rewrite H1, H2, H3, H4. unfold cert_getitem_notAfter. rewrite H5. reflexivity.
Qed.

Lemma instant_first_if_list (v : pyval) (e : Z) :
  expiration_instant v = Some e ->
  exists d, first_if_list v = inr (PyDatetime d).
Proof.
  destruct v as [|d|s|[|[|d|s|ys] rest]]; cbn; try discriminate;
    intros _; eexists; reflexivity.
Qed.

Lemma aware_sub_returns (d : datetime) (now : Z) :
  exists (d' : datetime) (t : timedelta),
    ensure_aware (PyDatetime d) = inr d' /\
    datetime_sub d' (Datetime now (Some 0)) = inr t.
Proof.
  unfold ensure_aware, datetime_sub.
  destruct (dt_tzinfo d) as [off|] eqn:E.
  - exists d. rewrite E. cbn. eexists; split; reflexivity.
  - eexists; eexists; split; reflexivity.
Qed.

(** X6. A check succeeds exactly when its data source gives an
    expiration instant: the converse of the success invariant. *)
Theorem success_iff_reads (t : tool) (domain : string) (l l' : log) (r : check_dict) :
  run_check env t domain l = (inr r, l') ->
  (cd_status r = Some "success" <->
   exists expiration now, reads_expiry env domain l t expiration now).
Proof.
  intros H. split.
  - intros Hs.
    assert (exists e n, reads_expiry env domain l t e n /\ expiry_fields e n r)
      as (e & n & Hr & _).
    { destruct t; [eapply whois_success | eapply tls_success]; eassumption. }
    now exists e, n.
  - intros (e & n & Hr).
    destruct Hr as [info expiration clean Hw Hi
                   | port cert na parsed clean l1 l2 l3 l4 H1 H2 H3 H4 H5 H6].
    + cbn [run_check] in H. unfold_run_in H. fold clean in H. rewrite Hw in H.
      destruct (instant_first_if_list _ _ Hi) as (d & Hf). rewrite Hf in H.
      destruct (aware_sub_returns d
                  (datetime_now_utc env (l ++ [WhoisQuery clean])%list))
        as (d' & td & Ha & Hsub).
      rewrite Ha, Hsub in H. inversion H. reflexivity.
    + cbn [run_check] in H. unfold_run_in H.
      fold clean in H. fold l1 in H. rewrite H1 in H.
      fold l2 in H. rewrite H2 in H. fold l3 in H. rewrite H3 in H.
      rewrite H4 in H. unfold cert_getitem_notAfter in H. rewrite H5, H6 in H.
      cbn in H. inversion H. reflexivity.
Qed.

End WithEnv.

Lemma flags_exclusive_witness :
  cd_is_expired Sample.whois_result = Some false /\
  cd_expires_soon Sample.whois_result = Some true.
Proof.
  destruct (flags_exclusive Sample.env_ok Whois "https://www.example.com/x" []
              [WhoisQuery "example.com"; NowUtc] Sample.whois_result
              eq_refl eq_refl) as (_ & H & _).
  split; [apply H|]; reflexivity.
Defined.

Lemma whois_requests_witness :
  [WhoisQuery "example.com"; NowUtc]
  = ([] ++ [WhoisQuery (clean_domain "https://www.example.com/x"); NowUtc])%list.
Proof.
  apply (whois_requests Sample.env_ok "https://www.example.com/x" []
           [WhoisQuery "example.com"; NowUtc] Sample.whois_result eq_refl).
  reflexivity.
Defined.

Lemma tls_connection_failure_witness :
  check_ssl_expiry
    (Sample.env (inr None) (inl (Exn SocketTimeout "timed out")))
    "www.example.com" 443 []
  = (inr (error_dict "www.example.com" "Connection timeout"),
     [CreateDefaultContext; CreateConnection "example.com" 443 10]).
Proof.
  apply (tls_connection_failure
           (Sample.env (inr None) (inl (Exn SocketTimeout "timed out")))
           "www.example.com" 443 [] (Exn SocketTimeout "timed out"));
    reflexivity.
Defined.

Lemma tls_missing_not_after_witness :
  check_ssl_expiry MoreSamples.env_bare_cert "example.com/" 443 []
  = (inr (error_dict "example.com/" "Error checking SSL certificate: 'notAfter'"),
     [CreateDefaultContext; CreateConnection "example.com" 443 10;
      WrapSocket "example.com"; GetPeerCert]).
Proof.
  apply (tls_missing_not_after MoreSamples.env_bare_cert "example.com/" 443 []
           MoreSamples.bare_cert); reflexivity.
Defined.

Lemma success_iff_reads_witness :
  exists expiration now,
    reads_expiry Sample.env_ok "https://www.example.com/x" [] Whois expiration now.
Proof.
  apply (success_iff_reads Sample.env_ok Whois "https://www.example.com/x" []
           [WhoisQuery "example.com"; NowUtc] Sample.whois_result eq_refl).
  reflexivity.
Defined.

End ToolkitMore.

(** ** Further properties of the normalizer *)

Module NormalizerMore.
Import PyStr PyStrFacts Normalizer Shapes.
Local Open Scope string_scope.

Lemma length_replace_from (old s : string) (k : nat) :
  String.length (replace_from old "" k s) <= String.length s.
Proof.
  revert k; induction s as [|c s IH]; intros k; [reflexivity|].
  cbn [replace_from]. destruct k as [|k].
  - destruct (startswith old (String c s)); cbn [append String.length].
    + specialize (IH (String.length old - 1)). lia.
    + specialize (IH 0). lia.
  - specialize (IH k). cbn [String.length]. lia.
Qed.

Lemma length_replace (old s : string) :
  old <> "" -> String.length (replace old "" s) <= String.length s.
Proof.
  destruct old as [|a old]; [contradiction|]. intros _. apply length_replace_from.
Qed.

Lemma length_split_hd (sep : ascii) (s : string) :
  String.length (hd "" (split sep s)) <= String.length s.
Proof.
  induction s as [|c s IH]; [reflexivity|].
  cbn [split]. destruct (Ascii.eqb c sep); [cbn; lia|].
  destruct (split sep s) as [|p ps]; cbn [hd String.length] in *; lia.
Qed.

(** X7. The normalizer only takes characters away: for every input
    its output holds no slash and is no longer than the input. *)
Theorem clean_domain_shrinks (d : string) :
  contains_char slash (clean_domain d) = false /\
  String.length (clean_domain d) <= String.length d.
Proof.
  split; [apply split_hd_no_sep|].
  unfold clean_domain.
  etransitivity; [apply length_split_hd|].
  etransitivity; [apply length_replace; discriminate|].
  etransitivity; [apply length_replace; discriminate|].
  apply length_replace; discriminate.
Qed.

Lemma contains_suffix (p a t : string) :
  contains p (a ++ t) = false -> startswith p t = false.
Proof.
  induction a as [|c a IH]; cbn [append].
  - destruct t; cbn [contains]; intros H; now apply orb_false_elim in H.
  - cbn [contains]. intros H. apply orb_false_elim in H as [_ H]. now apply IH.
Qed.

Lemma replace_from_absent (old s : string) :
  contains old s = false -> replace_from old "" 0 s = s.
Proof.
  intros H. rewrite <- (append_empty_r s) at 1.
  rewrite replace_from_no_occurrence; [now rewrite append_empty_r|].
  intros a t -> Ht. rewrite append_empty_r. eapply contains_suffix; eassumption.
Qed.

Lemma startswith_contains_char (c : ascii) (p t : string) :
  startswith p t = true -> contains_char c p = true -> contains_char c t = true.
Proof.
  revert t; induction p as [|a p IH]; intros t; [discriminate 2|].
  destruct t as [|b t]; [discriminate|]. cbn [startswith contains_char].
  intros H Hc. apply andb_prop in H as [Hab Hp].
  apply Ascii.eqb_eq in Hab. subst b.
  apply orb_prop in Hc as [Hc | Hc]; [now rewrite Hc|].
  rewrite (IH t Hp Hc). apply orb_true_r.
Qed.

Lemma contains_needs_char (c : ascii) (p s : string) :
  contains_char c p = true -> contains_char c s = false -> contains p s = false.
Proof.
  intros Hp. induction s as [|b s IH]; intros Hs.
  - cbn [contains]. rewrite orb_false_r.
    destruct (startswith p "") eqn:E; [|reflexivity].
    now rewrite (startswith_contains_char c p "" E Hp) in Hs.
  - cbn [contains]. apply orb_false_intro.
    + destruct (startswith p (String b s)) eqn:E; [|reflexivity].
      now rewrite (startswith_contains_char c p _ E Hp) in Hs.
    + apply IH. cbn [contains_char] in Hs. now apply orb_false_elim in Hs.
Qed.

(** X8. A string without a slash and without [www.] is its own normal
    form. *)
Theorem clean_domain_fixed (s : string) :
  contains_char slash s = false ->
  contains "www." s = false ->
  clean_domain s = s.
Proof.
  intros Hs Hw. unfold clean_domain, replace.
  rewrite (replace_from_absent "http://" s)
    by (apply (contains_needs_char slash); [reflexivity | exact Hs]).
  rewrite (replace_from_absent "https://" s)
    by (apply (contains_needs_char slash); [reflexivity | exact Hs]).
  rewrite (replace_from_absent "www." s) by exact Hw.
  now apply split_hd_whole.
Qed.

Lemma clean_domain_fixed_witness : clean_domain "example.com" = "example.com".
Proof. apply clean_domain_fixed; reflexivity. Defined.

(** Normalizing twice is not always normalizing once: taking out one
    [www.] can bring the pieces of another together. *)
Example clean_domain_not_idempotent :
  clean_domain "wwwwww.." = "www." /\ clean_domain "www." = "".
Proof. split; reflexivity. Qed.

End NormalizerMore.

(** ** Further properties of the monitor *)

Module MonitorMore.
Import Py World Monitor MonitorFacts MonitorShapes.
Local Open Scope string_scope.
Local Open Scope list_scope.
Local Open Scope Z_scope.

Lemma length_alerts_of_result (cfg : DomainMonitorConfig) (r : result) :
  (length (alerts_of_result cfg r) <= (if has_no_error r then 2 else 0))%nat.
Proof.
  unfold alerts_of_result, has_no_error.
  destruct (r_error r); [cbn; lia|].
  destruct (r_domain_check r) as [dc|]; [|cbn; lia].
  destruct (r_ssl_check r) as [sc|]; [|cbn; lia].
  cbv zeta. destruct (needs_alert dc _), (needs_alert sc _); cbn; lia.
Qed.

Lemma length_evaluate (cfg : DomainMonitorConfig) (rs : list result) :
  (length (evaluate cfg rs) <= 2 * length (filter has_no_error rs))%nat.
Proof.
  induction rs as [|r rs IH]; [cbn; lia|].
  cbn [evaluate flat_map filter]. rewrite length_app.
  pose proof (length_alerts_of_result cfg r) as Hr. fold (evaluate cfg rs).
  destruct (has_no_error r); cbn [length]; lia.
Qed.

(** X9. [get_alerts] gives at most two alerts for each entry without
    error key. *)
Theorem alert_count_bound (self : DomainMonitor) (alerts : list alert) :
  get_alerts self = inr alerts ->
  (length alerts <= 2 * length (filter has_no_error (results self)))%nat.
Proof.
  intros H. apply get_alerts_inr in H as [_ ->]. apply length_evaluate.
Qed.

Lemma alert_count_bound_witness :
  (length [domain_alert "custom-domain.com" SampleMonitor.custom_domain_check 60]
   <= 2 * length (filter has_no_error (results SampleMonitor.custom_monitor)))%nat.
Proof. apply (alert_count_bound SampleMonitor.custom_monitor). reflexivity. Defined.

(** *** A missing sub-check *)

Lemma get_alerts_loop_prefix (cfg : DomainMonitorConfig) (rs1 rs2 : list result)
    (acc : list alert) :
  forallb well_shaped rs1 = true ->
  get_alerts_loop cfg (rs1 ++ rs2) acc
  = get_alerts_loop cfg rs2 (acc ++ evaluate cfg rs1).
Proof.
  revert acc; induction rs1 as [|r rs1 IH]; intros acc H.
  - cbn. now rewrite app_nil_r.
  - cbn [forallb] in H. apply andb_prop in H as [Hr Hrs].
    cbn [app]. rewrite get_alerts_loop_step by exact Hr.
    rewrite IH by exact Hrs. cbn [evaluate flat_map]. now rewrite app_assoc.
Qed.

(** X10. An entry without error key that lacks a sub-check makes
    [get_alerts] raise the [KeyError] of the first missing key; the
    alerts collected from the entries before it are lost. *)
Theorem get_alerts_key_error (self : DomainMonitor) (rs1 rs2 : list result)
    (r : result) :
  results self = rs1 ++ r :: rs2 ->
  forallb well_shaped rs1 = true ->
  r_error r = None ->
  (r_domain_check r = None ->
   get_alerts self = inl (Exn KeyError "'domain_check'")) /\
  (r_domain_check r <> None -> r_ssl_check r = None ->
   get_alerts self = inl (Exn KeyError "'ssl_check'")).
Proof.
  intros Hrs Hw He. unfold get_alerts. rewrite Hrs.
  rewrite get_alerts_loop_prefix by exact Hw.
  cbn [get_alerts_loop]. rewrite He. split.
  - intros ->. reflexivity.
  - intros Hd Hs. destruct (r_domain_check r); [|contradiction].
    rewrite Hs. reflexivity.
Qed.

(** *** Raising the global threshold *)

Lemma find_domain_config_global (cfg : DomainMonitorConfig) (g : Z) (name : string) :
  find_domain_config (with_global_threshold cfg g) name = find_domain_config cfg name.
Proof. reflexivity. Qed.

Lemma effective_threshold_monotone (cfg : DomainMonitorConfig) (g : Z) (name : string) :
  mc_alert_threshold_days (monitoring cfg) <= g ->
  effective_threshold cfg name <= effective_threshold (with_global_threshold cfg g) name.
Proof.
  intros Hg. unfold effective_threshold. rewrite find_domain_config_global.
  cbn [with_global_threshold monitoring mc_alert_threshold_days].
  destruct (find_domain_config cfg name) as [dc|]; [|exact Hg].
  destruct (truthy (dc_alert_threshold_days dc)); [|exact Hg].
  destruct (dc_alert_threshold_days dc); [lia | exact Hg].
Qed.

Lemma needs_alert_monotone (c : check_dict) (t t' : Z) :
  t <= t' -> needs_alert c t = true -> needs_alert c t' = true.
Proof.
  unfold needs_alert. intros Ht H. apply andb_prop in H as [Hs Hd].
  rewrite Hs. cbn. apply Z.leb_le in Hd. apply Z.leb_le. lia.
Qed.

Lemma alerts_of_result_monotone (cfg : DomainMonitorConfig) (g : Z) (r : result)
    (a : alert) :
  mc_alert_threshold_days (monitoring cfg) <= g ->
  In a (alerts_of_result cfg r) ->
  exists a', In a' (alerts_of_result (with_global_threshold cfg g) r) /\ same_alert a a'.
Proof.
  intros Hg. unfold alerts_of_result.
  destruct (r_error r); [intros []|].
  destruct (r_domain_check r) as [dc|]; [|intros []].
  destruct (r_ssl_check r) as [sc|]; [|intros []].
  cbv zeta. pose proof (effective_threshold_monotone cfg g (r_domain r) Hg) as Ht.
  intros Hin. apply in_app_or in Hin as [Hin | Hin].
  - destruct (needs_alert dc (effective_threshold cfg _)) eqn:N; [|destruct Hin].
    destruct Hin as [<- | []].
    rewrite (needs_alert_monotone dc _ _ Ht N).
    eexists. split; [apply in_or_app; left; left; reflexivity|].
    unfold same_alert; cbn. repeat split. exact Ht.
  - destruct (needs_alert sc (effective_threshold cfg _)) eqn:N; [|destruct Hin].
    destruct Hin as [<- | []].
    rewrite (needs_alert_monotone sc _ _ Ht N).
    eexists. split; [apply in_or_app; right; left; reflexivity|].
    unfold same_alert; cbn. repeat split. exact Ht.
Qed.

(** X11. Raising the global threshold never loses an alert: with a
    larger global threshold [get_alerts] still returns, and every
    alert it gave before is there again, the same but for the
    threshold it carries. *)
Theorem raising_threshold_keeps_alerts (self : DomainMonitor) (g : Z)
    (alerts : list alert) :
  mc_alert_threshold_days (monitoring (config self)) <= g ->
  get_alerts self = inr alerts ->
  exists alerts',
    get_alerts (with_config self (with_global_threshold (config self) g)) = inr alerts' /\
    forall a, In a alerts -> exists a', In a' alerts' /\ same_alert a a'.
Proof.
  intros Hg H. apply get_alerts_inr in H as [Hw ->].
  exists (evaluate (with_global_threshold (config self) g) (results self)). split.
  - unfold get_alerts. cbn [with_config config results].
    now rewrite get_alerts_loop_total.
  - intros a Ha. apply in_evaluate in Ha as (r & Hr & Ha).
    destruct (alerts_of_result_monotone _ g r a Hg Ha) as (a' & Ha' & Hs).
    exists a'. split; [|exact Hs]. apply in_evaluate. now exists r.
Qed.

Lemma get_alerts_key_error_witness :
  get_alerts MoreMonitors.broken_monitor = inl (Exn KeyError "'ssl_check'").
Proof.
  destruct (get_alerts_key_error MoreMonitors.broken_monitor
              (results SampleMonitor.custom_monitor) []
              MoreMonitors.half_entry eq_refl eq_refl eq_refl) as [_ H].
  apply H; [discriminate | reflexivity].
Defined.

Lemma raising_threshold_keeps_alerts_witness :
  exists alerts',
    get_alerts (with_config SampleMonitor.custom_monitor
                  (with_global_threshold (config SampleMonitor.custom_monitor) 90))
    = inr alerts' /\
    forall a,
      In a [domain_alert "custom-domain.com" SampleMonitor.custom_domain_check 60] ->
      exists a', In a' alerts' /\ same_alert a a'.
Proof.
  apply (raising_threshold_keeps_alerts SampleMonitor.custom_monitor 90).
  - cbn. lia.
  - reflexivity.
Defined.

End MonitorMore.

(** ** Further properties of the batch check *)

Module BatchMore.
Import Py World Monitor MonitorFacts MonitorShapes.
Local Open Scope string_scope.
Local Open Scope list_scope.
Local Open Scope Z_scope.

Section Batch.
Variable env : Env.

Ltac unfold_check :=
  cbv beta delta [check_domain execute now_isoformat
                  try_except bind perform lift ret raise] iota zeta.

(** What one [check_domain] adds to the log, and what it returns. *)
Lemma check_domain_requests (self : DomainMonitor) (domain : string)
    (l l1 : log) (res : exn + result) :
  check_domain env self domain l = (res, l1) ->
  exists p,
    l1 = l ++ p /\
    (1 <= length (filter is_execute p) <= 2)%nat /\
    match res with
    | inl _ => filter is_now_local p = []
    | inr r => filter is_now_local p = [NowLocal] /\
               entry_shaped r = true /\ has_no_error r = true
    end.
Proof.
  unfold_check.
  destruct (tools_execute env l _ domain _) as [e|c1].
  - intros H; inversion H; subst. eexists; split; [reflexivity|].
    cbn. split; [lia | reflexivity].
  - destruct (tools_execute env _ _ domain _) as [e|c2];
      intros H; inversion H; subst; rewrite <- ?app_assoc; cbn [app];
      (eexists; split; [reflexivity|]); cbn; repeat split; lia.
Qed.

(** The requests and the entries of a whole pass. *)
Lemma checked_requests (self : DomainMonitor) (todo : list string)
    (l l' : log) (rs : list result) :
  checked env self todo l rs l' ->
  exists p,
    l' = l ++ p /\
    length (filter is_now_local p) = length todo /\
    (length todo <= length (filter is_execute p) <= 2 * length todo)%nat /\
    forallb entry_shaped rs = true.
Proof.
  induction 1 as [l | domain rest l r l1 rs l2 Hc _ (p & -> & Hn & He & Hs)
                    | domain rest l e l1 rs l2 Hc _ (p & -> & Hn & He & Hs)].
  - exists []. rewrite app_nil_r. cbn. repeat split; lia.
  - apply check_domain_requests in Hc as (q & -> & Hq & Hl & Hshape & _).
    exists (q ++ p). rewrite <- app_assoc. split; [reflexivity|].
    rewrite !filter_app, !length_app, Hl. cbn [length forallb].
    rewrite Hshape, Hs. repeat split; lia.
  - apply check_domain_requests in Hc as (q & -> & Hq & Hl).
    exists (q ++ NowLocal :: p). rewrite <- !app_assoc. cbn [app].
    split; [reflexivity|].
    rewrite !filter_app, !length_app, Hl. cbn [filter is_now_local is_execute length forallb].
    rewrite Hs. cbn. repeat split; lia.
Qed.

(** X12. One pass of [check_all_domains] calls the tool service once
    or twice for each configured domain, never more, and reads the
    local clock exactly once for each. *)
Theorem batch_requests (self : DomainMonitor) (l l' : log)
    (res : exn + DomainMonitor * list result) :
  check_all_domains env self l = (res, l') ->
  exists p,
    l' = l ++ p /\
    length (filter is_now_local p) = length (self_domains self) /\
    (length (self_domains self) <= length (filter is_execute p)
     <= 2 * length (self_domains self))%nat.
Proof.
  intros H.
  destruct (check_all_domains_loop_spec env self (self_domains self) [] l)
    as (rs & l2 & Hrun & Hch).
  unfold check_all_domains, bind in H. rewrite Hrun in H. cbn in H.
  inversion H; subst.
  destruct (checked_requests _ _ _ _ _ Hch) as (p & Hp & Hn & He & _).
  exists p. auto.
Qed.

(** When every reply of the service is a dict of the tools, as
    [tools_execute] has it, [get_alerts] returns after
    [check_all_domains]: every entry has its time stamp and either the
    error text alone or both sub-checks alone, the alerts are those of
    the evaluator, there are at most two for each configured domain,
    and each names a configured domain.  [RepliesFacts] has the
    replies of any other form. *)
Lemma alerts_after_batch (self : DomainMonitor) (l : log) :
  exists rs l' alerts,
    check_all_domains env self l = (inr (with_results self rs, rs), l') /\
    forallb entry_shaped rs = true /\
    get_alerts (with_results self rs) = inr alerts /\
    alerts = evaluate (config self) rs /\
    (length alerts <= 2 * length (self_domains self))%nat /\
    (forall a, In a alerts -> In (a_domain a) (self_domains self)).
Proof.
  destruct (check_all_domains_loop_spec env self (self_domains self) [] l)
    as (rs & l' & Hrun & Hch).
  pose proof (checked_domains env _ _ _ _ _ Hch) as [Hd Hw].
  destruct (checked_requests _ _ _ _ _ Hch) as (_ & _ & _ & _ & Hs).
  exists rs, l', (evaluate (config self) rs).
  split; [|split; [|split; [|split; [|split]]]].
  - unfold check_all_domains, bind. rewrite Hrun. reflexivity.
  - exact Hs.
  - unfold get_alerts. cbn [with_results config results].
    now rewrite get_alerts_loop_total.
  - reflexivity.
  - rewrite <- Hd, length_map.
    etransitivity; [apply MonitorMore.length_evaluate|].
    pose proof (filter_length_le has_no_error rs). lia.
  - intros a Ha. apply in_evaluate in Ha as (r & Hr & Ha).
    apply alerts_of_result_source in Ha as (_ & Hdom & _).
    rewrite Hdom, <- Hd. now apply in_map.
Qed.

End Batch.

Lemma batch_requests_witness :
  exists p,
    [ToolExecute "domain_name_toolkit.check_domain_expiry" "first.example" "kig@kig.re";
     NowLocal;
     ToolExecute "domain_name_toolkit.check_domain_expiry" "second.example" "kig@kig.re";
     ToolExecute "domain_name_toolkit.check_ssl_expiry" "second.example" "kig@kig.re";
     NowLocal] = [] ++ p /\
    length (filter is_now_local p) = 2%nat /\
    (2 <= length (filter is_execute p) <= 2 * 2)%nat.
Proof.
  apply (batch_requests Sample.env_ok (init SampleMonitor.two_config) [] _
           (fst (check_all_domains Sample.env_ok (init SampleMonitor.two_config) []))).
  vm_compute. reflexivity.
Defined.

End BatchMore.

(** ** Properties of the notifications *)

Module NotifyFacts.
Import Py Service Monitor PyText Notify.
Local Open Scope string_scope.
Local Open Scope list_scope.
Local Open Scope Z_scope.

Section Sending.
Variable env : Env.
Variable self : DomainMonitor.
Variable notifications : NotificationConfig.

(** The loop over the recipients tries every one of them and returns
    normally, whatever the service answers. *)
Lemma send_to_recipients_spec (subject body : string)
    (recipients : list EmailRecipient) (l : log) :
  send_to_recipients env self subject body recipients l
  = (inr tt,
     l ++ map (fun r => GmailSendEmail (er_email r) subject body (user_id self))
              recipients).
Proof.
  revert l; induction recipients as [|r rest IH]; intros l.
  - cbn. now rewrite app_nil_r.
  - cbn [send_to_recipients map]. unfold bind at 1. unfold try_except, perform, ret.
    destruct (tools_execute_send env l _) as [e|[]];
      rewrite IH, <- app_assoc; reflexivity.
Qed.

(** X14. With alerts to report and email enabled, every recipient is
    sent one message, in the order of the configuration and all with
    the same subject and body; a send that fails does not stop the
    others, and the call returns normally. *)
Theorem send_email_fan_out (alerts : list alert) (l : log) (subject : string) :
  alerts <> [] ->
  ec_enabled (email notifications) = true ->
  str_format_count env (ec_subject_template (email notifications)) (length alerts)
  = inr subject ->
  send_email_alert env self notifications alerts l
  = (inr tt,
     l ++ map (fun r => GmailSendEmail (er_email r) subject (email_body alerts)
                          (user_id self))
              (ec_recipients (email notifications))).
Proof.
  intros Ha He Hf. unfold send_email_alert.
  destruct alerts as [|a rest]; [contradiction|].
  rewrite He. cbn [negb]. unfold bind, lift. rewrite Hf.
  apply send_to_recipients_spec.
Qed.

(** X15. The only exception that leaves [send_email_alert] is the one
    of formatting the subject template, and then nothing has been
    sent; without alerts or with email disabled nothing is sent
    either, and the template is not even formatted. *)
Theorem send_email_failure (alerts : list alert) (l l' : log) (res : exn + unit) :
  send_email_alert env self notifications alerts l = (res, l') ->
  (alerts = [] \/ ec_enabled (email notifications) = false ->
   res = inr tt /\ l' = l) /\
  (forall e, res = inl e ->
     l' = l /\
     str_format_count env (ec_subject_template (email notifications)) (length alerts)
     = inl e).
Proof.
  unfold send_email_alert. intros H.
  destruct alerts as [|a rest].
  - inversion H; subst. split; [auto | discriminate].
  - destruct (ec_enabled (email notifications)); cbn [negb] in H.
    + unfold bind, lift in H.
      destruct (str_format_count env _ _) as [e|subject] eqn:Hf.
      * inversion H; subst. split.
        -- intros [Hx | Hx]; discriminate.
        -- intros e' E. inversion E; subst. auto.
      * rewrite send_to_recipients_spec in H. inversion H; subst. split.
        -- intros [Hx | Hx]; discriminate.
        -- discriminate.
    + inversion H; subst. split; [auto | discriminate].
Qed.

(** The Slack lines can be built exactly when every alert has a day
    count. *)
Lemma slack_lines_returns (emojis : list (string * string)) (alerts : list alert) :
  (forall a, In a alerts -> a_days_until_expiry a <> None) ->
  exists lines, slack_lines emojis alerts = inr lines /\
                length lines = length alerts.
Proof.
  induction alerts as [|a rest IH]; intros H.
  - exists []. split; reflexivity.
  - cbn [slack_lines]. unfold slack_line.
    destruct (a_days_until_expiry a) as [d|] eqn:E.
    + destruct IH as (lines & -> & Hl); [intros x Hx; apply H; now right|].
      eexists; split; [reflexivity|]. cbn. now rewrite Hl.
    + exfalso. apply (H a); [now left | exact E].
Qed.

Lemma slack_lines_raises (emojis : list (string * string)) (alerts : list alert)
    (e : exn) :
  slack_lines emojis alerts = inl e ->
  exn_cls e = TypeError /\
  exists a, In a alerts /\ a_days_until_expiry a = None.
Proof.
  induction alerts as [|a rest IH]; [discriminate|].
  cbn [slack_lines]. unfold slack_line.
  destruct (a_days_until_expiry a) as [d|] eqn:E.
  - destruct (slack_lines emojis rest) as [e'|lines]; [|discriminate].
    intros H; inversion H; subst.
    destruct (IH eq_refl) as (Hc & x & Hx & Hd).
    split; [exact Hc|]. exists x. split; [now right | exact Hd].
  - intros H; inversion H; subst. split; [reflexivity|].
    exists a. split; [now left | exact E].
Qed.

(** X16. With alerts that all have a day count, Slack enabled and a
    template that formats, exactly one message goes to the configured
    channel, one line for the header and one for each alert, and the
    call returns normally even when the service refuses it. *)
Theorem send_slack_single_message (alerts : list alert) (l : log) (header : string) :
  alerts <> [] ->
  sc_enabled (slack notifications) = true ->
  str_format_count env (sc_message_template (slack notifications)) (length alerts)
  = inr header ->
  (forall a, In a alerts -> a_days_until_expiry a <> None) ->
  exists lines,
    slack_lines (sc_urgency_emojis (slack notifications)) alerts = inr lines /\
    length lines = length alerts /\
    send_slack_alert env self notifications alerts l
    = (inr tt,
       l ++ [SlackSendMessage (sc_channel (slack notifications))
               (join newline ((header ++ ":")%string :: lines)) (user_id self)]).
Proof.
  intros Ha He Hf Hd.
  destruct (slack_lines_returns (sc_urgency_emojis (slack notifications)) alerts Hd)
    as (lines & Hl & Hn).
  exists lines. split; [exact Hl|]. split; [exact Hn|].
  unfold send_slack_alert. destruct alerts as [|a rest]; [contradiction|].
  rewrite He. cbn [negb]. unfold bind, lift. rewrite Hf, Hl.
  unfold try_except, perform, ret.
  destruct (tools_execute_send env l _) as [e|[]]; reflexivity.
Qed.

(** X17. [send_slack_alert] raises only before it sends anything:
    either formatting the template raised, or an alert has no day
    count and comparing it with 7 is a [TypeError]. *)
Theorem send_slack_failure (alerts : list alert) (l l' : log) (e : exn) :
  send_slack_alert env self notifications alerts l = (inl e, l') ->
  l' = l /\
  (str_format_count env (sc_message_template (slack notifications)) (length alerts)
   = inl e \/
   (exn_cls e = TypeError /\
    exists a, In a alerts /\ a_days_until_expiry a = None)).
Proof.
  unfold send_slack_alert. intros H.
  destruct alerts as [|a rest]; [discriminate|].
  destruct (sc_enabled (slack notifications)); cbn [negb] in H; [|discriminate].
  unfold bind, lift in H.
  destruct (str_format_count env _ _) as [e1|header] eqn:Hf.
  - inversion H; subst. auto.
  - destruct (slack_lines _ (a :: rest)) as [e2|lines] eqn:Hl.
    + inversion H; subst. split; [reflexivity|]. right.
      eapply slack_lines_raises; eassumption.
    + unfold try_except, perform, ret in H.
      destruct (tools_execute_send env l _) as [e3|[]]; discriminate.
Qed.



End Sending.

Lemma length_email_alert_lines (a : alert) :
  length (email_alert_lines a) = (5 + (if is_registration a then 1 else 0))%nat.
Proof.
  unfold email_alert_lines, is_registration.
  destruct (String.eqb (a_type a) "domain_registration"); reflexivity.
Qed.

(** X19. The email body has eight fixed lines, five lines for every
    alert and one more, the registrar, for every registration alert;
    the line naming an alert's domain is always among them. *)
Theorem email_body_lines_count (alerts : list alert) :
  length (email_body_lines alerts)
  = (8 + 5 * length alerts + length (filter is_registration alerts))%nat /\
  (forall a, In a alerts ->
     In ("🔴 " ++ a_domain a)%string (email_body_lines alerts)).
Proof.
  split.
  - unfold email_body_lines. rewrite !length_app. cbn [length].
    assert (length (flat_map email_alert_lines alerts)
            = (5 * length alerts + length (filter is_registration alerts))%nat) as ->.
    { induction alerts as [|a rest IH]; [reflexivity|].
      cbn [flat_map filter]. rewrite length_app, IH, length_email_alert_lines.
      destruct (is_registration a); cbn [length]; lia. }
    lia.
  - intros a Ha. unfold email_body_lines.
    apply in_or_app. right. apply in_or_app. left.
    apply in_flat_map. exists a. split; [exact Ha|].
    unfold email_alert_lines. left. reflexivity.
Qed.

End NotifyFacts.

(** ** Properties of loading and saving the configuration *)

Module ConfigFacts.
Import Py Monitor MonitorFacts MonitorShapes ConfigIO.
Local Open Scope string_scope.
Local Open Scope list_scope.
Local Open Scope Z_scope.

Lemma parse_dump_domains (ds : list DomainConfig) :
  parse_domains (map dump_domain ds) = inr (map without_zero_override ds).
Proof.
  induction ds as [|d ds IH]; [reflexivity|].
  cbn [map parse_domains dump_domain yd_name]. rewrite IH. do 2 f_equal.
  unfold without_zero_override, dump_domain, truthy, get_or. cbn.
  destruct (dc_alert_threshold_days d) as [[|p|p]|]; reflexivity.
Qed.

(** X20. Reading back the dictionary that [save_config] writes gives
    the configuration again, with the monitoring section and every
    domain's name and description unchanged, except that a per-domain
    threshold of zero comes back as none. *)
Theorem save_load_round_trip (config : DomainMonitorConfig) :
  load_yaml_data (dump_config config) = inr (without_zero_overrides config).
Proof.
  unfold load_yaml_data, dump_config. cbn [y_domains y_monitoring get_or].
  rewrite parse_dump_domains. unfold without_zero_overrides. do 2 f_equal.
  destruct (monitoring config); reflexivity.
Qed.

Lemma find_without_zero (ds : list DomainConfig) (name : string) :
  find (fun d => String.eqb (dc_name d) name) (map without_zero_override ds)
  = option_map without_zero_override
      (find (fun d => String.eqb (dc_name d) name) ds).
Proof.
  induction ds as [|d ds IH]; [reflexivity|].
  cbn [map find without_zero_override dc_name].
  destruct (String.eqb (dc_name d) name); [reflexivity | exact IH].
Qed.

Lemma effective_threshold_round_trip (config : DomainMonitorConfig) (name : string) :
  effective_threshold (without_zero_overrides config) name
  = effective_threshold config name.
Proof.
  unfold effective_threshold, find_domain_config.
  cbn [without_zero_overrides domains monitoring]. rewrite find_without_zero.
  destruct (find _ (domains config)) as [d|]; [|reflexivity].
  cbn [option_map without_zero_override dc_alert_threshold_days].
  destruct (dc_alert_threshold_days d) as [[|p|p]|]; reflexivity.
Qed.

Lemma get_alerts_loop_ext (cfg cfg' : DomainMonitorConfig) (rs : list result)
    (acc : list alert) :
  (forall name, effective_threshold cfg' name = effective_threshold cfg name) ->
  get_alerts_loop cfg' rs acc = get_alerts_loop cfg rs acc.
Proof.
  intros H. revert acc; induction rs as [|r rs IH]; intros acc; [reflexivity|].
  cbn [get_alerts_loop]. rewrite H.
  destruct (r_error r); [apply IH|].
  destruct (getitem _ (r_domain_check r)); [reflexivity|].
  destruct (getitem _ (r_ssl_check r)); [reflexivity|].
  apply IH.
Qed.

(** X21. Saving the configuration and loading it again changes no
    effective threshold, so [get_alerts] gives the same answer with
    the reloaded configuration. *)
Theorem round_trip_keeps_alerts (self : DomainMonitor) :
  (forall name,
     effective_threshold (without_zero_overrides (config self)) name
     = effective_threshold (config self) name) /\
  get_alerts (with_config self (without_zero_overrides (config self)))
  = get_alerts self.
Proof.
  split; [apply effective_threshold_round_trip|].
  unfold get_alerts. cbn [with_config config results].
  apply get_alerts_loop_ext, effective_threshold_round_trip.
Qed.

(** X22. A [domains] item without [name] makes the whole document
    fail with a [KeyError]; when every item has one, the domains come
    out in the order of the document, one for each item. *)
Theorem load_yaml_domains (data : yaml_data) :
  let items := get_or (y_domains data) [] in
  ((exists item, In item items /\ yd_name item = None) ->
   load_yaml_data data = inl (Exn KeyError "'name'")) /\
  (forall config, load_yaml_data data = inr config ->
     map (fun d => Some (dc_name d)) (domains config) = map yd_name items /\
     map dc_alert_threshold_days (domains config)
     = map yd_alert_threshold_days items).
Proof.
  cbv zeta. unfold load_yaml_data.
  generalize (get_or (y_domains data) []) as items. intros items.
  assert (forall ds, parse_domains items = inr ds ->
            map (fun d => Some (dc_name d)) ds = map yd_name items /\
            map dc_alert_threshold_days ds = map yd_alert_threshold_days items) as Hok.
  { induction items as [|x items IH]; intros ds H.
    - inversion H. split; reflexivity.
    - cbn [parse_domains] in H. destruct (yd_name x) as [n|] eqn:E; [|discriminate].
      destruct (parse_domains items) as [e|ds']; [discriminate|].
      inversion H; subst. destruct (IH ds' eq_refl) as [H1 H2].
      cbn [map dc_name dc_alert_threshold_days]. now rewrite H1, H2, E. }
  assert ((exists item, In item items /\ yd_name item = None) ->
          parse_domains items = inl (Exn KeyError "'name'")) as Hbad.
  { clear Hok.
    induction items as [|x items IH]; intros (item & Hin & Hn); [destruct Hin|].
    cbn [parse_domains]. destruct (yd_name x) as [n|] eqn:E; [|reflexivity].
    destruct Hin as [-> | Hin]; [congruence|].
    rewrite (IH (ex_intro _ item (conj Hin Hn))). reflexivity. }
  split.
  - intros H. now rewrite (Hbad H).
  - intros config H. destruct (parse_domains items) as [e|ds]; [discriminate|].
    inversion H; subst. cbn [domains]. now apply Hok.
Qed.

(** The file the loop settles on. *)
Lemma first_loadable_some (fs : Files) (files : list string)
    (config : DomainMonitorConfig) :
  first_loadable fs files = Some config ->
  exists before file after,
    files = before ++ file :: after /\
    path_exists fs file = true /\
    load_yaml_config fs file = inr config /\
    (forall f, In f before ->
       path_exists fs f = false \/ exists e, load_yaml_config fs f = inl e).
Proof.
  induction files as [|f files IH]; [discriminate|].
  cbn [first_loadable]. destruct (path_exists fs f) eqn:Ef.
  - destruct (load_yaml_config fs f) as [e|c] eqn:El.
    + intros H. destruct (IH H) as (b & x & a & -> & Hx & Hl & Hb).
      exists (f :: b), x, a. repeat split; try assumption.
      intros g [<- | Hg]; [right; now exists e | now apply Hb].
    + intros H. inversion H; subst. exists [], f, files.
      repeat split; try assumption. intros g [].
  - intros H. destruct (IH H) as (b & x & a & -> & Hx & Hl & Hb).
    exists (f :: b), x, a. repeat split; try assumption.
    intros g [<- | Hg]; [now left | now apply Hb].
Qed.

Lemma first_loadable_none (fs : Files) (files : list string) :
  first_loadable fs files = None ->
  forall f, In f files ->
    path_exists fs f = false \/ exists e, load_yaml_config fs f = inl e.
Proof.
  induction files as [|f files IH]; [intros _ g []|].
  cbn [first_loadable]. destruct (path_exists fs f) eqn:Ef.
  - destruct (load_yaml_config fs f) as [e|c] eqn:El; [|discriminate].
    intros H g [<- | Hg]; [right; now exists e | now apply IH].
  - intros H g [<- | Hg]; [now left | now apply IH].
Qed.

(** X23. [load_config] raises only the exception of importing
    [domain_config], only when that is not an [ImportError], and only
    after every candidate file was missing or failed to load: a YAML
    file that does not parse never makes it raise. *)
Theorem load_config_raises (fs : Files) (config_file : option string) (e : exn) :
  load_config fs config_file = inl e ->
  import_error fs = Some e /\
  is_import_error (exn_cls e) = false /\
  (forall f, In f (config_files_of config_file) ->
     path_exists fs f = false \/ exists e', load_yaml_config fs f = inl e').
Proof.
  unfold load_config.
  destruct (first_loadable fs (config_files_of config_file)) eqn:Ef; [discriminate|].
  destruct (import_error fs) as [e0|]; [|discriminate].
  destruct (is_import_error (exn_cls e0)) eqn:Ei; [discriminate|].
  intros H; inversion H; subst. repeat split; try assumption.
  now apply first_loadable_none.
Qed.

(** X24. The configuration [load_config] returns is that of the first
    candidate file, in order, that exists and loads; when there is
    none it is the Python configuration, or the built-in defaults when
    importing that raises [ImportError]. *)
Theorem load_config_choice (fs : Files) (config_file : option string)
    (config : DomainMonitorConfig) :
  load_config fs config_file = inr config ->
  (exists before file after,
     config_files_of config_file = before ++ file :: after /\
     path_exists fs file = true /\
     load_yaml_config fs file = inr config /\
     (forall f, In f before ->
        path_exists fs f = false \/ exists e, load_yaml_config fs f = inl e)) \/
  ((forall f, In f (config_files_of config_file) ->
      path_exists fs f = false \/ exists e, load_yaml_config fs f = inl e) /\
   ((import_error fs = None /\ config = python_config) \/
    (exists e, import_error fs = Some e /\ is_import_error (exn_cls e) = true /\
               config = default_config))).
Proof.
  unfold load_config.
  destruct (first_loadable fs (config_files_of config_file)) as [c|] eqn:Ef.
  - intros H; inversion H; subst. left. now apply first_loadable_some.
  - intros H. right. split; [now apply first_loadable_none|].
    destruct (import_error fs) as [e0|].
    + destruct (is_import_error (exn_cls e0)) eqn:Ei; [|discriminate].
      inversion H; subst. right. now exists e0.
    + inversion H; subst. now left.
Qed.

(** X25. With a file named, only that file is looked at: the default
    file names play no part, also when the named file is missing or
    does not load. *)
Theorem explicit_file_only (fs fs' : Files) (c : ascii) (s : string) :
  let file := String c s in
  path_exists fs' file = path_exists fs file ->
  safe_load fs' file = safe_load fs file ->
  import_error fs' = import_error fs ->
  load_config fs' (Some file) = load_config fs (Some file).
Proof.
  cbv zeta. intros He Hl Hi. unfold load_config.
  cbn [config_files_of first_loadable]. unfold load_yaml_config.
  now rewrite He, Hl, Hi.
Qed.

End ConfigFacts.

(** ** The tools, the evaluator and the notifications together *)

Module TogetherFacts.
Import Py World Toolkit Monitor MonitorFacts Shapes MonitorShapes Simple.
Local Open Scope string_scope.
Local Open Scope list_scope.
Local Open Scope Z_scope.

(** A sub-check shaped like a tool result that is alerted has a day
    count within the threshold. *)
Lemma shaped_alert_days (c : check_dict) (threshold : Z) :
  error_shaped c \/ success_shaped c ->
  cd_status c = Some "success" ->
  get_days_or_999 c <= threshold ->
  exists d, cd_days_until_expiry c = Some d /\ d <= threshold.
Proof.
  intros [(He & _) | (_ & _ & d & Hd & _)] Hs Hle; [congruence|].
  exists d. split; [exact Hd|]. unfold get_days_or_999 in Hle. now rewrite Hd in Hle.
Qed.

(** X26. When every sub-check in the results has the shape the two
    tools give their results, every alert of [get_alerts] carries a
    day count that is at most its threshold, and the Slack lines can
    be built from the alerts without a [TypeError]. *)
Theorem alerts_from_tool_results (self : DomainMonitor) (alerts : list alert) :
  (forall r c, In r (results self) ->
     r_domain_check r = Some c \/ r_ssl_check r = Some c ->
     error_shaped c \/ success_shaped c) ->
  get_alerts self = inr alerts ->
  (forall a, In a alerts ->
     exists d, a_days_until_expiry a = Some d /\ d <= a_threshold a) /\
  (forall emojis, exists lines, Notify.slack_lines emojis alerts = inr lines).
Proof.
  intros Hshape H. apply get_alerts_inr in H as [_ ->].
  assert (forall a, In a (evaluate (config self) (results self)) ->
            exists d, a_days_until_expiry a = Some d /\ d <= a_threshold a) as Hd.
  { intros a Ha. apply in_evaluate in Ha as (r & Hr & Ha).
    apply alerts_of_result_source in Ha
      as (_ & _ & _ & c & Hc & Hs & Hdays & _ & Hle).
    rewrite Hdays. apply shaped_alert_days; try assumption.
    apply (Hshape r c Hr). destruct Hc as [[_ Hc] | [_ Hc]]; auto. }
  split; [exact Hd|].
  intros emojis.
  destruct (NotifyFacts.slack_lines_returns emojis
              (evaluate (config self) (results self))) as (lines & Hl & _).
  - intros a Ha E. destruct (Hd a Ha) as (d & Hsome & _). congruence.
  - now exists lines.
Qed.

Section Script.
Variable env : Env.

Lemma simplify_alerts_of_result (domain : string) (dc sc : check_dict)
    (checked_at : option string) (alerts : list simple_alert) :
  let result := {| r_domain := domain; r_error := None;
                   r_domain_check := Some dc; r_ssl_check := Some sc;
                   r_checked_at := checked_at |} in
  (if needs_alert sc ALERT_THRESHOLD_DAYS
   then (if needs_alert dc ALERT_THRESHOLD_DAYS
         then alerts ++ [{| sa_domain := domain; sa_type := "domain_registration";
                            sa_days := cd_days_until_expiry dc |}]
         else alerts)
        ++ [{| sa_domain := domain; sa_type := "ssl_certificate";
               sa_days := cd_days_until_expiry sc |}]
   else (if needs_alert dc ALERT_THRESHOLD_DAYS
         then alerts ++ [{| sa_domain := domain; sa_type := "domain_registration";
                            sa_days := cd_days_until_expiry dc |}]
         else alerts))
  = alerts ++ map simplify (alerts_of_result script_config result).
Proof.
  cbv zeta. unfold alerts_of_result. cbn.
  change (effective_threshold script_config domain) with ALERT_THRESHOLD_DAYS.
  destruct (needs_alert dc ALERT_THRESHOLD_DAYS),
           (needs_alert sc ALERT_THRESHOLD_DAYS);
    cbn; rewrite <- ?app_assoc, ?app_nil_r; reflexivity.
Qed.

Lemma simple_loop_spec (todo : list string) :
  forall (results : list result) (alerts : list simple_alert) (l : log),
  exists rs l',
    simple_loop env todo results alerts l
    = (inr (results ++ rs, alerts ++ map simplify (evaluate script_config rs)), l') /\
    map r_domain rs = todo /\
    forallb well_shaped rs = true /\
    (forall r c, In r rs ->
       r_domain_check r = Some c \/ r_ssl_check r = Some c ->
       error_shaped c \/ success_shaped c).
Proof.
  induction todo as [|domain rest IH]; intros results alerts l.
  - exists [], l. cbn. rewrite !app_nil_r. repeat split. intros r c [].
  - cbn [simple_loop]. unfold bind at 1.
    destruct (ToolkitFacts.check_domain_expiry_returns env domain l)
      as (dc & l1 & Hdc).
    rewrite Hdc. unfold bind at 1.
    destruct (ToolkitFacts.check_ssl_expiry_returns env domain 443 l1)
      as (sc & l2 & Hsc).
    rewrite Hsc. unfold bind at 1. unfold now_isoformat at 1.
    rewrite (simplify_alerts_of_result domain dc sc
               (Some (datetime_now_isoformat env l2)) alerts).
    match goal with
    | |- context [simple_loop env rest (results ++ [?r]) ?al ?lg] =>
        destruct (IH (results ++ [r]) al lg) as (rs & l' & Hrun & Hdom & Hw & Hshape);
        exists (r :: rs), l'
    end.
    rewrite Hrun. rewrite <- !app_assoc. cbn [app evaluate flat_map map].
    rewrite map_app. split; [reflexivity|]. cbn [r_domain].
    rewrite Hdom. split; [reflexivity|]. split; [exact Hw|].
    intros r c [<- | Hr] Hc; [|now apply (Hshape r c)].
    cbn in Hc. destruct Hc as [Hc | Hc]; inversion Hc; subst c.
    + apply (ToolkitMore.run_check_shape env Whois domain l l1 _ Hdc).
    + apply (ToolkitMore.run_check_shape env (Tls 443) domain l1 l2 _ Hsc).
Qed.

(** X27. The stand-alone script never raises while checking: it
    builds one entry for each domain, in order, and its alerts are the
    alerts [DomainMonitor.get_alerts] gives for those entries under a
    global threshold of 30 and no per-domain settings, cut down to
    domain, type and days; each has a day count of at most 30. *)
Theorem simple_check_agrees (test_domains : list string) (l : log) :
  exists results alerts monitor_alerts l',
    simple_domain_check env test_domains l = (inr (results, alerts), l') /\
    map r_domain results = test_domains /\
    get_alerts (with_results (init script_config) results) = inr monitor_alerts /\
    alerts = map simplify monitor_alerts /\
    (forall a, In a alerts -> exists d, sa_days a = Some d /\ d <= 30).
Proof.
  destruct (simple_loop_spec test_domains [] [] l)
    as (rs & l' & Hrun & Hdom & Hw & Hshape).
  exists rs, (map simplify (evaluate script_config rs)), (evaluate script_config rs), l'.
  split; [exact Hrun|]. split; [exact Hdom|].
  assert (get_alerts (with_results (init script_config) rs)
          = inr (evaluate script_config rs)) as Hg.
  { unfold get_alerts. cbn [with_results init config results].
    now rewrite get_alerts_loop_total. }
  split; [exact Hg|]. split; [reflexivity|].
  intros a Ha. apply in_map_iff in Ha as (x & <- & Hx).
  apply in_evaluate in Hx as (r & Hr & Hx).
  apply alerts_of_result_source in Hx
    as (_ & _ & Ht & c & Hc & Hs & Hdays & _ & Hle).
  cbn [simplify sa_days]. rewrite Hdays.
  rewrite Ht in Hle. change (effective_threshold script_config (r_domain r)) with 30 in Hle.
  apply shaped_alert_days; try assumption.
  apply (Hshape r c Hr). destruct Hc as [[_ Hc] | [_ Hc]]; auto.
Qed.

End Script.
End TogetherFacts.

(** ** The further properties on concrete inputs *)

Module MoreWitnesses.
Import Py Monitor MonitorShapes Shapes.
Local Open Scope string_scope.
Local Open Scope list_scope.
Local Open Scope Z_scope.

Lemma send_email_fan_out_witness :
  Notify.send_email_alert NotifySamples.env SampleMonitor.custom_monitor
    NotifySamples.notifications [NotifySamples.custom_alert] []
  = (inr tt,
     [] ++ map (fun r => Service.GmailSendEmail (Notify.er_email r)
                           "Alert: 1 domains"
                           (Notify.email_body [NotifySamples.custom_alert])
                           (Notify.user_id SampleMonitor.custom_monitor))
               (Notify.ec_recipients (Notify.email NotifySamples.notifications))).
Proof.
  apply NotifyFacts.send_email_fan_out; [discriminate | reflexivity | reflexivity].
Defined.

Lemma send_email_failure_witness :
  @inr exn unit tt = inr tt /\ @nil Service.request = [].
Proof.
  apply (NotifyFacts.send_email_failure NotifySamples.env SampleMonitor.custom_monitor
           NotifySamples.notifications [] [] [] (inr tt) eq_refl).
  left. reflexivity.
Defined.

Lemma send_slack_single_message_witness :
  exists lines,
    Notify.slack_lines [("critical", "(!)"); ("warning", "(w)")]
      [NotifySamples.custom_alert] = inr lines /\
    length lines = 1%nat /\
    Notify.send_slack_alert NotifySamples.env SampleMonitor.custom_monitor
      NotifySamples.notifications [NotifySamples.custom_alert] []
    = (inr tt,
       [] ++ [Service.SlackSendMessage "#alerts"
                (PyText.join PyText.newline
                   ("Domain Alert - 1 domain(s) expiring soon:" :: lines))
                "kig@kig.re"]).
Proof.
  apply (NotifyFacts.send_slack_single_message NotifySamples.env
           SampleMonitor.custom_monitor NotifySamples.notifications
           [NotifySamples.custom_alert] []
           "Domain Alert - 1 domain(s) expiring soon").
  - discriminate.
  - reflexivity.
  - reflexivity.
  - intros a [<- | []]. discriminate.
Defined.

Lemma send_slack_failure_witness :
  @nil Service.request = [] /\
  (Service.str_format_count NotifySamples.env
     "Domain Alert - {count} domain(s) expiring soon" 1
   = inl (Exn TypeError
            "'<=' not supported between instances of 'NoneType' and 'int'") \/
   (TypeError = TypeError /\
    exists a, In a [NotifySamples.bare_alert] /\ a_days_until_expiry a = None)).
Proof.
  apply (NotifyFacts.send_slack_failure NotifySamples.env SampleMonitor.wide_monitor
           NotifySamples.notifications [NotifySamples.bare_alert] [] []
           (Exn TypeError
              "'<=' not supported between instances of 'NoneType' and 'int'")).
  reflexivity.
Defined.


Lemma load_config_raises_witness :
  ConfigIO.import_error ConfigSamples.broken_files
  = Some (Exn (OtherException "SyntaxError") "invalid syntax") /\
  ConfigIO.is_import_error (OtherException "SyntaxError") = false /\
  (forall f, In f (ConfigIO.config_files_of None) ->
     ConfigIO.path_exists ConfigSamples.broken_files f = false \/
     exists e', ConfigIO.load_yaml_config ConfigSamples.broken_files f = inl e').
Proof.
  apply (ConfigFacts.load_config_raises ConfigSamples.broken_files None
           (Exn (OtherException "SyntaxError") "invalid syntax")).
  reflexivity.
Defined.

Lemma load_config_choice_witness :
  (exists before file after,
     ConfigIO.config_files_of None = before ++ file :: after /\
     ConfigIO.path_exists ConfigSamples.files file = true /\
     ConfigIO.load_yaml_config ConfigSamples.files file = inr ConfigSamples.loaded /\
     (forall f, In f before ->
        ConfigIO.path_exists ConfigSamples.files f = false \/
        exists e, ConfigIO.load_yaml_config ConfigSamples.files f = inl e)) \/
  ((forall f, In f (ConfigIO.config_files_of None) ->
      ConfigIO.path_exists ConfigSamples.files f = false \/
      exists e, ConfigIO.load_yaml_config ConfigSamples.files f = inl e) /\
   ((ConfigIO.import_error ConfigSamples.files = None /\
     ConfigSamples.loaded = ConfigIO.python_config) \/
    (exists e, ConfigIO.import_error ConfigSamples.files = Some e /\
               ConfigIO.is_import_error (exn_cls e) = true /\
               ConfigSamples.loaded = ConfigIO.default_config))).
Proof.
  apply (ConfigFacts.load_config_choice ConfigSamples.files None ConfigSamples.loaded).
  reflexivity.
Defined.

Lemma explicit_file_only_witness :
  ConfigIO.load_config ConfigSamples.files (Some "missing.yaml")
  = ConfigIO.load_config ConfigSamples.empty_files (Some "missing.yaml").
Proof.
  apply (ConfigFacts.explicit_file_only ConfigSamples.empty_files ConfigSamples.files
           "m" "issing.yaml").
  - reflexivity.
  - reflexivity.
  - reflexivity.
Defined.

Lemma alerts_from_tool_results_witness :
  (forall a,
     In a [domain_alert "second.example"
             (Sample.success_dict "second.example" 10 None) 15] ->
     exists d, a_days_until_expiry a = Some d /\ d <= a_threshold a) /\
  (forall emojis, exists lines,
     Notify.slack_lines emojis
       [domain_alert "second.example"
          (Sample.success_dict "second.example" 10 None) 15] = inr lines).
Proof.
  apply (TogetherFacts.alerts_from_tool_results ToolMonitors.tool_monitor).
  - intros r c [<- | []] [H | H]; inversion H; subst c.
    + right. unfold success_shaped. cbn. repeat split.
      exists 10. repeat split. eexists; reflexivity.
    + left. unfold error_shaped. cbn. repeat split. eexists; reflexivity.
  - reflexivity.
Defined.

End MoreWitnesses.

(** ** The monitor over replies of any form *)

Module RepliesFacts.
Import Py World Replies.
Local Open Scope string_scope.
Local Open Scope list_scope.
Local Open Scope Z_scope.

Section Batch.
Variable env : Env.
Variable client_tools_execute :
  log -> string -> string -> string -> exn + ExecuteToolResponse.

(** An entry that [check_domain] returns has both sub-checks. *)
Lemma check_domain_reply_entry (self : DomainMonitor) (domain : string)
    (l l1 : log) (r : result) :
  check_domain env client_tools_execute self domain l = (inr r, l1) ->
  r_domain r = domain /\ r_error r = None /\ entry_shaped r = true.
Proof.
  cbv beta delta [check_domain execute Monitor.now_isoformat output_value
                  bind perform lift ret] iota zeta.
  destruct (client_tools_execute l _ domain _) as [e|[[[v1]|]]];
    try (intros H; discriminate H).
  all: destruct (client_tools_execute _ _ domain _) as [e|[[[v2]|]]];
    cbn; intros H; try discriminate H.
  inversion H; subst. cbn. repeat split.
Qed.

(** The loop never raises: it appends one shaped entry per domain. *)
Lemma check_all_domains_loop_entries (self : DomainMonitor) (todo : list string) :
  forall (acc : list result) (l : log),
  exists rs l',
    check_all_domains_loop env client_tools_execute self todo acc l
    = (inr (acc ++ rs), l') /\
    map r_domain rs = todo /\
    forallb entry_shaped rs = true.
Proof.
  induction todo as [|domain rest IH]; intros acc l.
  - exists [], l. cbn. rewrite app_nil_r. repeat split.
  - cbn [check_all_domains_loop]. unfold bind at 1. unfold try_except.
    unfold bind at 1.
    destruct (check_domain env client_tools_execute self domain l)
      as [[e|r] l1] eqn:E.
    + unfold bind, Monitor.now_isoformat, ret.
      match goal with
      | |- context [check_all_domains_loop _ _ _ _ (acc ++ [?entry]) ?l2] =>
          destruct (IH (acc ++ [entry]) l2) as (rs & l' & Hrun & Hd & Hs);
          exists (entry :: rs), l'
      end.
      rewrite Hrun, <- app_assoc. cbn. rewrite Hd, Hs. repeat split.
    + unfold ret.
      destruct (IH (acc ++ [r]) l1) as (rs & l' & Hrun & Hd & Hs).
      apply check_domain_reply_entry in E as (Hn & _ & Hshape).
      exists (r :: rs), l'.
      rewrite Hrun, <- app_assoc. cbn. rewrite Hn, Hd, Hshape, Hs. repeat split.
Qed.

End Batch.

(** The alert condition is decided on a comparable sub-check, and
    raises on any other. *)
Lemma needs_alert_comparable (check : json) (threshold : Z) :
  if comparable check
  then exists b, needs_alert check threshold = inr b /\
                 exists items, check = JObject items
  else exists e, needs_alert check threshold = inl e /\
                 (exn_cls e = AttributeError \/ exn_cls e = TypeError).
Proof.
  destruct check as [| b | n | f | s | elements | items];
    try (cbn; eexists; split; [reflexivity | left; reflexivity]).
  unfold comparable, needs_alert, get, and_then.
  destruct (eq_str _ "success"); [|eauto].
  destruct (lookup "days_until_expiry" items) as [days|]; [|cbn; eauto].
  destruct days; cbn; eauto.
Qed.

Lemma domain_alert_of_dict (domain_name : string) (items : list (string * json))
    (threshold : Z) :
  exists a, domain_alert domain_name (JObject items) threshold = inr a /\
            a_domain a = domain_name.
Proof. eexists. split; reflexivity. Qed.

Lemma ssl_alert_of_dict (domain_name : string) (items : list (string * json))
    (threshold : Z) :
  exists a, ssl_alert domain_name (JObject items) threshold = inr a /\
            a_domain a = domain_name.
Proof. eexists. split; reflexivity. Qed.

(** One sub-check of the loop: the alert list grows by at most one
    alert of the domain before the rest [k] of the loop body runs, or
    the evaluation raises. *)
Lemma alert_step {B : Type} (build : string -> json -> Z -> exn + alert)
    (domain_name : string) (check : json) (threshold : Z) (alerts : list alert)
    (k : list alert -> exn + B) :
  (forall items, exists a,
     build domain_name (JObject items) threshold = inr a /\
     a_domain a = domain_name) ->
  if comparable check
  then exists new,
         and_then (needs_alert check threshold)
           (fun expiring =>
              and_then (if expiring
                        then and_then (build domain_name check threshold)
                               (fun a => inr (alerts ++ [a]))
                        else inr alerts) k)
         = k (alerts ++ new) /\
         (length new <= 1)%nat /\
         (forall a, In a new -> a_domain a = domain_name)
  else exists e,
         and_then (needs_alert check threshold)
           (fun expiring =>
              and_then (if expiring
                        then and_then (build domain_name check threshold)
                               (fun a => inr (alerts ++ [a]))
                        else inr alerts) k)
         = inl e /\
         (exn_cls e = AttributeError \/ exn_cls e = TypeError).
Proof.
  intros Hbuild. pose proof (needs_alert_comparable check threshold) as H.
  destruct (comparable check).
  - destruct H as (b & -> & items & ->). cbn [and_then].
    destruct b.
    + destruct (Hbuild items) as (a & -> & Ha). cbn [and_then].
      exists [a]. split; [reflexivity|]. split; [cbn; lia|].
      intros a' [<- | []]. exact Ha.
    + exists []. rewrite app_nil_r. split; [reflexivity|].
      split; [cbn; lia | intros a' []].
  - destruct H as (e & -> & He). exists e. split; [reflexivity | exact He].
Qed.

(** The loop of [get_alerts] over shaped entries: it returns exactly
    when every entry can be evaluated, and raises [AttributeError] or
    [TypeError] otherwise. *)
Lemma get_alerts_loop_outcome (cfg : Monitor.DomainMonitorConfig)
    (rs : list result) :
  forallb entry_shaped rs = true ->
  forall alerts,
  match get_alerts_loop cfg rs alerts with
  | inr out =>
      forallb evaluable rs = true /\
      exists new, out = alerts ++ new /\
                  (length new <= 2 * length rs)%nat /\
                  (forall a, In a new -> In (a_domain a) (map r_domain rs))
  | inl e =>
      forallb evaluable rs = false /\
      (exn_cls e = AttributeError \/ exn_cls e = TypeError)
  end.
Proof.
  induction rs as [|r rest IH]; intros Hs alerts.
  - cbn. split; [reflexivity|]. exists []. rewrite app_nil_r.
    split; [reflexivity|]. split; [cbn; lia | intros a []].
  - cbn [forallb] in Hs. apply andb_true_iff in Hs as [Hr Hs].
    specialize (IH Hs).
    destruct r as [name [err|] [dc|] [sc|] [at_|]]; try discriminate Hr.
    + cbn [get_alerts_loop r_error forallb evaluable andb].
      specialize (IH alerts).
      destruct (get_alerts_loop cfg rest alerts) as [e|out]; [exact IH|].
      destruct IH as (He & new & -> & Hl & Hd).
      split; [exact He|]. exists new. split; [reflexivity|].
      split; [cbn [length]; lia|].
      intros a Ha. right. now apply Hd.
    + cbn [get_alerts_loop r_error r_domain r_domain_check r_ssl_check getitem
           forallb evaluable].
      cbn [and_then].
      match goal with
      | |- context [and_then (needs_alert dc ?t)
                      (fun expiring => and_then _ ?k)] =>
          pose proof (alert_step domain_alert name dc t alerts k
                        (fun items => domain_alert_of_dict name items t)) as H1
      end.
      destruct (comparable dc).
      * destruct H1 as (new1 & -> & Hl1 & Hd1).
        match goal with
        | |- context [and_then (needs_alert sc ?t)
                        (fun expiring => and_then _ ?k)] =>
            pose proof (alert_step ssl_alert name sc t (alerts ++ new1) k
                          (fun items => ssl_alert_of_dict name items t)) as H2
        end.
        destruct (comparable sc).
        -- destruct H2 as (new2 & -> & Hl2 & Hd2). cbn [andb].
           specialize (IH ((alerts ++ new1) ++ new2)).
           destruct (get_alerts_loop cfg rest ((alerts ++ new1) ++ new2))
             as [e|out]; [exact IH|].
           destruct IH as (He & new & -> & Hl & Hd).
           split; [exact He|].
           exists (new1 ++ new2 ++ new). rewrite <- !app_assoc.
           split; [reflexivity|].
           split; [rewrite !length_app; cbn [length]; lia|].
           intros a Ha. cbn [map r_domain].
           apply in_app_or in Ha as [Ha | Ha]; [left; symmetry; now apply Hd1|].
           apply in_app_or in Ha as [Ha | Ha]; [left; symmetry; now apply Hd2|].
           right. now apply Hd.
        -- destruct H2 as (e & -> & He). cbn [andb].
           split; [reflexivity | exact He].
      * destruct H1 as (e & -> & He). cbn [andb].
        split; [reflexivity | exact He].
Qed.

(** *** Replies that are the dicts of the tools *)

Lemma lookup_field {A : Type} (key k : string) (enc : A -> json) (v : option A)
    (rest : list (string * json)) :
  lookup key (field k enc v ++ rest)
  = match (if String.eqb k key then option_map enc v else None) with
    | Some x => Some x
    | None => lookup key rest
    end.
Proof.
  unfold lookup, field. destruct v as [x|]; cbn.
  - destruct (String.eqb k key); reflexivity.
  - destruct (String.eqb k key); reflexivity.
Qed.

Lemma get_status (c : check_dict) :
  get (encode c) "status" JNull = inr (or_null JString (cd_status c)).
Proof.
  unfold get, encode. rewrite !lookup_field.
  destruct (cd_issuer c); destruct (cd_status c); reflexivity.
Qed.

Lemma get_days (c : check_dict) (default : json) :
  get (encode c) "days_until_expiry" default
  = inr (match cd_days_until_expiry c with Some d => JInt d | None => default end).
Proof.
  unfold get, encode. rewrite !lookup_field.
  destruct (cd_issuer c); destruct (cd_days_until_expiry c); reflexivity.
Qed.

Lemma get_expiration_date (c : check_dict) :
  get (encode c) "expiration_date" JNull
  = inr (or_null JString (cd_expiration_date c)).
Proof.
  unfold get, encode. rewrite !lookup_field.
  destruct (cd_issuer c); destruct (cd_expiration_date c); reflexivity.
Qed.

Lemma get_registrar (c : check_dict) :
  get (encode c) "registrar" JNull = inr (or_null JString (cd_registrar c)).
Proof.
  unfold get, encode. rewrite !lookup_field.
  destruct (cd_issuer c); destruct (cd_registrar c); reflexivity.
Qed.

Lemma needs_alert_encode (c : check_dict) (threshold : Z) :
  needs_alert (encode c) threshold = inr (Monitor.needs_alert c threshold).
Proof.
  unfold needs_alert, Monitor.needs_alert, Monitor.status_is_success,
    Monitor.get_days_or_999.
  rewrite get_status, get_days. cbn [and_then].
  destruct (cd_status c) as [s|]; cbn [or_null eq_str andb]; [|reflexivity].
  destruct (String.eqb s "success"); cbn [andb and_then]; [|reflexivity].
  destruct (cd_days_until_expiry c); reflexivity.
Qed.

Lemma domain_alert_encode (domain_name : string) (c : check_dict) (threshold : Z) :
  domain_alert domain_name (encode c) threshold
  = inr (encode_alert (Monitor.domain_alert domain_name c threshold)).
Proof.
  unfold domain_alert.
  rewrite get_days, get_expiration_date, get_registrar. cbn [and_then].
  unfold encode_alert, Monitor.domain_alert. cbn.
  destruct (cd_days_until_expiry c); reflexivity.
Qed.

Lemma ssl_alert_encode (domain_name : string) (c : check_dict) (threshold : Z) :
  ssl_alert domain_name (encode c) threshold
  = inr (encode_alert (Monitor.ssl_alert domain_name c threshold)).
Proof.
  unfold ssl_alert.
  rewrite get_days, get_expiration_date. cbn [and_then].
  unfold encode_alert, Monitor.ssl_alert. cbn.
  destruct (cd_days_until_expiry c); reflexivity.
Qed.

Lemma map_snoc {A B : Type} (f : A -> B) (l : list A) (a : A) :
  map f l ++ [f a] = map f (l ++ [a]).
Proof. now rewrite map_app. Qed.

(** On the dicts of the tools the loop of [get_alerts] does what the
    loop over [check_dict] values does. *)
Lemma get_alerts_loop_encode (cfg : Monitor.DomainMonitorConfig)
    (rs : list Monitor.result) :
  forall alerts,
  get_alerts_loop cfg (map encode_result rs) (map encode_alert alerts)
  = match Monitor.get_alerts_loop cfg rs alerts with
    | inl e => inl e
    | inr out => inr (map encode_alert out)
    end.
Proof.
  induction rs as [|r rest IH]; intros alerts; [reflexivity|].
  destruct r as [name [err|] dc sc at_].
  - cbn. apply IH.
  - cbn [map encode_result get_alerts_loop Monitor.get_alerts_loop
         r_error r_domain r_domain_check r_ssl_check
         Monitor.r_error Monitor.r_domain Monitor.r_domain_check
         Monitor.r_ssl_check].
    destruct dc as [dc|]; [|reflexivity].
    destruct sc as [sc|]; [|reflexivity].
    cbn [option_map getitem Monitor.getitem and_then].
    rewrite !needs_alert_encode. cbn [and_then].
    destruct (Monitor.needs_alert dc _).
    + rewrite domain_alert_encode. cbn [and_then].
      destruct (Monitor.needs_alert sc _).
      * rewrite ssl_alert_encode. cbn [and_then].
        rewrite !map_snoc. apply IH.
      * rewrite !map_snoc. apply IH.
    + destruct (Monitor.needs_alert sc _).
      * rewrite ssl_alert_encode. cbn [and_then].
        rewrite !map_snoc. apply IH.
      * apply IH.
Qed.

Lemma check_domain_encode (env : Env) (self : Monitor.DomainMonitor)
    (domain : string) (l : log) :
  check_domain env (typed_service env) (encode_monitor self) domain l
  = match Monitor.check_domain env self domain l with
    | (inl e, l') => (inl e, l')
    | (inr r, l') => (inr (encode_result r), l')
    end.
Proof.
  cbv beta delta [check_domain Monitor.check_domain execute Monitor.execute
                  Monitor.now_isoformat output_value typed_service
                  bind perform lift ret] iota zeta.
  cbn [encode_monitor config].
  destruct (tools_execute env l _ domain _) as [e|c1]; [reflexivity|].
  destruct (tools_execute env _ _ domain _) as [e|c2]; reflexivity.
Qed.

Lemma check_all_domains_loop_encode (env : Env) (self : Monitor.DomainMonitor)
    (todo : list string) :
  forall (acc : list Monitor.result) (l : log),
  check_all_domains_loop env (typed_service env) (encode_monitor self) todo
    (map encode_result acc) l
  = match Monitor.check_all_domains_loop env self todo acc l with
    | (inl e, l') => (inl e, l')
    | (inr rs, l') => (inr (map encode_result rs), l')
    end.
Proof.
  induction todo as [|domain rest IH]; intros acc l; [reflexivity|].
  cbn [check_all_domains_loop Monitor.check_all_domains_loop].
  cbv beta delta [bind try_except ret Monitor.now_isoformat].
  rewrite check_domain_encode.
  destruct (Monitor.check_domain env self domain l) as [[e|r] l1].
  - rewrite <- IH. rewrite map_app. reflexivity.
  - rewrite <- IH. rewrite map_app. reflexivity.
Qed.

(** X13. [get_alerts] after [check_all_domains], whatever the service
    replies.  The pass stores one entry per configured domain, each
    with its time stamp and either the error text alone or both
    sub-check values alone, so that [get_alerts] never fails on a
    missing key.  It returns exactly when every stored sub-check is a
    dict whose day count, where the status is ["success"], is a number
    or is missing: then there are at most two alerts per configured
    domain and each names a configured domain; otherwise it raises
    [AttributeError] or [TypeError].  With a service that replies with
    the dicts of the tools it returns, and the alerts are those of the
    evaluator.  A reply whose value is [None] and a successful reply
    whose day count is [None] make it raise. *)
Theorem alerts_after_batch_of_replies :
  (forall env service (self : DomainMonitor) (l : log),
     exists rs l',
       check_all_domains env service self l
       = (inr (with_results self rs, rs), l') /\
       map r_domain rs = self_domains self /\
       forallb entry_shaped rs = true /\
       match get_alerts (with_results self rs) with
       | inr alerts =>
           forallb evaluable rs = true /\
           (length alerts <= 2 * length (self_domains self))%nat /\
           (forall a, In a alerts -> In (a_domain a) (self_domains self))
       | inl e =>
           forallb evaluable rs = false /\
           (exn_cls e = AttributeError \/ exn_cls e = TypeError)
       end) /\
  (forall env (self : Monitor.DomainMonitor) (l : log),
     exists rs l',
       Monitor.check_all_domains env self l
       = (inr (Monitor.with_results self rs, rs), l') /\
       check_all_domains env (typed_service env) (encode_monitor self) l
       = (inr (with_results (encode_monitor self) (map encode_result rs),
               map encode_result rs), l') /\
       forallb evaluable (map encode_result rs) = true /\
       get_alerts (with_results (encode_monitor self) (map encode_result rs))
       = inr (map encode_alert (Monitor.evaluate (Monitor.config self) rs))) /\
  (exists rs l',
     check_all_domains Sample.env_ok ReplySamples.service
       (init (ReplySamples.one_config "first.example")) []
     = (inr (with_results (init (ReplySamples.one_config "first.example")) rs, rs),
        l') /\
     get_alerts (with_results (init (ReplySamples.one_config "first.example")) rs)
     = inl (Exn AttributeError "'NoneType' object has no attribute 'get'")) /\
  (exists rs l',
     check_all_domains Sample.env_ok ReplySamples.service
       (init (ReplySamples.one_config "third.example")) []
     = (inr (with_results (init (ReplySamples.one_config "third.example")) rs, rs),
        l') /\
     get_alerts (with_results (init (ReplySamples.one_config "third.example")) rs)
     = inl (Exn TypeError
              "'<=' not supported between instances of 'NoneType' and 'int'")) /\
  (exists l',
     check_all_domains Sample.env_ok ReplySamples.service
       (init (ReplySamples.one_config "second.example")) []
     = (inr (with_results (init (ReplySamples.one_config "second.example"))
               [ReplySamples.no_output_entry],
             [ReplySamples.no_output_entry]), l') /\
     get_alerts (with_results (init (ReplySamples.one_config "second.example"))
                   [ReplySamples.no_output_entry])
     = inr []).
Proof.
  split; [|split; [|split; [|split]]].
  - intros env service self l.
    destruct (check_all_domains_loop_entries env service self
                (self_domains self) [] l) as (rs & l' & Hrun & Hd & Hs).
    exists rs, l'. cbn [app] in Hrun.
    split; [unfold check_all_domains, bind; rewrite Hrun; reflexivity|].
    split; [exact Hd|]. split; [exact Hs|].
    unfold get_alerts. cbn [with_results config results].
    pose proof (get_alerts_loop_outcome (config self) rs Hs []) as H.
    destruct (get_alerts_loop (config self) rs []) as [e|out]; [exact H|].
    destruct H as (He & new & -> & Hl & Hn). cbn [app].
    split; [exact He|]. rewrite <- Hd, length_map. split; [exact Hl | exact Hn].
  - intros env self l.
    destruct (BatchMore.alerts_after_batch env self l)
      as (rs & l' & alerts & Hrun & _ & Hget & -> & _).
    exists rs, l'. split; [exact Hrun|].
    assert (check_all_domains env (typed_service env) (encode_monitor self) l
            = (inr (with_results (encode_monitor self) (map encode_result rs),
                    map encode_result rs), l')) as Hraw.
    { unfold check_all_domains, bind. cbn [encode_monitor self_domains].
      pose proof (check_all_domains_loop_encode env self
                    (Monitor.self_domains self) [] l) as H.
      cbn [map] in H. rewrite H. clear H.
      unfold Monitor.check_all_domains, bind in Hrun.
      destruct (Monitor.check_all_domains_loop env self
                  (Monitor.self_domains self) [] l) as [[e|rs'] l2];
        inversion Hrun; subst. reflexivity. }
    split; [exact Hraw|].
    assert (get_alerts (with_results (encode_monitor self) (map encode_result rs))
            = inr (map encode_alert (Monitor.evaluate (Monitor.config self) rs)))
      as Halerts.
    { unfold get_alerts. cbn [with_results config results encode_monitor].
      change (@nil alert) with (map encode_alert []).
      rewrite get_alerts_loop_encode.
      unfold Monitor.get_alerts in Hget.
      cbn [Monitor.with_results Monitor.config Monitor.results] in Hget.
      now rewrite Hget. }
    split; [|exact Halerts].
    destruct (check_all_domains_loop_entries env (typed_service env)
                (encode_monitor self) (self_domains (encode_monitor self)) [] l)
      as (rs2 & l2 & Hrun2 & _ & Hs).
    cbn [app] in Hrun2. unfold check_all_domains, bind in Hraw.
    rewrite Hrun2 in Hraw. inversion Hraw; subst.
    unfold get_alerts in Halerts. cbn [with_results config results] in Halerts.
    pose proof (get_alerts_loop_outcome (Monitor.config self)
                  (map encode_result rs) Hs []) as H.
    cbn [encode_monitor config] in Halerts. rewrite Halerts in H. apply H.
  - do 2 eexists. split; reflexivity.
  - do 2 eexists. split; reflexivity.
  - eexists. split; reflexivity.
Qed.

End RepliesFacts.
